(** * Value stock screener: polling pipeline and screening engine

    A shallow embedding of the Python sources

      - [src/pages/1_Stock Screener.py]  (screening engine),
      - [src/pipeline/api.py]            (ratio fetchers),
      - [src/pipeline/data_poller.py]    (polling loop and retry loop),
      - [src/pipeline/db.py]             (transactions and the two writes),

    followed by the properties of the specification, each one stated over
    these definitions.

    Conventions.  A pandas float column is a column of binary64 values, so
    a cell is a [spec_float] (IEEE 754, with NaN) at precision 53; a
    missing numeric cell is NaN, as in pandas.  A missing string cell is
    [None].  A date is a number of days since 1970-01-01, [None] is NaT.
    Python exceptions are results in a sum type; the mutation of an
    argument is shown by returning the argument's state after the call. *)

From stdpp Require Import gmap strings.
From Stdlib Require Import ZArith List Bool Ascii Lia SpecFloat Sorted Permutation.
Import ListNotations.

Local Open Scope Z_scope.

(** ** binary64 floating point, as Python and numpy compute it *)

Module Float.

Definition float : Type := spec_float.

Definition prec : Z := 53.
Definition emax : Z := 1024.

Definition nan : float := S754_nan.
Definition zero : float := S754_zero false.

Definition is_nan (x : float) : bool :=
  match x with S754_nan => true | _ => false end.

Definition add : float -> float -> float := SFadd prec emax.
Definition mul : float -> float -> float := SFmul prec emax.
Definition div : float -> float -> float := SFdiv prec emax.

(** The four comparison operators.  Every one of them is false as soon
    as one side is NaN. *)
Definition ltb (x y : float) : bool :=
  match SFcompare x y with Some Lt => true | _ => false end.
Definition leb (x y : float) : bool :=
  match SFcompare x y with Some (Lt | Eq) => true | _ => false end.
Definition gtb (x y : float) : bool :=
  match SFcompare x y with Some Gt => true | _ => false end.
Definition geb (x y : float) : bool :=
  match SFcompare x y with Some (Gt | Eq) => true | _ => false end.
Definition eqb (x y : float) : bool :=
  match SFcompare x y with Some Eq => true | _ => false end.

(** [float(n)] for an integer and the literal [n/d]. *)
Definition of_Z (n : Z) : float := binary_normalize prec emax n 0 false.
Definition of_ratio (n d : Z) : float := div (of_Z n) (of_Z d).

(** Python's builtin [min(a, b)]: the second argument is taken only
    when it compares less than the first. *)
Definition py_min (a b : float) : float := if ltb b a then b else a.

(** [Series.mean()] with the default [skipna=True]: NaN cells are left
    out; the mean of no value at all is NaN.  The values are added from
    the left; the order of the additions inside numpy is not modelled
    and no statement below depends on it. *)
Definition dropna (xs : list float) : list float :=
  List.filter (fun x => negb (is_nan x)) xs.

Definition sum (xs : list float) : float := fold_left add xs zero.

Definition mean (xs : list float) : float :=
  let vs := dropna xs in
  match vs with
  | [] => nan
  | _ => div (sum vs) (of_Z (Z.of_nat (length vs)))
  end.

End Float.

Abbreviation float := Float.float.

(** ** Calendar dates *)

Module Calendar.

(** Days since 1970-01-01 of a proleptic Gregorian date. *)
Definition days_from_civil (y m d : Z) : Z :=
  let y' := if m <=? 2 then y - 1 else y in
  let era := y' / 400 in
  let yoe := y' - era * 400 in
  let mp := if 2 <? m then m - 3 else m + 9 in
  let doy := (153 * mp + 2) / 5 + d - 1 in
  let doe := yoe * 365 + yoe / 4 - yoe / 100 + doy in
  era * 146097 + doe - 719468.

(** The [.year] attribute of the date that lies [days] after the epoch. *)
Definition year_of_days (days : Z) : Z :=
  let z := days + 719468 in
  let era := z / 146097 in
  let doe := z - era * 146097 in
  let yoe := (doe - doe / 1460 + doe / 36524 - doe / 146096) / 365 in
  let doy := doe - (365 * yoe + yoe / 4 - yoe / 100) in
  let mp := (5 * doy + 2) / 153 in
  let m := if mp <? 10 then mp + 3 else mp - 9 in
  yoe + era * 400 + (if m <=? 2 then 1 else 0).

(** [timedelta(days=3*365)] *)
Definition three_years : Z := 3 * 365.

End Calendar.

(** ** Data model of the screening engine *)

(** One row of the history frame ([macrotrends_pe_pb_hist]).  The column
    [year] is the one [screen_stocks] adds; it is [None] while the column
    is absent and where the entry is NaN. *)
Record Row : Type := mkRow {
  symbol : option string;
  name : option string;
  date : option Z;
  stock_price : float;
  book_value_per_share : float;
  price_to_book_ratio : float;
  ttm_net_eps : float;
  pe_ratio : float;
  year : option Z
}.

(** The dtype of the [date] column: Python [date] objects as the database
    driver returns them, or [datetime64] after [pd.to_datetime]. *)
Inductive date_dtype : Type := DateObjects | Datetime64.

(** The history DataFrame: an object with columns and rows.  *)
Record DataFrame : Type := mkDataFrame {
  dates_as : date_dtype;
  has_year : bool;
  rows : list Row
}.

(** One row of the current-ratio snapshot ([current_ratios]). *)
Module Current.
Record row : Type := mk {
  symbol : string;
  last_update : Z;
  pb_ratio : float;
  pe_ratio : float
}.
End Current.

(** The criteria dictionary built by [main]. *)
Record Criteria : Type := mkCriteria {
  years_pb_history : Z;
  only_positive_pb : bool;
  max_current_pb_ratio : float;
  pb_margin_of_safety : float;
  years_positive_pe_history : Z;
  max_current_pe_ratio : float
}.

(** ** pandas operations used by the screening engine *)

Definition set_year (y : option Z) (r : Row) : Row :=
  mkRow (symbol r) (name r) (date r) (stock_price r) (book_value_per_share r)
        (price_to_book_ratio r) (ttm_net_eps r) (pe_ratio r) y.

(** [Series.unique()]: the distinct values in order of first appearance. *)
Fixpoint unique_from {A} (eqb : A -> A -> bool) (seen l : list A) : list A :=
  match l with
  | [] => []
  | x :: t =>
      if existsb (eqb x) seen then unique_from eqb seen t
      else x :: unique_from eqb (x :: seen) t
  end.

Definition unique {A} (eqb : A -> A -> bool) (l : list A) : list A :=
  unique_from eqb [] l.

(** The non-missing cells of a column. *)
Fixpoint notna {A B} (col : A -> option B) (l : list A) : list B :=
  match l with
  | [] => []
  | x :: t =>
      match col x with
      | Some v => v :: notna col t
      | None => notna col t
      end
  end.

(** [Series.nunique()]: NaN is not counted. *)
Definition nunique_year (l : list Row) : Z :=
  Z.of_nat (length (unique Z.eqb (notna year l))).

(** [Series.max()] and [Series.min()] of an integer or date column; NaN
    and NaT are skipped, the result is missing when nothing is left. *)
Definition col_max {A} (col : A -> option Z) (l : list A) : option Z :=
  match notna col l with
  | [] => None
  | v :: vs => Some (fold_left Z.max vs v)
  end.

Definition col_min {A} (col : A -> option Z) (l : list A) : option Z :=
  match notna col l with
  | [] => None
  | v :: vs => Some (fold_left Z.min vs v)
  end.

(** [sort_values('date', ascending=...)]: a stable insertion sort on the
    date, NaT last whatever the direction. *)
Definition date_before (ascending : bool) (a b : Row) : bool :=
  match date a, date b with
  | Some x, Some y => if ascending then x <=? y else y <=? x
  | Some _, None => true
  | None, Some _ => false
  | None, None => true
  end.

Fixpoint insert_sorted (ascending : bool) (r : Row) (l : list Row) : list Row :=
  match l with
  | [] => [r]
  | h :: t =>
      if date_before ascending r h then r :: l
      else h :: insert_sorted ascending r t
  end.

Definition sort_values (ascending : bool) (l : list Row) : list Row :=
  fold_right (insert_sorted ascending) [] l.

(** The order that [sort_values] establishes between neighbours. *)
Definition dated_before (ascending : bool) (a b : Row) : Prop :=
  date_before ascending a b = true.

(** [df.iloc[-1]]: raises IndexError on an empty frame. *)
Definition iloc_last {A} (l : list A) : option A := last (map Some l) None.

(** The rows of one symbol, in the order of the frame. *)
Definition has_symbol (s : string) (r : Row) : bool :=
  match symbol r with
  | Some s' => String.eqb s' s
  | None => false
  end.

Definition group_of (s : string) (l : list Row) : list Row :=
  List.filter (has_symbol s) l.

(** [Series.isin(values)] on the symbol column. *)
Definition isin (values : list string) (s : string) : bool :=
  existsb (String.eqb s) values.

Definition symbol_isin (values : list string) (r : Row) : bool :=
  match symbol r with
  | Some s => isin values s
  | None => false
  end.

(** ** [calculate_avg_pb_ratios] *)

(** The result triple, and the argument after [sort_values(inplace=True)]. *)
Definition calculate_avg_pb_ratios (stock_data : list Row)
  : (float * float * option Z) * list Row :=
  let stock_data := sort_values true stock_data in
  let last_q_report_date := col_max date stock_data in
  let available_years :=
    match last_q_report_date, col_min date stock_data with
    | Some hi, Some lo =>
        Some (Calendar.year_of_days hi - Calendar.year_of_days lo + 1)
    | _, _ => None
    end in
  let date_three_years_ago :=
    option_map (fun d => d - Calendar.three_years) last_q_report_date in
  let avg_calc_rows :=
    List.filter
      (fun r =>
         match date r, date_three_years_ago with
         | Some d, Some d0 => d0 <? d
         | _, _ => false
         end) stock_data in
  let avg_pb_3_year := Float.mean (map price_to_book_ratio avg_calc_rows) in
  let avg_pb_max_year := Float.mean (map price_to_book_ratio stock_data) in
  ((avg_pb_3_year, avg_pb_max_year, available_years), stock_data).

(** ** [screen_stocks] and the nested [stock_meets_criteria] *)

(** The try/except at the head of [stock_meets_criteria]: the first row
    of the snapshot with the group's symbol; any exception (an empty
    selection, an empty group) means [use_current_ratios = False]. *)
Definition current_ratios_row (current_df : list Current.row)
    (group : list Row) : option Current.row :=
  match group with
  | [] => None
  | r :: _ =>
      match symbol r with
      | Some s => find (fun c => String.eqb (Current.symbol c) s) current_df
      | None => None
      end
  end.

(** [group.groupby('year').first()['pe_ratio']]: for every year of the
    group, the first non-missing P/E of that year in the order of the
    group. *)
Definition first_pe_of_year (group : list Row) (y : Z) : float :=
  match
    find (fun r =>
            match year r with
            | Some y' => (y' =? y) && negb (Float.is_nan (pe_ratio r))
            | None => false
            end) group
  with
  | Some r => pe_ratio r
  | None => Float.nan
  end.

Definition yearly_first_pe (group : list Row) : list float :=
  map (first_pe_of_year group) (unique Z.eqb (notna year group)).

(** The six conditions under which [valid] is set to [False]. *)
Definition too_few_pb_years (criteria : Criteria) (group : list Row) : bool :=
  nunique_year group <? years_pb_history criteria.

Definition some_pb_not_positive (group : list Row) : bool :=
  existsb (fun r => Float.leb (price_to_book_ratio r) Float.zero) group.

Definition above_pb_ceiling (criteria : Criteria) (latest_pb_ratio : float) : bool :=
  Float.geb latest_pb_ratio (max_current_pb_ratio criteria).

Definition above_safety_threshold (criteria : Criteria)
    (latest_pb_ratio avg_pb_3_year avg_pb_max_year : float) : bool :=
  Float.gtb latest_pb_ratio
    (Float.mul (pb_margin_of_safety criteria)
               (Float.py_min avg_pb_3_year avg_pb_max_year)).

Definition too_few_positive_pe_years (criteria : Criteria) (group : list Row) : bool :=
  Z.of_nat (length (List.filter (fun v => Float.gtb v Float.zero)
                                (yearly_first_pe group)))
  <? years_positive_pe_history criteria.

Definition above_pe_ceiling (criteria : Criteria) (latest_pe_ratio : float) : bool :=
  Float.geb latest_pe_ratio (max_current_pe_ratio criteria).

(** The value of the snapshot when there is one, else the cell of the
    latest historical row; [None] is the IndexError of [iloc[-1]]. *)
Definition latest_ratio (col_cur : Current.row -> float) (col_hist : Row -> float)
    (cur : option Current.row) (group : list Row) : option float :=
  match cur with
  | Some c => Some (col_cur c)
  | None => option_map col_hist (iloc_last (sort_values true group))
  end.

(** [stock_meets_criteria(group)].  The local [group] is re-bound where
    the source sorts it in place. *)
Definition stock_meets_criteria (current_df : list Current.row)
    (criteria : Criteria) (group : list Row) : option bool :=
  let valid := true in
  let cur := current_ratios_row current_df group in
  let valid := if too_few_pb_years criteria group then false else valid in
  let valid :=
    if only_positive_pb criteria
    then (if some_pb_not_positive group then false else valid)
    else valid in
  latest_pb_ratio ← latest_ratio Current.pb_ratio price_to_book_ratio cur group;
  let valid := if above_pb_ceiling criteria latest_pb_ratio then false else valid in
  let '((avg_pb_3_year, avg_pb_max_year, _), group) :=
    calculate_avg_pb_ratios group in
  let valid :=
    if above_safety_threshold criteria latest_pb_ratio avg_pb_3_year avg_pb_max_year
    then false else valid in
  let group := sort_values false group in
  let valid := if too_few_positive_pe_years criteria group then false else valid in
  latest_pe_ratio ← latest_ratio Current.pe_ratio pe_ratio cur group;
  let valid := if above_pe_ceiling criteria latest_pe_ratio then false else valid in
  Some valid.

(** [df[mask]]: a new frame with the same columns. *)
Definition select (mask : Row -> bool) (df : DataFrame) : DataFrame :=
  mkDataFrame (dates_as df) (has_year df) (List.filter mask (rows df)).

(** Lines 45-46, carried out on the caller's object:
    [df['date'] = pd.to_datetime(df['date'])] and
    [df['year'] = df['date'].dt.year]. *)
Definition add_year_column (df : DataFrame) : DataFrame :=
  mkDataFrame Datetime64 true
    (map (fun r => set_year (option_map Calendar.year_of_days (date r)) r)
         (rows df)).

(** [df['year'] != datetime.now().year]; NaN differs from every year. *)
Definition not_current_year (now_year : Z) (r : Row) : bool :=
  match year r with
  | Some y => negb (y =? now_year)
  | None => true
  end.

(** [df['year'] > (most_recent_year - 10)]; false when either side is NaN. *)
Definition within_ten_years (most_recent_year : option Z) (r : Row) : bool :=
  match year r, most_recent_year with
  | Some y, Some m => m - 10 <? y
  | _, _ => false
  end.

(** Lines 48-55: the windowed history, a new frame. *)
Definition window (now_year : Z) (df : DataFrame) : DataFrame :=
  let df := select (not_current_year now_year) df in
  let most_recent_year := col_max year (rows df) in
  select (within_ten_years most_recent_year) df.

(** [df.groupby('symbol')]: the keys are the non-missing symbols. *)
Definition symbols (l : list Row) : list string :=
  unique String.eqb (notna symbol l).

(** [df.groupby('symbol').filter(func)]: [func] is applied to every group;
    the rows of the groups for which it is true are kept, in the order of
    the frame; an exception of [func] ends the call. *)
Definition verdict_of (verdicts : list (string * bool)) (s : string) : bool :=
  existsb (fun sv => String.eqb (fst sv) s && snd sv) verdicts.

Definition groupby_filter (func : list Row -> option bool) (l : list Row)
  : option (list Row) :=
  verdicts ← mapM (fun s => v ← func (group_of s l); Some (s, v)) (symbols l);
  Some (List.filter
          (fun r =>
             match symbol r with
             | Some s => verdict_of verdicts s
             | None => false
             end) l).

(** Line 104: the qualifying set. *)
Definition screened_symbols (now_year : Z) (df : DataFrame)
    (current_df : list Current.row) (criteria : Criteria) : option (list string) :=
  let df := window now_year (add_year_column df) in
  kept ← groupby_filter (stock_meets_criteria current_df criteria) (rows df);
  Some (unique String.eqb (notna symbol kept)).

(** The whole call, body of the cached function: the state of the
    caller's history frame after the call, and the returned pair (or
    [None] when an exception leaves the function).  [now_year] is
    [datetime.now().year]. *)
Definition screen_stocks (now_year : Z) (df : DataFrame)
    (current_df : list Current.row) (criteria : Criteria)
  : DataFrame * option (DataFrame * list Current.row) :=
  let caller_df := add_year_column df in
  let df := window now_year caller_df in
  (caller_df,
   kept ← groupby_filter (stock_meets_criteria current_df criteria) (rows df);
   let screened_symbols := unique String.eqb (notna symbol kept) in
   let filtered_df := select (symbol_isin screened_symbols) df in
   let filtered_current_df :=
     List.filter (fun c => isin screened_symbols (Current.symbol c)) current_df in
   Some (filtered_df, filtered_current_df)).

(** ** Exceptions *)

(** The result of a call that may raise an [Exception]. *)
Inductive result (A : Type) : Type :=
| Ok (a : A)
| Raise (what : string).
Arguments Ok {A} a.
Arguments Raise {A} what.

#[global] Instance result_ret : MRet result := fun _ a => Ok a.
#[global] Instance result_bind : MBind result :=
  fun _ _ f m => match m with Ok a => f a | Raise e => Raise e end.

Fixpoint result_mapM {A B} (f : A -> result B) (l : list A) : result (list B) :=
  match l with
  | [] => Ok []
  | x :: t => y ← f x; ys ← result_mapM f t; Ok (y :: ys)
  end.

(** ** The ratio fetchers ([StockDataAPI]) *)

Module Api.

(** A row of the history table of a page as [pd.read_html(..., header=1)]
    reads it: the date and the two money columns are text (a blank cell
    is [None]), the ratio column is numeric.  The third column is
    "Book Value per Share" on the P/B page and "TTM Net EPS" on the
    P/E page. *)
Record TableRow : Type := mkTableRow {
  date_cell : option string;
  stock_price_cell : option string;
  per_share_cell : option string;
  ratio_cell : float
}.

(** What the parsed response holds: the text of the element under the
    selector of the current value (if the selector matches) and the
    first table (if there is one). *)
Record Page : Type := mkPage {
  strong_text : option string;
  table : option (list TableRow)
}.

(** The frame returned by [get_pb_ratio_history]. *)
Record PBRow : Type := mkPBRow {
  pb_symbol : string;
  pb_name : string;
  pb_date : Z;
  pb_stock_price : float;
  pb_book_value_per_share : float;
  pb_price_to_book_ratio : float
}.

(** The frame returned by [get_pe_ratio_history]. *)
Record PERow : Type := mkPERow {
  pe_date : option Z;
  pe_ttm_net_eps : float;
  pe_pe_ratio : float
}.

(** [re.sub('[\$,]', '', s)] *)
Fixpoint strip_money (s : string) : string :=
  match s with
  | EmptyString => EmptyString
  | String c t =>
      if (Ascii.eqb c "$"%char || Ascii.eqb c ","%char)%bool then strip_money t
      else String c (strip_money t)
  end.

Section Parsers.

(** The two library conversions of one text cell: [pd.to_datetime]
    (days since the epoch) and [float]; [None] when the text cannot
    be converted. *)
Variable to_datetime : string -> option Z.
Variable to_float : string -> option float.

(** [float(element.text)] on the result of [select_one]. *)
Definition current_value (p : Page) : result float :=
  match strong_text p with
  | None => Raise "AttributeError: 'NoneType' object has no attribute 'text'"
  | Some s =>
      match to_float s with
      | Some x => Ok x
      | None => Raise "ValueError: could not convert string to float"
      end
  end.

(** [pd.read_html(str(table), header=1)[0]] *)
Definition read_html (p : Page) : result (list TableRow) :=
  match table p with
  | None => Raise "ValueError: No tables found"
  | Some l => Ok l
  end.

(** [col.replace('[\$,]', '', regex=True).astype(float)] on one cell. *)
Definition money (c : option string) : result float :=
  match c with
  | None => Ok Float.nan
  | Some s =>
      match to_float (strip_money s) with
      | Some x => Ok x
      | None => Raise "ValueError: could not convert string to float"
      end
  end.

(** [pd.to_datetime(col, errors='coerce')] on one cell: NaT for a
    blank cell and for a text that does not parse. *)
Definition to_datetime_coerce (c : option string) : option Z :=
  match c with
  | None => None
  | Some s => to_datetime s
  end.

(** [pd.to_datetime(col)] on one cell, with the default
    [errors='raise']: NaT for a blank cell, an exception for a text
    that does not parse. *)
Definition to_datetime_raise (c : option string) : result (option Z) :=
  match c with
  | None => Ok None
  | Some s =>
      match to_datetime s with
      | Some d => Ok (Some d)
      | None => Raise "ValueError: Unknown datetime string format"
      end
  end.

(** Lines 127-139 of [get_pb_ratio_history]: dates coerced, rows
    without a date dropped, then the value columns converted. *)
Definition pb_frame (symbol company_name : string) (l : list TableRow)
  : result (list PBRow) :=
  let dated := map (fun r => (to_datetime_coerce (date_cell r), r)) l in
  let kept :=
    notna (fun dr => match fst dr with
                     | Some d => Some (d, snd dr)
                     | None => None
                     end) dated in
  result_mapM
    (fun dr =>
       let '(d, r) := dr in
       sp ← money (stock_price_cell r);
       bv ← money (per_share_cell r);
       Ok (mkPBRow symbol company_name d sp bv (ratio_cell r)))
    kept.

(** Lines 87-91 of [get_pe_ratio_history]: dates converted (raising),
    then the EPS column converted; the price column is dropped. *)
Definition pe_frame (l : list TableRow) : result (list PERow) :=
  dated ← result_mapM
            (fun r => d ← to_datetime_raise (date_cell r); Ok (d, r)) l;
  result_mapM
    (fun dr =>
       let '(d, r) := dr in
       eps ← money (per_share_cell r);
       Ok (mkPERow d eps (ratio_cell r)))
    dated.

(** The two fetchers.  [response] is what [requests.get] returns for
    the URL of the security, [None] when the request itself raises. *)
Definition get_pb_ratio_history (symbol company_name : string)
    (response : option Page) : result (list PBRow * float) :=
  match response with
  | None => Raise "ConnectionError"
  | Some page =>
      current_pb_ratio ← current_value page;
      df ← read_html page;
      df ← pb_frame symbol company_name df;
      Ok (df, current_pb_ratio)
  end.

Definition get_pe_ratio_history (symbol company_name : string)
    (response : option Page) : result (list PERow * float) :=
  match response with
  | None => Raise "ConnectionError"
  | Some page =>
      current_pe_ratio ← current_value page;
      df ← read_html page;
      df ← pe_frame df;
      Ok (df, current_pe_ratio)
  end.

End Parsers.

End Api.

(** ** Storage ([PostgreSQL]) *)

Module Db.

(** The two tables, each one a finite map on its UNIQUE constraint:
    (Symbol, Date) for the history, Symbol for the snapshot. *)
Record Tables : Type := mkTables {
  macrotrends_pe_pb_hist : gmap (option string * option Z) Row;
  current_ratios : gmap string Current.row
}.

(** A connection: what is committed on the server, and what the open
    transaction of this connection has written so far. *)
Record Connection : Type := mkConnection {
  committed : Tables;
  working : Tables
}.

Definition connect (t : Tables) : Connection := mkConnection t t.
Definition commit (c : Connection) : Connection :=
  mkConnection (working c) (working c).
Definition rollback (c : Connection) : Connection :=
  mkConnection (committed c) (committed c).

(** The [transaction] context manager around a body: commit when the
    body ends normally; roll back and re-raise when it raises. *)
Definition transaction (body : Connection -> result unit * Connection)
    (c : Connection) : result unit * Connection :=
  match body c with
  | (Ok _, c') => (Ok tt, commit c')
  | (Raise e, c') => (Raise e, rollback c')
  end.

(** [cursor.executemany(query, all_data)]: the statement is executed for
    every tuple in turn; [execute] is the effect of one execution on the
    open transaction, [None] when the server rejects it. *)
Fixpoint executemany {A} (execute : Tables -> A -> option Tables)
    (all_data : list A) (c : Connection) : result unit * Connection :=
  match all_data with
  | [] => (Ok tt, c)
  | x :: rest =>
      match execute (working c) x with
      | Some w => executemany execute rest (mkConnection (committed c) w)
      | None => (Raise "psycopg2.Error", c)
      end
  end.

(** The statement executed for every tuple in turn on the content of
    the tables, outside of any transaction: the tables after the last
    execution, [None] when one execution is rejected. *)
Fixpoint execute_all {A} (execute : Tables -> A -> option Tables)
    (all_data : list A) (t : Tables) : option Tables :=
  match all_data with
  | [] => Some t
  | x :: rest => t' ← execute t x; execute_all execute rest t'
  end.

(** Symbol is VARCHAR(10) and Name is VARCHAR(100). *)
Definition fits (width : nat) (s : option string) : bool :=
  match s with
  | Some s => (String.length s <=? width)%nat
  | None => true
  end.

(** INSERT INTO macrotrends_pe_pb_hist ... ON CONFLICT (Symbol, Date)
    DO NOTHING *)
Definition insert_report (t : Tables) (r : Row) : option Tables :=
  if fits 10 (symbol r) && fits 100 (name r) then
    match macrotrends_pe_pb_hist t !! (symbol r, date r) with
    | Some _ => Some t
    | None =>
        Some (mkTables (<[(symbol r, date r) := r]> (macrotrends_pe_pb_hist t))
                       (current_ratios t))
    end
  else None.

(** INSERT INTO current_ratios ... ON CONFLICT (Symbol) DO UPDATE SET
    PB_Ratio, PE_Ratio, Last_Update *)
Definition upsert_current_ratio (t : Tables) (r : Current.row) : option Tables :=
  if fits 10 (Some (Current.symbol r)) then
    Some (mkTables (macrotrends_pe_pb_hist t)
                   (<[Current.symbol r := r]> (current_ratios t)))
  else None.

(** [prepare_tuples] keeps the rows as they are; [all_data] is the
    concatenation over the frames of the list. *)
Definition store_report_dataframes (dataframes : list (list Row))
    (c : Connection) : result unit * Connection :=
  let all_data := concat dataframes in
  transaction (executemany insert_report all_data) c.

Definition store_current_ratio_dataframes (dataframes : list (list Current.row))
    (c : Connection) : result unit * Connection :=
  let all_data := concat dataframes in
  transaction (executemany upsert_current_ratio all_data) c.

End Db.

(** ** The polling loop ([DataPoller]) *)

Module Ticker.
(** A row of the frame returned by [get_exchange_tickers]. *)
Record row : Type := mk {
  symbol : string;
  full_name : string;
  url : string
}.
End Ticker.

Module Poller.

(** What the loop does to the outside world, in order. *)
Inductive event : Type :=
| Get (url : string)      (* an HTTP request *)
| DoSleep                 (* [self.do_sleep()] *)
| Warn (what : string).   (* [logger.warn] / [logger.warning] *)

(** The variables of [poll_tickers] that live across iterations; [None]
    is a name that has not been bound yet. *)
Record Locals : Type := mkLocals {
  pb_history_df : option (list Api.PBRow);
  current_pb : option float;
  pe_history_df : option (list Api.PERow);
  current_pe : option float;
  concat_df : option (list Row)
}.

Definition unbound : Locals := mkLocals None None None None None.

Record State : Type := mkState {
  locals : Locals;
  database : Db.Connection;
  trace : list event
}.

Definition emit (e : event) (st : State) : State :=
  mkState (locals st) (database st) (trace st ++ [e]).
Definition with_locals (l : Locals) (st : State) : State :=
  mkState l (database st) (trace st).
Definition with_database (c : Db.Connection) (st : State) : State :=
  mkState (locals st) c (trace st).

Definition pb_url (r : Ticker.row) : string :=
  "https://www.macrotrends.net/stocks/charts/" +:+ Ticker.url r +:+ "/price-book".
Definition pe_url (r : Ticker.row) : string :=
  "https://www.macrotrends.net/stocks/charts/" +:+ Ticker.url r +:+ "/pe-ratio".

(** [pd.concat([pb.set_index('date'), pe.set_index('date')], axis=1)
    .reset_index()]: an outer join on the date.  A date that occurs
    twice on one side makes the re-indexing fail. *)
Definition date_eqb (a b : option Z) : bool :=
  match a, b with
  | Some x, Some y => x =? y
  | None, None => true
  | _, _ => false
  end.

Fixpoint has_duplicates (l : list (option Z)) : bool :=
  match l with
  | [] => false
  | d :: t => existsb (date_eqb d) t || has_duplicates t
  end.

Definition merged_row (d : option Z) (pb : option Api.PBRow)
    (pe : option Api.PERow) : Row :=
  mkRow (option_map Api.pb_symbol pb)
        (option_map Api.pb_name pb)
        d
        (from_option Api.pb_stock_price Float.nan pb)
        (from_option Api.pb_book_value_per_share Float.nan pb)
        (from_option Api.pb_price_to_book_ratio Float.nan pb)
        (from_option Api.pe_ttm_net_eps Float.nan pe)
        (from_option Api.pe_pe_ratio Float.nan pe)
        None.

Definition concat_on_date (pb : list Api.PBRow) (pe : list Api.PERow)
  : result (list Row) :=
  let pb_dates := map (fun r => Some (Api.pb_date r)) pb in
  let pe_dates := map Api.pe_date pe in
  if has_duplicates pb_dates || has_duplicates pe_dates
  then Raise "InvalidIndexError"
  else
    let index :=
      pb_dates ++
      List.filter (fun d => negb (existsb (date_eqb d) pb_dates)) pe_dates in
    Ok (map (fun d =>
               merged_row d
                 (find (fun r => date_eqb (Some (Api.pb_date r)) d) pb)
                 (find (fun r => date_eqb (Api.pe_date r) d) pe))
            index).

Section Environment.

Variable to_datetime : string -> option Z.
Variable to_float : string -> option float.
(** The response to a GET of a URL ([None]: the request raises), and
    [pd.Timestamp.now()]. *)
Variable web : string -> option Api.Page.
Variable now : Z.

(** Lines 98-104: store the history frame, the exception is logged. *)
Definition store_history (st : State) : State :=
  match concat_df (locals st) with
  | None => emit (Warn "storing historical ratio data: NameError") st
  | Some df =>
      match Db.store_report_dataframes [df] (database st) with
      | (Ok _, c) => with_database c st
      | (Raise e, c) =>
          emit (Warn "storing historical ratio data") (with_database c st)
      end
  end.

(** Lines 106-112: store the snapshot row, the exception is logged. *)
Definition store_current (current_ratio_rows : list Current.row)
    (st : State) : State :=
  match Db.store_current_ratio_dataframes [current_ratio_rows] (database st) with
  | (Ok _, c) => with_database c st
  | (Raise e, c) =>
      emit (Warn "storing current ratio data") (with_database c st)
  end.

(** One iteration of the [for] loop.  [Raise] is an exception that
    leaves the loop. *)
Definition poll_ticker (r : Ticker.row) (st : State) : result unit * State :=
  (* Get the P/B history *)
  let st := emit (Get (pb_url r)) st in
  match Api.get_pb_ratio_history to_datetime to_float
          (Ticker.symbol r) (Ticker.full_name r) (web (pb_url r)) with
  | Raise e =>
      (* logged, then [continue] *)
      (Ok tt, emit (Warn "Could not fetch P/B history") st)
  | Ok (df, current) =>
      let l := locals st in
      let st :=
        with_locals (mkLocals (Some df) (Some current) (pe_history_df l)
                              (current_pe l) (concat_df l)) st in
      let st := emit DoSleep st in
      (* Get the P/E history *)
      let st := emit (Get (pe_url r)) st in
      let st :=
        match Api.get_pe_ratio_history to_datetime to_float
                (Ticker.symbol r) (Ticker.full_name r) (web (pe_url r)) with
        | Ok (df, current) =>
            let l := locals st in
            emit DoSleep
              (with_locals (mkLocals (pb_history_df l) (current_pb l)
                                     (Some df) (Some current) (concat_df l)) st)
        | Raise e =>
            emit DoSleep (emit (Warn "Could not fetch P/B history") st)
        end in
      (* Concatenate the P/B and P/E history *)
      let st :=
        let l := locals st in
        match pb_history_df l, pe_history_df l with
        | Some pb, Some pe =>
            match concat_on_date pb pe with
            | Ok df =>
                with_locals (mkLocals (pb_history_df l) (current_pb l)
                                      (pe_history_df l) (current_pe l)
                                      (Some (sort_values false df))) st
            | Raise e => emit (Warn "Could not concatenate P/B and P/E history") st
            end
        | _, _ => emit (Warn "Could not concatenate P/B and P/E history") st
        end in
      (* Build the row for current P/B and P/E *)
      match current_pb (locals st), current_pe (locals st) with
      | Some pb, Some pe =>
          let current_ratio_rows := [Current.mk (Ticker.symbol r) now pb pe] in
          let st := store_history st in
          let st := store_current current_ratio_rows st in
          (Ok tt, st)
      | _, _ => (Raise "NameError: name 'current_pe' is not defined", st)
      end
  end.

Fixpoint poll_loop (all_tickers_df : list Ticker.row) (st : State)
  : result unit * State :=
  match all_tickers_df with
  | [] => (Ok tt, st)
  | r :: rest =>
      match poll_ticker r st with
      | (Ok _, st) => poll_loop rest st
      | (Raise e, st) => (Raise e, st)
      end
  end.

(** [poll_tickers]: [exchange_tickers] is what [get_exchange_tickers]
    returns ([None]: it raises); [tables] is the content of the
    database when the connection is opened.  The result holds the
    content of the database when the connection is closed. *)
Definition poll_tickers (exchange_tickers : option (list Ticker.row))
    (tables : Db.Tables) : result unit * Db.Tables * list event :=
  match exchange_tickers with
  | None => (Raise "Error occurred when fetching exchange tickers", tables, [])
  | Some all_tickers_df =>
      let '(res, st) :=
        poll_loop all_tickers_df (mkState unbound (Db.connect tables) []) in
      (res, Db.committed (database st), trace st)
  end.

End Environment.

(** *** The retry loop [run] *)

(** How one call of [poll_tickers] ends. *)
Inductive outcome : Type :=
| Returned
| RaisedException
| RaisedKeyboardInterrupt.

Inductive run_event : Type :=
| Polled (o : outcome)
| LogInfo (what : string)
| LogError (what : string)
| TimeSleep (seconds : Z).

(** Where the loop is after the given calls. *)
Inductive status : Type :=
| Polling (retries : Z)   (* at the head of [while True] *)
| Stopped.                (* after [break] *)

Definition max_retries : Z := 5.
Definition base_wait_time : Z := 5.

(** One turn of [while True], from the head of the loop with the given
    value of [retries]. *)
Definition run_turn (retries : Z) (o : outcome) : list run_event * status :=
  match o with
  | Returned => ([Polled o], Polling 0)
  | RaisedKeyboardInterrupt =>
      ([Polled o; LogInfo "Polling stopped by user."], Stopped)
  | RaisedException =>
      let retries := retries + 1 in
      if max_retries <? retries
      then ([Polled o; LogError "Error occurred during ticker polling:";
             LogError "Maximum retries reached. Exiting."], Stopped)
      else
        let wait_time := base_wait_time * 2 ^ retries in
        ([Polled o; LogError "Error occurred during ticker polling:";
          LogInfo "Retrying in wait_time seconds..."; TimeSleep wait_time],
         Polling retries)
  end.

(** The loop, driven by the way the successive calls of [poll_tickers]
    end.  The loop has no exit of its own: [Polling r] is returned when
    the given calls are used up and the loop is still running. *)
Fixpoint run_from (retries : Z) (calls : list outcome)
  : list run_event * status :=
  match calls with
  | [] => ([], Polling retries)
  | o :: rest =>
      match run_turn retries o with
      | (evs, Polling r) =>
          let '(evs', s) := run_from r rest in (evs ++ evs', s)
      | (evs, Stopped) => (evs, Stopped)
      end
  end.

Definition run (calls : list outcome) : list run_event * status :=
  run_from 0 calls.

(** The greatest number of sleeps of the retry loop that no returning
    call separates, counted from [current]. *)
Fixpoint retries_in_a_row (current : nat) (evs : list run_event) : nat :=
  match evs with
  | [] => current
  | TimeSleep _ :: t => retries_in_a_row (S current) t
  | Polled Returned :: t => Nat.max current (retries_in_a_row 0 t)
  | _ :: t => retries_in_a_row current t
  end.

End Poller.

(** ** Text conversions used to run the model on concrete pages *)

(** The two library conversions, for the texts of the pages below: ISO
    dates [YYYY-MM-DD], and plain decimal numerals (an optional sign,
    digits, an optional fraction).  On these texts they agree with
    [pd.to_datetime] and [float]; every other text is rejected. *)
Module Text.

Definition digit (c : ascii) : option Z :=
  let n := Z.of_nat (nat_of_ascii c) in
  if (48 <=? n) && (n <=? 57) then Some (n - 48) else None.

Fixpoint digits_from (acc : Z) (s : string) : option Z :=
  match s with
  | EmptyString => Some acc
  | String c t => d ← digit c; digits_from (10 * acc + d) t
  end.

Definition natural (s : string) : option Z :=
  match s with
  | EmptyString => None
  | _ => digits_from 0 s
  end.

Definition is_leap (y : Z) : bool :=
  ((y mod 4 =? 0) && negb (y mod 100 =? 0)) || (y mod 400 =? 0).

Definition days_in_month (y m : Z) : Z :=
  if m =? 2 then (if is_leap y then 29 else 28)
  else if (m =? 4) || (m =? 6) || (m =? 9) || (m =? 11) then 30
  else 31.

Definition is_dash (o : option ascii) : bool :=
  match o with
  | Some c => Ascii.eqb c "-"%char
  | None => false
  end.

Definition iso_date (s : string) : option Z :=
  if (String.length s =? 10)%nat && is_dash (String.get 4 s)
     && is_dash (String.get 7 s)
  then
    y ← natural (String.substring 0 4 s);
    m ← natural (String.substring 5 2 s);
    d ← natural (String.substring 8 2 s);
    if (1 <=? m) && (m <=? 12) && (1 <=? d) && (d <=? days_in_month y m)
    then Some (Calendar.days_from_civil y m d)
    else None
  else None.

Definition unsigned_decimal (s : string) : option float :=
  match String.index 0 "." s with
  | None => n ← natural s; Some (Float.of_Z n)
  | Some i =>
      let int_part := String.substring 0 i s in
      let frac_part := String.substring (S i) (String.length s - S i) s in
      a ← natural int_part;
      b ← natural frac_part;
      let scale := 10 ^ Z.of_nat (String.length frac_part) in
      Some (Float.of_ratio (a * scale + b) scale)
  end.

Definition decimal (s : string) : option float :=
  match s with
  | String c t =>
      if Ascii.eqb c "-"%char
      then option_map SFopp (unsigned_decimal t)
      else unsigned_decimal s
  | EmptyString => None
  end.

End Text.

(** ** Concrete inputs *)

Module Scenario.

(** The default criteria of the page. *)
Definition criteria : Criteria :=
  mkCriteria 7 true (Float.of_Z 2) (Float.of_Z 1) 7 (Float.of_Z 30).

(** A history row as the database returns it, dated 31 December. *)
Definition year_end (s : string) (pb pe : float) (y : Z) : Row :=
  mkRow (Some s) (Some s) (Some (Calendar.days_from_civil y 12 31))
        (Float.of_Z 10) (Float.of_Z 5) pb (Float.of_Z 1) pe None.

Definition loaded (l : list Row) : DataFrame := mkDataFrame DateObjects false l.

(** "GOOD": eight years of P/B 1.5 and P/E 12.
    "HOLE": P/B 1.5 up to 2019, P/B missing from 2020 to 2022.
    "FEW" : five years only. *)
Definition history : DataFrame :=
  loaded
    (map (year_end "GOOD" (Float.of_ratio 3 2) (Float.of_Z 12))
         [2015; 2016; 2017; 2018; 2019; 2020; 2021; 2022]
     ++ map (year_end "HOLE" (Float.of_ratio 3 2) (Float.of_Z 12))
            [2015; 2016; 2017; 2018; 2019]
     ++ map (year_end "HOLE" Float.nan (Float.of_Z 12)) [2020; 2021; 2022]
     ++ map (year_end "FEW" (Float.of_ratio 3 2) (Float.of_Z 12))
            [2018; 2019; 2020; 2021; 2022]).

Definition snapshot : list Current.row :=
  [Current.mk "GOOD" 0 (Float.of_ratio 14 10) (Float.of_Z 12);
   Current.mk "HOLE" 0 (Float.of_ratio 19 10) (Float.of_Z 12);
   Current.mk "FEW" 0 (Float.of_ratio 14 10) (Float.of_Z 12)].

Definition hole_group : list Row :=
  group_of "HOLE" (rows (window 2023 (add_year_column history))).


(** Two rows of one symbol, the later one first. *)
Definition unsorted : list Row :=
  [year_end "GOOD" (Float.of_Z 2) (Float.of_Z 12) 2022;
   year_end "GOOD" (Float.of_Z 1) (Float.of_Z 12) 2021].

(** Three tickers and the pages of the provider.  "A" has both pages;
    "B" has a P/B page and its P/E request fails; "C" has no page at
    all. *)
Definition alpha : Ticker.row := Ticker.mk "A" "Alpha" "A/alpha".
Definition beta : Ticker.row := Ticker.mk "B" "Beta" "B/beta".
Definition gamma : Ticker.row := Ticker.mk "C" "Gamma" "C/gamma".

Definition alpha_pb : Api.Page :=
  Api.mkPage (Some "1.5")
    (Some [Api.mkTableRow (Some "2022-12-31") (Some "$10.00") (Some "$5.00")
                          (Float.of_Z 2)]).
Definition alpha_pe : Api.Page :=
  Api.mkPage (Some "12")
    (Some [Api.mkTableRow (Some "2022-12-31") (Some "$10.00") (Some "$1.00")
                          (Float.of_Z 10)]).
Definition beta_pb : Api.Page :=
  Api.mkPage (Some "3")
    (Some [Api.mkTableRow (Some "2022-12-31") (Some "$30.00") (Some "$10.00")
                          (Float.of_Z 3)]).

Definition web (url : string) : option Api.Page :=
  if String.eqb url (Poller.pb_url alpha) then Some alpha_pb
  else if String.eqb url (Poller.pe_url alpha) then Some alpha_pe
  else if String.eqb url (Poller.pb_url beta) then Some beta_pb
  else None.

Definition empty_tables : Db.Tables := Db.mkTables ∅ ∅.

Definition poll (tickers : list Ticker.row)
  : result unit * Db.Tables * list Poller.event :=
  Poller.poll_tickers Text.iso_date Text.decimal web 0 (Some tickers)
    empty_tables.

(** A page whose table has a row with the date "N/A". *)
Definition dirty : Api.Page :=
  Api.mkPage (Some "1.5")
    (Some [Api.mkTableRow (Some "2022-12-31") (Some "$10.00") (Some "$5.00")
                          (Float.of_Z 2);
           Api.mkTableRow (Some "N/A") (Some "$9.00") (Some "$4.50")
                          (Float.of_Z 2);
           Api.mkTableRow (Some "2021-12-31") (Some "$8.00") (Some "$4.00")
                          (Float.of_Z 2)]).

(** A history row whose symbol is too long for VARCHAR(10). *)
Definition too_long : Row :=
  year_end "ABCDEFGHIJK" (Float.of_Z 1) (Float.of_Z 12) 2022.

End Scenario.

(** ** [load_data]: the cleaning of the two loaded frames *)

Definition is_infinite (x : float) : bool :=
  match x with S754_infinity _ => true | _ => false end.

(** [replace([np.inf, -np.inf], np.nan)] on one cell. *)
Definition inf_to_nan (x : float) : float :=
  if is_infinite x then Float.nan else x.

(** [replace([np.inf, -np.inf, np.nan], 0)] on one cell. *)
Definition inf_nan_to_zero (x : float) : float :=
  if is_infinite x || Float.is_nan x then Float.zero else x.

(** The body of [load_data] after the two reads: [ratio_history_df] and
    [current_ratio_df] are what [load_report_dataframe] and
    [load_current_ratio_dataframe] returned. *)
Definition load_data (ratio_history_df : DataFrame)
    (current_ratio_df : list Current.row) : DataFrame * list Current.row :=
  (mkDataFrame (dates_as ratio_history_df) (has_year ratio_history_df)
     (map (fun r =>
             mkRow (symbol r) (name r) (date r)
                   (inf_to_nan (stock_price r))
                   (inf_to_nan (book_value_per_share r))
                   (inf_to_nan (price_to_book_ratio r))
                   (inf_to_nan (ttm_net_eps r))
                   (inf_to_nan (pe_ratio r))
                   (year r))
          (rows ratio_history_df)),
   map (fun c =>
          Current.mk (Current.symbol c) (Current.last_update c)
                     (inf_nan_to_zero (Current.pb_ratio c))
                     (inf_nan_to_zero (Current.pe_ratio c)))
       current_ratio_df).

(** ** Ticker discovery ([get_exchange_tickers]) *)

Module Directory.

(** A row of [all_macrotrends_tickers]. *)
Record row : Type := mk {
  symbol : string;
  name : string;
  full_name : string;
  url : string
}.

(** The columns that [poll_tickers] reads. *)
Definition to_ticker (r : row) : Ticker.row :=
  Ticker.mk (symbol r) (full_name r) (url r).

(** [str.lower()] on ASCII text. *)
Definition lower_ascii (c : ascii) : ascii :=
  let n := nat_of_ascii c in
  if ((65 <=? n) && (n <=? 90))%nat then ascii_of_nat (n + 32) else c.

Fixpoint lower (s : string) : string :=
  match s with
  | EmptyString => EmptyString
  | String c t => String (lower_ascii c) (lower t)
  end.

(** [symbol[-1]] *)
Fixpoint last_char (s : string) : option ascii :=
  match s with
  | EmptyString => None
  | String c EmptyString => Some c
  | String _ t => last_char t
  end.

Definition exclude : list ascii := ["W"; "R"; "P"; "Q"]%char.

(** [not (len(symbol) > 4 and symbol[-1] in exclude)] *)
Definition is_valid (symbol : string) : bool :=
  negb ((4 <? String.length symbol)%nat
        && match last_char symbol with
           | Some c => existsb (Ascii.eqb c) exclude
           | None => false
           end).

Section Sources.

(** The symbol lists of the two exchanges and the directory of the
    provider, as the three requests return them, and the permutation
    drawn by [df.sample(frac=1)]. *)
Variable tickers_nasdaq : result (list string).
Variable nyse_symbols : result (list string).
Variable all_macrotrends_tickers : result (list row).
Variable sample : list row -> list row.

(** The loop over the exchanges, from the set gathered so far. *)
Fixpoint gather (exchanges : list string) (tickers : gset string)
  : result (gset string) :=
  match exchanges with
  | [] => Ok tickers
  | exchange :: rest =>
      if String.eqb (lower exchange) "nasdaq" then
        l ← tickers_nasdaq; gather rest (tickers ∪ list_to_set l)
      else if String.eqb (lower exchange) "nyse" then
        l ← nyse_symbols; gather rest (tickers ∪ list_to_set l)
      else Raise "NotImplementedError: Exchange must be either 'nasdaq' or 'nyse'"
  end.

Definition get_exchange_tickers (exchanges : list string) (randomized : bool)
  : result (list row) :=
  tickers ← gather exchanges ∅;
  let valid_tickers : gset string :=
    base.filter (fun symbol => is_valid symbol = true) tickers in
  df ← all_macrotrends_tickers;
  let filtered_df :=
    List.filter (fun r => bool_decide (symbol r ∈ valid_tickers)) df in
  Ok (if randomized then sample filtered_df else filtered_df).

End Sources.

End Directory.

(** ** The price and time checker ([2_Price & Time Checker.py]) *)

Module Checker.

(** A row of the uploaded frame.  An instant is a number of microseconds
    since the epoch, [None] is NaT.  The two last columns are the ones
    that [check_target_prices] adds; they are [None] before. *)
Record row : Type := mk {
  ticker : string;
  purchase_date : option Z;
  target_price : float;
  debt_level : option string;
  current_price : option float;
  reached_target : option bool
}.

(** [timedelta(days=n)] *)
Definition timedelta_days (n : Z) : Z := n * 86400 * 1000000.

(** The comparisons of a date cell with an instant; false on NaT. *)
Definition on_or_before (d : option Z) (t : Z) : bool :=
  match d with Some x => x <=? t | None => false end.
Definition after (d : option Z) (t : Z) : bool :=
  match d with Some x => t <? x | None => false end.

(** [df["Debt Level"] == level] *)
Definition has_level (level : string) (r : row) : bool :=
  match debt_level r with
  | Some s => String.eqb s level
  | None => false
  end.

(** [classify_by_holding_period]; [today] is [datetime.today()]. *)
Definition classify_by_holding_period (today : Z) (df : list row)
  : list row * list row * list row * list row :=
  let one_year_ago := today - timedelta_days 365 in
  let two_years_ago := today - timedelta_days 730 in
  let three_years_ago := today - timedelta_days 1095 in
  let one_year_df :=
    List.filter (fun r => on_or_before (purchase_date r) one_year_ago
                          && after (purchase_date r) two_years_ago
                          && has_level "HD" r) df in
  let two_years_hd_df :=
    List.filter (fun r => on_or_before (purchase_date r) two_years_ago
                          && after (purchase_date r) three_years_ago
                          && has_level "HD" r) df in
  let two_years_ld_df :=
    List.filter (fun r => on_or_before (purchase_date r) two_years_ago
                          && after (purchase_date r) three_years_ago
                          && has_level "LD" r) df in
  let three_years_df :=
    List.filter (fun r => on_or_before (purchase_date r) three_years_ago) df in
  (one_year_df, two_years_hd_df, two_years_ld_df, three_years_df).

Section Prices.

(** [get_live_price(ticker)], which may raise. *)
Variable get_live_price : string -> result float.

(** The [for] loop of [check_target_prices] over the tickers of the
    frame: the price cache of the session after the loop and the calls
    of [get_live_price] made, in order. *)
Fixpoint update_prices (tickers : list string)
    (current_prices : gmap string float) (calls : list string)
  : result unit * gmap string float * list string :=
  match tickers with
  | [] => (Ok tt, current_prices, calls)
  | ticker :: rest =>
      if (String.length ticker =? 0)%nat
      then update_prices rest current_prices calls
      else
        match current_prices !! ticker with
        | Some _ => update_prices rest current_prices calls
        | None =>
            match get_live_price ticker with
            | Ok price =>
                update_prices rest (<[ticker := price]> current_prices)
                              (calls ++ [ticker])
            | Raise e => (Raise e, current_prices, calls ++ [ticker])
            end
        end
  end.

(** [current_prices.get(x, 0)] *)
Definition price_of (current_prices : gmap string float) (x : string) : float :=
  match current_prices !! x with
  | Some price => price
  | None => Float.zero
  end.

(** The two columns written on the frame of the caller. *)
Definition with_prices (current_prices : gmap string float) (r : row) : row :=
  let price := price_of current_prices (ticker r) in
  mk (ticker r) (purchase_date r) (target_price r) (debt_level r)
     (Some price) (Some (Float.geb price (target_price r))).

(** [check_target_prices(df)] with the price cache of the session: the
    returned frame (or the exception), then the frame of the caller, the
    cache and the calls of [get_live_price] after the call. *)
Definition check_target_prices (df : list row) (price_cache : gmap string float)
  : result (list row) * list row * gmap string float * list string :=
  match update_prices (map ticker df) price_cache [] with
  | (Raise e, current_prices, calls) => (Raise e, df, current_prices, calls)
  | (Ok _, current_prices, calls) =>
      let df := map (with_prices current_prices) df in
      (Ok (List.filter (fun r => match reached_target r with
                                 | Some b => b
                                 | None => false
                                 end) df),
       df, current_prices, calls)
  end.

End Prices.

End Checker.

(** ** Vocabulary for the traces of the polling loop *)

(** Whether the P/B fetch, and the P/E fetch, of a ticker returns. *)
Definition pb_fetch_returns (to_datetime : string -> option Z)
    (to_float : string -> option float) (web : string -> option Api.Page)
    (r : Ticker.row) : bool :=
  match Api.get_pb_ratio_history to_datetime to_float
          (Ticker.symbol r) (Ticker.full_name r) (web (Poller.pb_url r)) with
  | Ok _ => true
  | Raise _ => false
  end.

Definition pe_fetch_returns (to_datetime : string -> option Z)
    (to_float : string -> option float) (web : string -> option Api.Page)
    (r : Ticker.row) : bool :=
  match Api.get_pe_ratio_history to_datetime to_float
          (Ticker.symbol r) (Ticker.full_name r) (web (Poller.pe_url r)) with
  | Ok _ => true
  | Raise _ => false
  end.

(** The number of calls of [do_sleep], and of requests, in a trace. *)
Definition count_sleeps (trace : list Poller.event) : nat :=
  length (List.filter (fun e => match e with Poller.DoSleep => true | _ => false end)
                      trace).

Definition count_requests (trace : list Poller.event) : nat :=
  length (List.filter (fun e => match e with Poller.Get _ => true | _ => false end)
                      trace).

(** Every row of the history held by [m] is held, unchanged, by the
    connection, committed and in the open transaction. *)
Definition keeps_history (m : gmap (option string * option Z) Row)
    (c : Db.Connection) : Prop :=
  forall k v, m !! k = Some v ->
              Db.macrotrends_pe_pb_hist (Db.committed c) !! k = Some v
              /\ Db.macrotrends_pe_pb_hist (Db.working c) !! k = Some v.

(** * Properties *)

(** ** The calendar and the text conversions on examples *)

Example year_of_days_examples :
  Calendar.year_of_days 0 = 1970
  /\ Calendar.year_of_days (-1) = 1969
  /\ Calendar.year_of_days (Calendar.days_from_civil 2019 12 31) = 2019
  /\ Calendar.year_of_days (Calendar.days_from_civil 2020 1 1) = 2020
  /\ Calendar.year_of_days (Calendar.days_from_civil 2020 2 29) = 2020
  /\ Calendar.days_from_civil 2000 3 1 = 11017
  /\ Calendar.days_from_civil 2022 12 31 - Calendar.three_years
     = Calendar.days_from_civil 2020 1 1.
Proof. repeat split; reflexivity. Qed.

Example text_examples :
  Text.iso_date "2022-12-31" = Some 19357
  /\ Text.iso_date "N/A" = None
  /\ Text.iso_date "2022-02-30" = None
  /\ Text.decimal "1.5" = Some (Float.of_ratio 3 2)
  /\ Text.decimal "12" = Some (Float.of_Z 12)
  /\ Text.decimal "n/a" = None
  /\ Api.strip_money "$1,234.50" = "1234.50".
Proof. repeat split; vm_compute; reflexivity. Qed.

(** The scenarios of the specification: with the averages 1.5 (3 years)
    and 1.8 (8 years), the ceiling 2.0 and the margin 1.0, a current P/B
    of 1.4 passes both checks and a current P/B of 1.6 passes the ceiling
    and fails the margin. *)
Example margin_scenarios :
  above_pb_ceiling Scenario.criteria (Float.of_ratio 14 10) = false
  /\ above_safety_threshold Scenario.criteria (Float.of_ratio 14 10)
       (Float.of_ratio 15 10) (Float.of_ratio 18 10) = false
  /\ above_pb_ceiling Scenario.criteria (Float.of_ratio 16 10) = false
  /\ above_safety_threshold Scenario.criteria (Float.of_ratio 16 10)
       (Float.of_ratio 15 10) (Float.of_ratio 18 10) = true.
Proof. repeat split; vm_compute; reflexivity. Qed.

(** ** Floating-point comparisons *)

Lemma compare_defined (x y : float) :
  Float.is_nan x = false -> Float.is_nan y = false ->
  exists c, SFcompare x y = Some c.
Proof.
  destruct x, y; simpl; intros Hx Hy; try discriminate; eauto.
Qed.

Lemma geb_ltb (x y : float) :
  Float.is_nan x = false -> Float.is_nan y = false ->
  Float.geb x y = negb (Float.ltb x y).
Proof.
  intros Hx Hy. destruct (compare_defined x y Hx Hy) as [c Hc].
  unfold Float.geb, Float.ltb. rewrite Hc. destruct c; reflexivity.
Qed.




Lemma compare_nan_r (x : float) : SFcompare x Float.nan = None.
Proof. destruct x; reflexivity. Qed.

Lemma gtb_nan_r (x : float) : Float.gtb x Float.nan = false.
Proof. unfold Float.gtb. rewrite compare_nan_r. reflexivity. Qed.

Lemma geb_nan_l (x : float) : Float.geb Float.nan x = false.
Proof. reflexivity. Qed.

Lemma mul_nan_r (x : float) : Float.mul x Float.nan = Float.nan.
Proof. destruct x; reflexivity. Qed.

Lemma py_min_nan_l (b : float) : Float.py_min Float.nan b = Float.nan.
Proof. unfold Float.py_min, Float.ltb. rewrite compare_nan_r. reflexivity. Qed.

Lemma mean_all_nan (xs : list float) :
  forallb Float.is_nan xs = true -> Float.mean xs = Float.nan.
Proof.
  intros H. unfold Float.mean.
  assert (E : Float.dropna xs = []).
  { unfold Float.dropna. induction xs as [ | x xs IH]; simpl in *; [reflexivity | ].
    apply andb_true_iff in H as [Hx Hxs]. rewrite Hx. simpl. auto. }
  rewrite E. reflexivity.
Qed.

(** ** The checks of [stock_meets_criteria] *)

(** The six tests are combined by a conjunction: [valid] never goes back
    to [True]. *)
Lemma stock_meets_criteria_eq current_df criteria group latest_pb latest_pe :
  let cur := current_ratios_row current_df group in
  let '((avg_3, avg_max, _), sorted) := calculate_avg_pb_ratios group in
  let group' := sort_values false sorted in
  latest_ratio Current.pb_ratio price_to_book_ratio cur group = Some latest_pb ->
  latest_ratio Current.pe_ratio pe_ratio cur group' = Some latest_pe ->
  stock_meets_criteria current_df criteria group =
  Some (negb (too_few_pb_years criteria group)
        && negb (only_positive_pb criteria && some_pb_not_positive group)
        && negb (above_pb_ceiling criteria latest_pb)
        && negb (above_safety_threshold criteria latest_pb avg_3 avg_max)
        && negb (too_few_positive_pe_years criteria group')
        && negb (above_pe_ceiling criteria latest_pe)).
Proof.
  unfold stock_meets_criteria, calculate_avg_pb_ratios. cbv zeta.
  intros Hpb Hpe. rewrite Hpb. cbn [mbind option_bind].
  rewrite Hpe. cbn [mbind option_bind].
  destruct (too_few_pb_years _ _), (only_positive_pb _), (some_pb_not_positive _),
    (above_pb_ceiling _ _), (above_safety_threshold _ _ _ _),
    (too_few_positive_pe_years _ _), (above_pe_ceiling _ _); reflexivity.
Qed.

(** ** C1: an undefined average and the margin-of-safety check *)

(** Whatever the criteria and the current P/B, a 3-year average that is
    NaN makes the threshold NaN, and the test [latest > threshold] is
    then false: the check does not disqualify. *)
Lemma above_safety_threshold_nan_avg criteria latest avg_max :
  above_safety_threshold criteria latest Float.nan avg_max = false.
Proof.
  unfold above_safety_threshold.
  rewrite py_min_nan_l, mul_nan_r. apply gtb_nan_r.
Qed.

(** No P/B value in the last three years: the 3-year average is NaN. *)
Lemma calculate_avg_pb_ratios_hole :
  fst (calculate_avg_pb_ratios Scenario.hole_group)
  = (Float.nan, Float.of_ratio 3 2, Some 8).
Proof. vm_compute. reflexivity. Qed.

(** C1 (the code departs from the claim).  The symbol "HOLE" has no P/B
    value in its last three years, so its 3-year average is NaN; its
    current P/B is 1.9, above the 8-year average 1.5.  The
    margin-of-safety test does not disqualify it, and [screen_stocks]
    puts it in the qualifying set. *)
Theorem C1_nan_average_passes_margin_check :
  fst (fst (fst (calculate_avg_pb_ratios Scenario.hole_group))) = Float.nan
  /\ above_safety_threshold Scenario.criteria (Float.of_ratio 19 10)
       Float.nan (Float.of_ratio 3 2) = false
  /\ stock_meets_criteria Scenario.snapshot Scenario.criteria Scenario.hole_group
     = Some true
  /\ screened_symbols 2023 Scenario.history Scenario.snapshot Scenario.criteria
     = Some ["GOOD"; "HOLE"].
Proof. repeat split; vm_compute; reflexivity. Qed.

(** ** C3: strict ceilings, non-strict margin *)




(** ** Columns: membership, distinct values, maximum *)

Lemma in_notna {A B} (col : A -> option B) (l : list A) (v : B) :
  List.In v (notna col l) <-> exists x, List.In x l /\ col x = Some v.
Proof.
  induction l as [ | a l IH]; simpl.
  - split; [tauto | intros (x & [] & _)].
  - destruct (col a) as [b | ] eqn:Ea; simpl; rewrite IH; split.
    + intros [-> | (x & Hx & Hc)]; eauto.
    + intros (x & [-> | Hx] & Hc); [left; congruence | eauto].
    + intros (x & Hx & Hc); eauto.
    + intros (x & [-> | Hx] & Hc); [congruence | eauto].
Qed.

Section Unique.

Context {A : Type} (eqb : A -> A -> bool).
Hypothesis eqb_eq : forall a b, eqb a b = true <-> a = b.

Lemma existsb_eqb (x : A) (l : list A) :
  existsb (eqb x) l = true <-> List.In x l.
Proof.
  rewrite existsb_exists. split.
  - intros (y & Hy & E). apply eqb_eq in E. now subst.
  - intros H. exists x. split; [assumption | now apply eqb_eq].
Qed.

Lemma in_unique_from (seen l : list A) (x : A) :
  List.In x (unique_from eqb seen l) <-> List.In x l /\ ~ List.In x seen.
Proof.
  revert seen. induction l as [ | a l IH]; intros seen; simpl.
  - tauto.
  - destruct (existsb (eqb a) seen) eqn:E.
    + apply existsb_eqb in E. rewrite IH. split.
      * intros [H1 H2]. auto.
      * intros [[-> | H1] H2]; [contradiction | auto].
    + assert (Ha : ~ List.In a seen).
      { intros H. apply existsb_eqb in H. congruence. }
      simpl. rewrite IH. simpl. split.
      * intros [-> | [H1 H2]]; [auto | ]. split; [auto | tauto].
      * intros [[-> | H1] H2]; [auto | ].
        destruct (existsb (eqb a) [x]) eqn:E'.
        -- apply existsb_eqb in E'. destruct E' as [-> | []]. auto.
        -- right. split; [assumption | ].
           intros [-> | H3]; [ | contradiction].
           assert (existsb (eqb x) [x] = true) by (apply existsb_eqb; now left).
           congruence.
Qed.

Lemma nodup_unique_from (seen l : list A) :
  List.NoDup (unique_from eqb seen l).
Proof.
  revert seen. induction l as [ | a l IH]; intros seen; simpl.
  - constructor.
  - destruct (existsb (eqb a) seen); [apply IH | ].
    constructor; [ | apply IH].
    rewrite in_unique_from. simpl. tauto.
Qed.

Lemma in_unique (l : list A) (x : A) :
  List.In x (unique eqb l) <-> List.In x l.
Proof. unfold unique. rewrite in_unique_from. simpl. tauto. Qed.

End Unique.

Lemma fold_left_max_ge (vs : list Z) (v : Z) :
  v <= fold_left Z.max vs v /\ forall x, List.In x vs -> x <= fold_left Z.max vs v.
Proof.
  revert v. induction vs as [ | a vs IH]; intros v; simpl.
  - split; [lia | tauto].
  - destruct (IH (Z.max v a)) as [H1 H2]. split; [lia | ].
    intros x [-> | Hx]; [lia | auto].
Qed.

Lemma fold_left_max_in (vs : list Z) (v : Z) :
  List.In (fold_left Z.max vs v) (v :: vs).
Proof.
  revert v. induction vs as [ | a vs IH]; intros v; simpl.
  - now left.
  - destruct (IH (Z.max v a)) as [E | H]; [ | auto].
    rewrite <- E. destruct (Z.max_spec v a) as [[_ ->] | [_ ->]]; auto.
Qed.

(** [col_max] is the greatest of the values that are present. *)
Lemma col_max_spec {A} (col : A -> option Z) (l : list A) (m : Z) :
  col_max col l = Some m ->
  List.In m (notna col l) /\ forall v, List.In v (notna col l) -> v <= m.
Proof.
  unfold col_max. destruct (notna col l) as [ | v vs]; [discriminate | ].
  intros [= <-]. split; [apply fold_left_max_in | ].
  destruct (fold_left_max_ge vs v) as [H1 H2].
  intros x [-> | Hx]; auto.
Qed.

Lemma col_max_none {A} (col : A -> option Z) (l : list A) :
  col_max col l = None -> notna col l = [].
Proof. unfold col_max. destruct (notna col l); [reflexivity | discriminate]. Qed.


(** ** C4: the ten-year window *)

Lemma in_add_year_column (df : DataFrame) (r : Row) :
  List.In r (rows (add_year_column df)) ->
  year r = option_map Calendar.year_of_days (date r).
Proof.
  simpl. rewrite in_map_iff. intros (r0 & <- & _). reflexivity.
Qed.

Lemma in_window (now_year : Z) (df : DataFrame) (r : Row) :
  List.In r (rows (window now_year df)) <->
  List.In r (rows df)
  /\ not_current_year now_year r = true
  /\ within_ten_years
       (col_max year (rows (select (not_current_year now_year) df))) r = true.
Proof.
  unfold window. simpl. rewrite !filter_In. tauto.
Qed.



(** ** Sorting *)

Lemma insert_sorted_perm (ascending : bool) (r : Row) (l : list Row) :
  Permutation (insert_sorted ascending r l) (r :: l).
Proof.
  induction l as [ | h t IH]; simpl.
  - reflexivity.
  - destruct (date_before ascending r h); [reflexivity | ].
    rewrite IH. apply perm_swap.
Qed.

(** [sort_values] keeps the rows and changes their order only. *)
Lemma sort_values_perm (ascending : bool) (l : list Row) :
  Permutation (sort_values ascending l) l.
Proof.
  induction l as [ | h t IH]; simpl.
  - reflexivity.
  - rewrite insert_sorted_perm. now constructor.
Qed.

Lemma sort_values_nonempty (ascending : bool) (l : list Row) :
  l <> [] -> sort_values ascending l <> [].
Proof.
  intros Hl E. apply Hl. apply Permutation_nil.
  rewrite <- E. apply sort_values_perm.
Qed.

Lemma iloc_last_nonempty {A} (l : list A) :
  l <> [] -> exists x, iloc_last l = Some x.
Proof.
  unfold iloc_last. induction l as [ | a l IH]; [congruence | ].
  intros _. destruct l as [ | b l]; [exists a; reflexivity | ].
  destruct IH as [x Hx]; [discriminate | ].
  exists x. exact Hx.
Qed.

(** ** [stock_meets_criteria] returns, and what its [True] entails *)

Lemma latest_ratio_nonempty col_cur col_hist cur (group : list Row) :
  group <> [] -> exists v, latest_ratio col_cur col_hist cur group = Some v.
Proof.
  intros Hg. unfold latest_ratio. destruct cur as [c | ]; [eauto | ].
  destruct (iloc_last_nonempty (sort_values true group)) as [x Hx].
  - now apply sort_values_nonempty.
  - rewrite Hx. simpl. eauto.
Qed.

Lemma stock_meets_criteria_total current_df criteria (group : list Row) :
  group <> [] -> exists b, stock_meets_criteria current_df criteria group = Some b.
Proof.
  intros Hg.
  destruct (latest_ratio_nonempty Current.pb_ratio price_to_book_ratio
              (current_ratios_row current_df group) group Hg) as [pb Hpb].
  destruct (latest_ratio_nonempty Current.pe_ratio pe_ratio
              (current_ratios_row current_df group)
              (sort_values false (snd (calculate_avg_pb_ratios group))))
    as [pe Hpe].
  { apply sort_values_nonempty. unfold calculate_avg_pb_ratios. cbn [snd].
    now apply sort_values_nonempty. }
  pose proof (stock_meets_criteria_eq current_df criteria group pb pe) as H.
  unfold calculate_avg_pb_ratios in H, Hpe. cbv zeta in H. cbn [snd] in Hpe.
  rewrite (H Hpb Hpe). eauto.
Qed.

Lemma stock_meets_criteria_true current_df criteria (group : list Row) :
  stock_meets_criteria current_df criteria group = Some true ->
  too_few_pb_years criteria group = false.
Proof.
  unfold stock_meets_criteria, calculate_avg_pb_ratios. cbv zeta.
  destruct (latest_ratio Current.pb_ratio _ _ _) as [pb | ];
    cbn [mbind option_bind]; [ | discriminate].
  destruct (latest_ratio Current.pe_ratio _ _ _) as [pe | ];
    cbn [mbind option_bind]; [ | discriminate].
  destruct (too_few_pb_years criteria group); [ | reflexivity].
  repeat match goal with
         | |- context [if ?c then _ else _] => destruct c
         end; discriminate.
Qed.

(** ** [groupby('symbol').filter] *)

Lemma string_eqb_eq (a b : string) : String.eqb a b = true <-> a = b.
Proof. apply String.eqb_eq. Qed.

Lemma Forall2_in_r {A B} (P : A -> B -> Prop) (l : list A) (k : list B) (y : B) :
  Forall2 P l k -> List.In y k -> exists x, List.In x l /\ P x y.
Proof.
  induction 1 as [ | x y' l k Hxy _ IH]; simpl; [tauto | ].
  intros [<- | Hy]; [eauto | ].
  destruct (IH Hy) as (x' & Hx' & HP). eauto.
Qed.

(** The symbols of a frame have a non-empty group. *)
Lemma group_of_symbol_nonempty (l : list Row) (s : string) :
  List.In s (symbols l) -> group_of s l <> [].
Proof.
  unfold symbols. intros Hs.
  apply -> (in_unique String.eqb string_eqb_eq) in Hs.
  apply in_notna in Hs as (r & Hr & Er).
  assert (Hin : List.In r (group_of s l)).
  { apply filter_In. split; [assumption | ].
    unfold has_symbol. rewrite Er. now apply String.eqb_eq. }
  intros E. rewrite E in Hin. destruct Hin.
Qed.

(** A row kept by the filter belongs to a symbol whose group made [func]
    return [True]. *)
Lemma groupby_filter_kept (func : list Row -> option bool) (l kept : list Row)
    (r : Row) :
  groupby_filter func l = Some kept -> List.In r kept ->
  exists s, symbol r = Some s /\ List.In r l
            /\ func (group_of s l) = Some true.
Proof.
  unfold groupby_filter.
  destruct (mapM _ (symbols l)) as [verdicts | ] eqn:Ev;
    cbn [mbind option_bind]; [ | discriminate].
  intros [= <-] Hr. apply filter_In in Hr as [Hr Hv].
  destruct (symbol r) as [s | ] eqn:Es; [ | discriminate].
  exists s. split; [reflexivity | ]. split; [assumption | ].
  unfold verdict_of in Hv. apply existsb_exists in Hv as ([s' b] & Hin & Hb).
  simpl in Hb. apply andb_true_iff in Hb as [Hs ->].
  apply String.eqb_eq in Hs. subst s'.
  apply mapM_Some_1 in Ev.
  destruct (Forall2_in_r _ _ _ _ Ev Hin) as (x & _ & Hx).
  simpl in Hx. destruct (func (group_of x l)) as [v | ] eqn:Ef; [ | discriminate].
  simpl in Hx. injection Hx as -> ->. exact Ef.
Qed.

(** The filter returns as soon as [func] returns on non-empty groups. *)
Lemma groupby_filter_total (func : list Row -> option bool) (l : list Row) :
  (forall g, g <> [] -> exists b, func g = Some b) ->
  exists kept, groupby_filter func l = Some kept.
Proof.
  intros Hf. unfold groupby_filter.
  destruct (mapM_is_Some_2
              (fun s => v ← func (group_of s l); Some (s, v)) (symbols l))
    as [verdicts Ev].
  - apply Forall_forall. intros s Hs. simpl.
    destruct (Hf (group_of s l)) as [b Hb].
    + now apply group_of_symbol_nonempty.
    + rewrite Hb. simpl. eauto.
  - rewrite Ev. simpl. eauto.
Qed.

(** [screen_stocks] always returns. *)
Lemma screened_symbols_total now_year df current_df criteria :
  exists syms, screened_symbols now_year df current_df criteria = Some syms.
Proof.
  unfold screened_symbols. cbv zeta.
  destruct (groupby_filter_total (stock_meets_criteria current_df criteria)
              (rows (window now_year (add_year_column df)))) as [kept Hk].
  - intros g Hg. now apply stock_meets_criteria_total.
  - rewrite Hk. simpl. eauto.
Qed.

Lemma screen_stocks_screened now_year df current_df criteria :
  snd (screen_stocks now_year df current_df criteria)
  = (syms ← screened_symbols now_year df current_df criteria;
     Some (select (symbol_isin syms) (window now_year (add_year_column df)),
           List.filter (fun c => isin syms (Current.symbol c)) current_df)).
Proof.
  unfold screen_stocks, screened_symbols. cbv zeta. cbn [snd].
  destruct (groupby_filter _ _); reflexivity.
Qed.

(** ** C5: the depth of the history *)

(** C5.  Whatever the history, the snapshot and the criteria: a symbol
    whose windowed rows hold fewer distinct years than
    [years_pb_history], or which has no row in the window at all, is not
    in the qualifying set; no row of the two returned frames bears
    it. *)
Theorem C5_history_depth_required now_year df current_df criteria (s : string) :
  let w := window now_year (add_year_column df) in
  nunique_year (group_of s (rows w)) < years_pb_history criteria
  \/ group_of s (rows w) = [] ->
  exists syms filtered_df filtered_current_df,
    screened_symbols now_year df current_df criteria = Some syms
    /\ snd (screen_stocks now_year df current_df criteria)
       = Some (filtered_df, filtered_current_df)
    /\ ~ List.In s syms
    /\ (forall r, List.In r (rows filtered_df) -> symbol r <> Some s)
    /\ (forall c, List.In c filtered_current_df -> Current.symbol c <> s).
Proof.
  intros w Hs.
  destruct (screened_symbols_total now_year df current_df criteria) as [syms Hsyms].
  assert (Hnot : ~ List.In s syms).
  { intros Hin. revert Hsyms. unfold screened_symbols. cbv zeta. fold w.
    destruct (groupby_filter (stock_meets_criteria current_df criteria) (rows w))
      as [kept | ] eqn:Ek; cbn [mbind option_bind]; [ | discriminate].
    intros [= <-].
    apply -> (in_unique String.eqb string_eqb_eq) in Hin.
    apply in_notna in Hin as (r & Hr & Er).
    destruct (groupby_filter_kept _ _ _ _ Ek Hr) as (s' & Es' & Hrw & Htrue).
    assert (s' = s) by congruence. subst s'.
    destruct Hs as [Hfew | Hempty].
    - apply stock_meets_criteria_true in Htrue.
      unfold too_few_pb_years in Htrue. apply Z.ltb_ge in Htrue. lia.
    - assert (Hg : List.In r (group_of s (rows w))).
      { apply filter_In. split; [assumption | ].
        unfold has_symbol. rewrite Er. now apply String.eqb_eq. }
      rewrite Hempty in Hg. destruct Hg. }
  exists syms, (select (symbol_isin syms) w),
    (List.filter (fun c => isin syms (Current.symbol c)) current_df).
  split; [assumption | ].
  split; [rewrite screen_stocks_screened, Hsyms; reflexivity | ].
  split; [assumption | ].
  split.
  - intros r Hr Er. cbn [rows select] in Hr. apply filter_In in Hr as [_ Hr].
    unfold symbol_isin in Hr. rewrite Er in Hr.
    apply Hnot. unfold isin in Hr. now apply (existsb_eqb String.eqb string_eqb_eq).
  - intros c Hc Ec. apply filter_In in Hc as [_ Hc]. rewrite Ec in Hc.
    apply Hnot. unfold isin in Hc. now apply (existsb_eqb String.eqb string_eqb_eq).
Qed.

(** "FEW" has five years of history against the seven required; its
    ratios pass every other check. *)
Lemma C5_history_depth_required_witness :
  nunique_year
    (group_of "FEW" (rows (window 2023 (add_year_column Scenario.history)))) = 5
  /\ exists syms filtered_df filtered_current_df,
       screened_symbols 2023 Scenario.history Scenario.snapshot Scenario.criteria
       = Some syms
       /\ snd (screen_stocks 2023 Scenario.history Scenario.snapshot
                 Scenario.criteria)
          = Some (filtered_df, filtered_current_df)
       /\ ~ List.In "FEW" syms
       /\ (forall r, List.In r (rows filtered_df) -> symbol r <> Some "FEW")
       /\ (forall c, List.In c filtered_current_df -> Current.symbol c <> "FEW").
Proof.
  split; [vm_compute; reflexivity | ].
  apply (C5_history_depth_required 2023 Scenario.history Scenario.snapshot
           Scenario.criteria "FEW").
  left. vm_compute. reflexivity.
Defined.

(** ** C9: what the screening functions do to their arguments *)

Lemma date_before_total (ascending : bool) (a b : Row) :
  date_before ascending a b = false -> date_before ascending b a = true.
Proof.
  unfold date_before.
  destruct (date a) as [x | ], (date b) as [y | ], ascending;
    try discriminate; try reflexivity; intros H;
    apply Z.leb_gt in H; apply Z.leb_le; lia.
Qed.

Lemma insert_sorted_sorted (ascending : bool) (r : Row) (l : list Row) :
  Sorted (dated_before ascending) l ->
  Sorted (dated_before ascending) (insert_sorted ascending r l).
Proof.
  induction 1 as [ | h t Ht IH Hh]; simpl.
  - repeat constructor.
  - destruct (date_before ascending r h) eqn:E.
    + constructor; [now constructor | now constructor].
    + constructor; [assumption | ].
      apply date_before_total in E.
      destruct t as [ | h' t']; simpl.
      * now constructor.
      * destruct (date_before ascending r h'); constructor; [assumption | ].
        now inversion Hh.
Qed.

Lemma sort_values_sorted (ascending : bool) (l : list Row) :
  Sorted (dated_before ascending) (sort_values ascending l).
Proof.
  induction l as [ | h t IH]; simpl; [constructor | ].
  now apply insert_sorted_sorted.
Qed.

Lemma sort_values_of_sorted (ascending : bool) (l : list Row) :
  Sorted (dated_before ascending) l -> sort_values ascending l = l.
Proof.
  induction 1 as [ | h t Ht IH Hh]; [reflexivity | ].
  change (sort_values ascending (h :: t))
    with (insert_sorted ascending h (sort_values ascending t)).
  rewrite IH.
  destruct Hh as [ | h' t' Hhh']; simpl; [reflexivity | ].
  unfold dated_before in Hhh'. now rewrite Hhh'.
Qed.

(** Sorting a frame that [sort_values] has sorted changes nothing. *)
Lemma sort_values_idempotent (ascending : bool) (l : list Row) :
  sort_values ascending (sort_values ascending l) = sort_values ascending l.
Proof. apply sort_values_of_sorted, sort_values_sorted. Qed.

Lemma add_year_column_idempotent (df : DataFrame) :
  add_year_column (add_year_column df) = add_year_column df.
Proof.
  unfold add_year_column. simpl. f_equal.
  rewrite map_map. apply map_ext. intros r. reflexivity.
Qed.

(** C9 (as stated, it fails).  [screen_stocks] changes the history frame
    of its caller: the frame loaded from the database has no [year]
    column before the call and has one after it.
    [calculate_avg_pb_ratios] reorders the rows of its argument. *)
Lemma C9_counterexample :
  fst (screen_stocks 2023 Scenario.history Scenario.snapshot Scenario.criteria)
  <> Scenario.history
  /\ has_year Scenario.history = false
  /\ has_year (fst (screen_stocks 2023 Scenario.history Scenario.snapshot
                      Scenario.criteria)) = true
  /\ snd (calculate_avg_pb_ratios Scenario.unsorted) <> Scenario.unsorted
  /\ snd (calculate_avg_pb_ratios Scenario.unsorted) = rev Scenario.unsorted.
Proof.
  split.
  { intros H. apply (f_equal has_year) in H. discriminate H. }
  split; [reflexivity | ].
  split; [reflexivity | ].
  split.
  { intros H. apply (f_equal (map date)) in H. vm_compute in H. discriminate H. }
  vm_compute. reflexivity.
Qed.

(** C9 (amended).  [screen_stocks] writes two columns of the history
    frame of its caller in place: [date] becomes datetime64 and [year]
    holds the year of the date; apart from [year], the rows keep their
    cells and their order.  The snapshot is only read (the model has no
    state for it).  A second call on the frame left by the first one
    leaves it as it is and returns the same pair.
    [calculate_avg_pb_ratios] sorts its argument in place by date, so the
    argument holds the same rows in another order; a second call on the
    sorted argument returns the same triple and leaves the argument as
    it is. *)
Theorem C9_in_place_effects now_year df current_df criteria stock_data :
  let df' := fst (screen_stocks now_year df current_df criteria) in
  let res := snd (screen_stocks now_year df current_df criteria) in
  dates_as df' = Datetime64
  /\ has_year df' = true
  /\ map (set_year None) (rows df') = map (set_year None) (rows df)
  /\ map year (rows df')
     = map (fun r => option_map Calendar.year_of_days (date r)) (rows df)
  /\ (exists pair, res = Some pair)
  /\ screen_stocks now_year df' current_df criteria = (df', res)
  /\ Permutation (snd (calculate_avg_pb_ratios stock_data)) stock_data
  /\ calculate_avg_pb_ratios (snd (calculate_avg_pb_ratios stock_data))
     = calculate_avg_pb_ratios stock_data.
Proof.
  intros df' res.
  assert (Edf : df' = add_year_column df) by reflexivity.
  split; [rewrite Edf; reflexivity | ].
  split; [rewrite Edf; reflexivity | ].
  split.
  { rewrite Edf. simpl. rewrite map_map. apply map_ext. intros r. reflexivity. }
  split.
  { rewrite Edf. simpl. rewrite map_map. apply map_ext. intros r. reflexivity. }
  split.
  { unfold res. rewrite screen_stocks_screened.
    destruct (screened_symbols_total now_year df current_df criteria) as [syms ->].
    simpl. eauto. }
  split.
  { unfold res. rewrite Edf. unfold screen_stocks. cbv zeta.
    rewrite add_year_column_idempotent. reflexivity. }
  split.
  { unfold calculate_avg_pb_ratios. cbn [snd]. apply sort_values_perm. }
  unfold calculate_avg_pb_ratios. cbn [snd].
  rewrite sort_values_idempotent. reflexivity.
Qed.

(** ** C7: rows whose date does not parse *)

Section Frames.

Variable to_datetime : string -> option Z.
Variable to_float : string -> option float.

Lemma result_mapM_ok {A B} (f : A -> result B) (l : list A) :
  (forall x, List.In x l -> exists y, f x = Ok y) ->
  exists k, result_mapM f l = Ok k.
Proof.
  induction l as [ | a l IH]; simpl; intros H; [eauto | ].
  destruct (H a) as [y Hy]; [now left | ]. rewrite Hy. simpl.
  destruct IH as [k Hk]; [intros x Hx; apply H; now right | ].
  rewrite Hk. simpl. eauto.
Qed.

Lemma result_mapM_raise {A B} (f : A -> result B) (l : list A) (x : A) e :
  List.In x l -> f x = Raise e -> exists e', result_mapM f l = Raise e'.
Proof.
  induction l as [ | a l IH]; simpl; [tauto | ].
  intros [-> | Hx] Hf.
  - rewrite Hf. simpl. eauto.
  - destruct (f a); simpl; [ | eauto].
    destruct (IH Hx Hf) as [e' ->]. simpl. eauto.
Qed.

(** The P/B fetcher: the dates of the returned frame are the dates that
    parse, in the order of the table; the rows whose date is blank or
    does not parse are left out. *)
Lemma pb_frame_dates symbol company_name (l : list Api.TableRow) out :
  Api.pb_frame to_datetime to_float symbol company_name l = Ok out ->
  map Api.pb_date out
  = notna (fun r => Api.to_datetime_coerce to_datetime (Api.date_cell r)) l.
Proof.
  unfold Api.pb_frame. revert out.
  induction l as [ | r l IH]; simpl; intros out.
  - intros [= <-]. reflexivity.
  - destruct (Api.to_datetime_coerce to_datetime (Api.date_cell r)) as [d | ];
      simpl; [ | apply IH].
    destruct (Api.money to_float (Api.stock_price_cell r)); simpl; [ | discriminate].
    destruct (Api.money to_float (Api.per_share_cell r)); simpl; [ | discriminate].
    destruct (result_mapM _ _) as [k | ] eqn:Ek; simpl; [ | discriminate].
    intros [= <-]. simpl. f_equal. now apply IH.
Qed.

(** The P/B fetcher does not fail on a date: it returns as soon as the
    money cells of the dated rows are numerals. *)
Lemma pb_frame_returns symbol company_name (l : list Api.TableRow) :
  (forall r, List.In r l ->
     Api.to_datetime_coerce to_datetime (Api.date_cell r) <> None ->
     (exists x, Api.money to_float (Api.stock_price_cell r) = Ok x)
     /\ (exists x, Api.money to_float (Api.per_share_cell r) = Ok x)) ->
  exists out, Api.pb_frame to_datetime to_float symbol company_name l = Ok out.
Proof.
  intros H. unfold Api.pb_frame. apply result_mapM_ok.
  intros [d r] Hin. apply in_notna in Hin as ([d' r'] & Hin & E).
  simpl in E. destruct d' as [d' | ]; [ | discriminate].
  injection E as -> ->.
  apply in_map_iff in Hin as (r0 & E0 & Hr0). injection E0 as E0 ->.
  destruct (H r Hr0) as [[x Hx] [y Hy]]; [congruence | ].
  rewrite Hx, Hy. simpl. eauto.
Qed.

(** The P/E fetcher fails as a whole on one date that does not parse. *)
Lemma pe_frame_raises (l : list Api.TableRow) (r : Api.TableRow) (s : string) :
  List.In r l -> Api.date_cell r = Some s -> to_datetime s = None ->
  exists e, Api.pe_frame to_datetime to_float l = Raise e.
Proof.
  intros Hr Hs Hd. unfold Api.pe_frame.
  destruct (result_mapM_raise
              (fun r => d ← Api.to_datetime_raise to_datetime (Api.date_cell r);
                        Ok (d, r)) l r
              "ValueError: Unknown datetime string format" Hr) as [e ->].
  - unfold Api.to_datetime_raise. rewrite Hs, Hd. reflexivity.
  - simpl. eauto.
Qed.

End Frames.


(** ** C6: a P/B fetch that fails *)

(** When the P/B fetch of a ticker raises, the iteration consists of the
    request and of the warning: the variables and the database are as
    before, no P/E request is made, and [do_sleep] is not called. *)
Lemma poll_ticker_pb_failure to_datetime to_float web now r st e :
  Api.get_pb_ratio_history to_datetime to_float
    (Ticker.symbol r) (Ticker.full_name r) (web (Poller.pb_url r)) = Raise e ->
  Poller.poll_ticker to_datetime to_float web now r st
  = (Ok tt,
     Poller.mkState (Poller.locals st) (Poller.database st)
       (Poller.trace st
        ++ [Poller.Get (Poller.pb_url r);
            Poller.Warn "Could not fetch P/B history"])).
Proof.
  intros H. unfold Poller.poll_ticker. cbv zeta.
  unfold Poller.emit at 1 2. cbn [Poller.locals Poller.database Poller.trace].
  rewrite H. unfold Poller.emit. simpl. now rewrite <- app_assoc.
Qed.

(** C6 (the code departs from the claim).  In the batch "C", "A" the P/B
    fetch of "C" fails.  "C" is skipped, nothing is stored for it, and the
    loop goes on with "A"; but the request for "A" follows the failed
    request at once, no [do_sleep] lies between them.  (After a failed
    P/E fetch, the handler does call [do_sleep].) *)
Theorem C6_no_delay_after_pb_failure :
  snd (Scenario.poll [Scenario.gamma; Scenario.alpha])
  = [Poller.Get "https://www.macrotrends.net/stocks/charts/C/gamma/price-book";
     Poller.Warn "Could not fetch P/B history";
     Poller.Get "https://www.macrotrends.net/stocks/charts/A/alpha/price-book";
     Poller.DoSleep;
     Poller.Get "https://www.macrotrends.net/stocks/charts/A/alpha/pe-ratio";
     Poller.DoSleep]
  /\ fst (fst (Scenario.poll [Scenario.gamma; Scenario.alpha])) = Ok tt
  /\ Db.current_ratios (snd (fst (Scenario.poll [Scenario.gamma; Scenario.alpha])))
     !! "C" = None
  /\ is_Some
       (Db.current_ratios (snd (fst (Scenario.poll [Scenario.gamma; Scenario.alpha])))
        !! "A").
Proof.
  split; [vm_compute; reflexivity | ].
  split; [vm_compute; reflexivity | ].
  split; [vm_compute; reflexivity | ].
  vm_compute. eauto.
Qed.

(** ** C2: a P/E fetch that fails *)

Lemma date_eqb_eq (a b : option Z) : Poller.date_eqb a b = true <-> a = b.
Proof.
  destruct a as [x | ], b as [y | ]; simpl; split; intros H;
    try discriminate; try reflexivity.
  - apply Z.eqb_eq in H. now subst.
  - injection H as ->. apply Z.eqb_refl.
Qed.

Lemma find_without_duplicates {A} (f : A -> option Z) (l : list A) (r : A) :
  Poller.has_duplicates (map f l) = false -> List.In r l ->
  find (fun x => Poller.date_eqb (f x) (f r)) l = Some r.
Proof.
  induction l as [ | a l IH]; simpl; [tauto | ].
  intros Hd Hr. apply orb_false_iff in Hd as [Ha Hl].
  destruct Hr as [-> | Hr].
  - assert (E : Poller.date_eqb (f r) (f r) = true) by now apply date_eqb_eq.
    now rewrite E.
  - destruct (Poller.date_eqb (f a) (f r)) eqn:E; [ | auto].
    exfalso. rewrite <- not_true_iff_false in Ha. apply Ha.
    apply existsb_exists. exists (f r). split; [ | assumption].
    now apply in_map.
Qed.

Lemma find_none {A} (p : A -> bool) (l : list A) :
  (forall x, List.In x l -> p x = false) -> find p l = None.
Proof.
  induction l as [ | a l IH]; simpl; intros H; [reflexivity | ].
  rewrite (H a) by now left. apply IH. intros x Hx. apply H. now right.
Qed.

(** The merge itself is an outer join: a P/B row on a date without P/E
    row gives a merged row on that date, with the P/B cells of the row
    and with both P/E cells missing; the row is in the frame that is
    stored. *)
Lemma concat_on_date_pb_only (pb : list Api.PBRow) (pe : list Api.PERow)
    (df : list Row) (r : Api.PBRow) :
  Poller.concat_on_date pb pe = Ok df ->
  List.In r pb ->
  (forall q, List.In q pe -> Api.pe_date q <> Some (Api.pb_date r)) ->
  List.In (Poller.merged_row (Some (Api.pb_date r)) (Some r) None)
          (sort_values false df)
  /\ ttm_net_eps (Poller.merged_row (Some (Api.pb_date r)) (Some r) None) = Float.nan
  /\ pe_ratio (Poller.merged_row (Some (Api.pb_date r)) (Some r) None) = Float.nan.
Proof.
  intros Hc Hr Hpe. split; [ | split; reflexivity].
  apply (Permutation_in _ (Permutation_sym (sort_values_perm false df))).
  unfold Poller.concat_on_date in Hc. cbv zeta in Hc.
  destruct (Poller.has_duplicates (map (fun r => Some (Api.pb_date r)) pb)) eqn:Hd;
    [discriminate | ].
  destruct (Poller.has_duplicates (map Api.pe_date pe)); [discriminate | ].
  cbn [orb] in Hc. injection Hc as <-.
  apply in_map_iff. exists (Some (Api.pb_date r)). split.
  - pose proof (find_without_duplicates
                  (fun r => Some (Api.pb_date r)) pb r Hd Hr) as Hf.
    cbn [Poller.date_eqb] in Hf. rewrite Hf.
    rewrite find_none; [reflexivity | ].
    intros q Hq. apply not_true_iff_false. intros E.
    apply date_eqb_eq in E. now apply (Hpe q).
  - apply in_or_app. left. apply in_map_iff. eauto.
Qed.

(** C2 (the code departs from the claim).  In the batch "A", "B" both
    fetches of "A" succeed and the P/E fetch of "B" fails.  The variables
    [pe_history_df] and [current_pe] still hold the values of "A": the
    row stored for "B" carries the EPS 1 and the P/E 10 of "A", and the
    snapshot of "B" carries the current P/E 12 of "A".  When "B" comes
    first the two variables are unbound: a NameError leaves
    [poll_tickers] and nothing is stored. *)
Theorem C2_pe_failure_reuses_previous_ticker :
  let after := snd (fst (Scenario.poll [Scenario.alpha; Scenario.beta])) in
  let day := Some (Calendar.days_from_civil 2022 12 31) in
  fst (fst (Scenario.poll [Scenario.alpha; Scenario.beta])) = Ok tt
  /\ Db.macrotrends_pe_pb_hist after !! (Some "B", day)
     = Some (mkRow (Some "B") (Some "Beta") day (Float.of_Z 30) (Float.of_Z 10)
                   (Float.of_Z 3) (Float.of_Z 1) (Float.of_Z 10) None)
  /\ Db.macrotrends_pe_pb_hist after !! (Some "A", day)
     = Some (mkRow (Some "A") (Some "Alpha") day (Float.of_Z 10) (Float.of_Z 5)
                   (Float.of_Z 2) (Float.of_Z 1) (Float.of_Z 10) None)
  /\ Db.current_ratios after !! "B"
     = Some (Current.mk "B" 0 (Float.of_Z 3) (Float.of_Z 12))
  /\ Scenario.poll [Scenario.beta]
     = (Raise "NameError: name 'current_pe' is not defined",
        Scenario.empty_tables,
        [Poller.Get "https://www.macrotrends.net/stocks/charts/B/beta/price-book";
         Poller.DoSleep;
         Poller.Get "https://www.macrotrends.net/stocks/charts/B/beta/pe-ratio";
         Poller.Warn "Could not fetch P/B history";
         Poller.DoSleep;
         Poller.Warn "Could not concatenate P/B and P/E history"]).
Proof.
  repeat split; vm_compute; reflexivity.
Qed.

(** ** C8: the retry loop *)

Lemma run_from_invariant (calls : list Poller.outcome) (retries : Z) :
  0 <= retries <= Poller.max_retries ->
  (Poller.retries_in_a_row (Z.to_nat retries)
     (fst (Poller.run_from retries calls)) <= 5)%nat
  /\ forall r, snd (Poller.run_from retries calls) = Poller.Polling r ->
               0 <= r <= Poller.max_retries.
Proof.
  unfold Poller.max_retries.
  revert retries. induction calls as [ | o rest IH]; intros retries Hr.
  - simpl. split; [lia | ]. intros r [= <-]. exact Hr.
  - cbn [Poller.run_from]. destruct o; cbn [Poller.run_turn].
    + (* the call returned *)
      destruct (IH 0 ltac:(lia)) as [IH1 IH2].
      destruct (Poller.run_from 0 rest) as [evs s]. cbn [fst snd] in *.
      split; [ | exact IH2].
      cbn [app Poller.retries_in_a_row].
      change (Z.to_nat 0) with 0%nat in IH1. lia.
    + (* the call raised an exception *)
      unfold Poller.max_retries.
      destruct (5 <? retries + 1) eqn:E.
      * cbn [fst snd Poller.retries_in_a_row]. split; [lia | discriminate].
      * apply Z.ltb_ge in E.
        destruct (IH (retries + 1) ltac:(lia)) as [IH1 IH2].
        destruct (Poller.run_from (retries + 1) rest) as [evs s].
        cbn [fst snd] in *. split; [ | exact IH2].
        cbn [app Poller.retries_in_a_row].
        replace (S (Z.to_nat retries)) with (Z.to_nat (retries + 1)) by lia.
        exact IH1.
    + (* the user interrupted the call *)
      cbn [fst snd Poller.retries_in_a_row]. split; [lia | discriminate].
Qed.

Lemma run_from_stopped (calls more : list Poller.outcome) (retries : Z) evs :
  Poller.run_from retries calls = (evs, Poller.Stopped) ->
  Poller.run_from retries (calls ++ more) = (evs, Poller.Stopped).
Proof.
  revert retries evs. induction calls as [ | o rest IH]; intros retries evs.
  - simpl. discriminate.
  - cbn [Poller.run_from app].
    destruct (Poller.run_turn retries o) as [evs0 [r | ]]; [ | auto].
    destruct (Poller.run_from r rest) as [evs1 s] eqn:E.
    intros [= <- ->]. now rewrite (IH _ _ E).
Qed.

(** C8.  From the head of the loop with [retries] failures in a row:
    a call that raises an exception makes the counter [retries + 1] and,
    as long as this does not exceed [max_retries] = 5, the loop sleeps
    [base_wait_time * 2 ^ (retries + 1)] seconds and polls again;
    when it exceeds [max_retries], the loop logs and stops without
    sleeping; a call that returns resets the counter to 0; an
    interruption stops the loop.  Over any sequence of calls: at most 5
    retries follow one another, the counter at the head of the loop
    stays between 0 and 5, a stopped loop polls no more, and six failures
    in a row stop the loop after the sleeps 10, 20, 40, 80, 160. *)
Theorem C8_bounded_backoff :
  (forall retries, 0 <= retries -> retries + 1 <= Poller.max_retries ->
     Poller.run_turn retries Poller.RaisedException
     = ([Poller.Polled Poller.RaisedException;
         Poller.LogError "Error occurred during ticker polling:";
         Poller.LogInfo "Retrying in wait_time seconds...";
         Poller.TimeSleep (Poller.base_wait_time * 2 ^ (retries + 1))],
        Poller.Polling (retries + 1)))
  /\ (forall retries, Poller.max_retries < retries + 1 ->
        Poller.run_turn retries Poller.RaisedException
        = ([Poller.Polled Poller.RaisedException;
            Poller.LogError "Error occurred during ticker polling:";
            Poller.LogError "Maximum retries reached. Exiting."],
           Poller.Stopped))
  /\ (forall retries,
        Poller.run_turn retries Poller.Returned
        = ([Poller.Polled Poller.Returned], Poller.Polling 0))
  /\ (forall retries,
        snd (Poller.run_turn retries Poller.RaisedKeyboardInterrupt)
        = Poller.Stopped)
  /\ (forall calls,
        (Poller.retries_in_a_row 0 (fst (Poller.run calls))
         <= Z.to_nat Poller.max_retries)%nat)
  /\ (forall calls r,
        snd (Poller.run calls) = Poller.Polling r ->
        0 <= r <= Poller.max_retries)
  /\ (forall calls more evs,
        Poller.run calls = (evs, Poller.Stopped) ->
        Poller.run (calls ++ more) = (evs, Poller.Stopped))
  /\ (forall more,
        snd (Poller.run (repeat Poller.RaisedException 6 ++ more)) = Poller.Stopped
        /\ List.filter (fun e => match e with Poller.TimeSleep _ => true | _ => false end)
             (fst (Poller.run (repeat Poller.RaisedException 6 ++ more)))
           = map Poller.TimeSleep [10; 20; 40; 80; 160]).
Proof.
  split.
  { intros retries H0 H1. unfold Poller.run_turn.
    destruct (Poller.max_retries <? retries + 1) eqn:E; [ | reflexivity].
    apply Z.ltb_lt in E. lia. }
  split.
  { intros retries H. unfold Poller.run_turn.
    apply Z.ltb_lt in H. now rewrite H. }
  split; [reflexivity | ].
  split; [reflexivity | ].
  split.
  { intros calls.
    apply (run_from_invariant calls 0). unfold Poller.max_retries. lia. }
  split.
  { intros calls r.
    apply (run_from_invariant calls 0). unfold Poller.max_retries. lia. }
  split.
  { intros calls more evs. apply run_from_stopped. }
  intros more.
  assert (E : Poller.run (repeat Poller.RaisedException 6)
              = (fst (Poller.run (repeat Poller.RaisedException 6)), Poller.Stopped))
    by reflexivity.
  unfold Poller.run in *. rewrite (run_from_stopped _ more _ _ E).
  split; reflexivity.
Qed.

Lemma C8_bounded_backoff_witness :
  (0 <= 2 /\ 2 + 1 <= Poller.max_retries)
  /\ Poller.run_turn 2 Poller.RaisedException
     = ([Poller.Polled Poller.RaisedException;
         Poller.LogError "Error occurred during ticker polling:";
         Poller.LogInfo "Retrying in wait_time seconds...";
         Poller.TimeSleep 40],
        Poller.Polling 3)
  /\ Poller.max_retries < 5 + 1
  /\ snd (Poller.run_turn 5 Poller.RaisedException) = Poller.Stopped.
Proof.
  destruct C8_bounded_backoff as (Hretry & Hstop & _).
  split; [unfold Poller.max_retries; lia | ].
  split.
  { apply (Hretry 2); unfold Poller.max_retries; lia. }
  split; [unfold Poller.max_retries; lia | ].
  rewrite (Hstop 5); [reflexivity | unfold Poller.max_retries; lia].
Defined.

(** ** C10: one write, one transaction *)

(** [executemany] leaves what is committed alone; it ends normally
    exactly when every execution is accepted, and the open transaction
    then holds the effect of all of them. *)
Lemma executemany_spec {A} (execute : Db.Tables -> A -> option Db.Tables)
    (all_data : list A) (c : Db.Connection) :
  Db.committed (snd (Db.executemany execute all_data c)) = Db.committed c
  /\ match Db.executemany execute all_data c with
     | (Ok _, c') =>
         Db.execute_all execute all_data (Db.working c) = Some (Db.working c')
     | (Raise e, _) =>
         e = "psycopg2.Error"
         /\ Db.execute_all execute all_data (Db.working c) = None
     end.
Proof.
  revert c. induction all_data as [ | x rest IH]; intros c; simpl.
  - split; reflexivity.
  - destruct (execute (Db.working c) x) as [w | ]; simpl.
    + destruct (IH (Db.mkConnection (Db.committed c) w)) as [H1 H2].
      split; [exact H1 | exact H2].
    + repeat split.
Qed.

Lemma transaction_executemany_spec {A}
    (execute : Db.Tables -> A -> option Db.Tables)
    (all_data : list A) (c : Db.Connection) :
  match Db.transaction (Db.executemany execute all_data) c with
  | (Ok _, c') =>
      exists t, Db.execute_all execute all_data (Db.working c) = Some t
                /\ c' = Db.mkConnection t t
  | (Raise e, c') =>
      e = "psycopg2.Error"
      /\ Db.execute_all execute all_data (Db.working c) = None
      /\ c' = Db.mkConnection (Db.committed c) (Db.committed c)
  end.
Proof.
  unfold Db.transaction.
  destruct (executemany_spec execute all_data c) as [Hc Hw].
  destruct (Db.executemany execute all_data c) as [[u | e] c']; simpl in *.
  - exists (Db.working c'). split; [assumption | reflexivity].
  - destruct Hw as [-> Hw]. split; [reflexivity | ].
    split; [assumption | ]. unfold Db.rollback. now rewrite Hc.
Qed.

(** C10.  For every list of frames and every state of the connection,
    each of the two writes is one transaction.  If the write raises, the
    exception reaches the caller and the transaction is rolled back: what
    is committed is what was committed before the call and the
    connection holds nothing else, whatever the number of rows already
    sent.  If the write returns, every row has been executed and the
    result is committed. *)
Theorem C10_store_is_atomic (reports : list (list Row))
    (ratios : list (list Current.row)) (c : Db.Connection) :
  match Db.store_report_dataframes reports c with
  | (Ok _, c') =>
      exists t,
        Db.execute_all Db.insert_report (concat reports) (Db.working c) = Some t
        /\ Db.committed c' = t /\ Db.working c' = t
  | (Raise e, c') =>
      Db.execute_all Db.insert_report (concat reports) (Db.working c) = None
      /\ Db.committed c' = Db.committed c /\ Db.working c' = Db.committed c
  end
  /\ match Db.store_current_ratio_dataframes ratios c with
     | (Ok _, c') =>
         exists t,
           Db.execute_all Db.upsert_current_ratio (concat ratios) (Db.working c)
           = Some t
           /\ Db.committed c' = t /\ Db.working c' = t
     | (Raise e, c') =>
         Db.execute_all Db.upsert_current_ratio (concat ratios) (Db.working c)
         = None
         /\ Db.committed c' = Db.committed c /\ Db.working c' = Db.committed c
     end.
Proof.
  unfold Db.store_report_dataframes, Db.store_current_ratio_dataframes.
  cbv zeta. split.
  - pose proof (transaction_executemany_spec Db.insert_report (concat reports) c) as H.
    destruct (Db.transaction _ c) as [[u | e] c'].
    + destruct H as (t & Ht & ->). exists t. repeat split. assumption.
    + destruct H as (_ & Ht & ->). repeat split. assumption.
  - pose proof (transaction_executemany_spec Db.upsert_current_ratio
                  (concat ratios) c) as H.
    destruct (Db.transaction _ c) as [[u | e] c'].
    + destruct H as (t & Ht & ->). exists t. repeat split. assumption.
    + destruct H as (_ & Ht & ->). repeat split. assumption.
Qed.

(** A frame of two rows whose second row is rejected (its symbol has 11
    characters): the write raises and the first row is not in the
    table. *)
Example store_report_dataframes_rolls_back :
  let good := Scenario.year_end "GOOD" (Float.of_Z 1) (Float.of_Z 12) 2022 in
  let c := Db.connect Scenario.empty_tables in
  Db.store_report_dataframes [[good; Scenario.too_long]] c
  = (Raise "psycopg2.Error", c)
  /\ Db.macrotrends_pe_pb_hist
       (Db.committed (snd (Db.store_report_dataframes [[good]] c)))
     !! (symbol good, date good) = Some good.
Proof. split; vm_compute; reflexivity. Qed.

(** * Further properties of the code *)

(** ** The qualifying set of [screen_stocks] *)

Lemma Forall2_in_l {A B} (P : A -> B -> Prop) (l : list A) (k : list B) (x : A) :
  Forall2 P l k -> List.In x l -> exists y, List.In y k /\ P x y.
Proof.
  induction 1 as [ | x' y l k Hxy _ IH]; simpl; [tauto | ].
  intros [<- | Hx]; [eauto | ].
  destruct (IH Hx) as (y' & Hy' & HP). eauto.
Qed.

Lemma in_group_of (s : string) (l : list Row) (r : Row) :
  List.In r (group_of s l) <-> List.In r l /\ symbol r = Some s.
Proof.
  unfold group_of. rewrite filter_In. unfold has_symbol.
  destruct (symbol r) as [s' | ]; split; intros [H1 H2]; split; try assumption;
    try discriminate.
  - apply String.eqb_eq in H2. now subst.
  - injection H2 as ->. apply String.eqb_refl.
Qed.

Lemma in_symbols (l : list Row) (s : string) :
  List.In s (symbols l) <-> exists r, List.In r l /\ symbol r = Some s.
Proof.
  unfold symbols. split.
  - intros H. apply -> (in_unique String.eqb string_eqb_eq) in H.
    now apply in_notna in H.
  - intros H. apply (in_unique String.eqb string_eqb_eq). now apply in_notna.
Qed.

(** A row whose group makes [func] return [True] is kept. *)
Lemma groupby_filter_complete (func : list Row -> option bool) (l kept : list Row)
    (r : Row) (s : string) :
  groupby_filter func l = Some kept -> List.In r l -> symbol r = Some s ->
  func (group_of s l) = Some true -> List.In r kept.
Proof.
  unfold groupby_filter.
  destruct (mapM _ (symbols l)) as [verdicts | ] eqn:Ev;
    cbn [mbind option_bind]; [ | discriminate].
  intros [= <-] Hr Es Hf. apply filter_In. split; [assumption | ].
  rewrite Es. unfold verdict_of. apply existsb_exists.
  exists (s, true). split; [ | simpl; now rewrite String.eqb_refl].
  apply mapM_Some_1 in Ev.
  destruct (Forall2_in_l _ _ _ s Ev) as (y & Hy & Hs).
  - apply in_symbols. eauto.
  - simpl in Hs. rewrite Hf in Hs. simpl in Hs. now injection Hs as <-.
Qed.

(** What [True] means, check by check. *)
Lemma stock_meets_criteria_true_inv current_df criteria (group : list Row) :
  stock_meets_criteria current_df criteria group = Some true ->
  let cur := current_ratios_row current_df group in
  let sorted := snd (calculate_avg_pb_ratios group) in
  let avg_3 := fst (fst (fst (calculate_avg_pb_ratios group))) in
  let avg_max := snd (fst (fst (calculate_avg_pb_ratios group))) in
  exists latest_pb latest_pe,
    latest_ratio Current.pb_ratio price_to_book_ratio cur group = Some latest_pb
    /\ latest_ratio Current.pe_ratio pe_ratio cur (sort_values false sorted)
       = Some latest_pe
    /\ too_few_pb_years criteria group = false
    /\ only_positive_pb criteria && some_pb_not_positive group = false
    /\ above_pb_ceiling criteria latest_pb = false
    /\ above_safety_threshold criteria latest_pb avg_3 avg_max = false
    /\ too_few_positive_pe_years criteria (sort_values false sorted) = false
    /\ above_pe_ceiling criteria latest_pe = false.
Proof.
  intros H cur sorted avg_3 avg_max.
  destruct (latest_ratio Current.pb_ratio price_to_book_ratio cur group)
    as [pb | ] eqn:Hpb.
  2:{ unfold stock_meets_criteria in H. fold cur in H. rewrite Hpb in H.
      discriminate H. }
  destruct (latest_ratio Current.pe_ratio pe_ratio cur (sort_values false sorted))
    as [pe | ] eqn:Hpe.
  2:{ unfold stock_meets_criteria, calculate_avg_pb_ratios in H. cbv zeta in H.
      fold cur in H. rewrite Hpb in H. cbn [mbind option_bind] in H.
      unfold sorted, calculate_avg_pb_ratios in Hpe. cbn [snd] in Hpe.
      rewrite Hpe in H. discriminate H. }
  exists pb, pe. split; [reflexivity | ]. split; [reflexivity | ].
  pose proof (stock_meets_criteria_eq current_df criteria group pb pe) as E.
  unfold calculate_avg_pb_ratios in E. cbv zeta in E.
  unfold sorted, avg_3, avg_max, calculate_avg_pb_ratios in *.
  cbn [fst snd] in *.
  rewrite (E Hpb Hpe) in H. injection H as H.
  apply andb_prop in H as [H H6]. apply andb_prop in H as [H H5].
  apply andb_prop in H as [H H4]. apply andb_prop in H as [H H3].
  apply andb_prop in H as [H1 H2].
  apply negb_true_iff in H1, H2, H3, H4, H5, H6. auto 10.
Qed.

Lemma in_screened_symbols now_year df current_df criteria syms :
  screened_symbols now_year df current_df criteria = Some syms ->
  forall s, List.In s syms <->
            group_of s (rows (window now_year (add_year_column df))) <> []
            /\ stock_meets_criteria current_df criteria
                 (group_of s (rows (window now_year (add_year_column df))))
               = Some true.
Proof.
  intros H. set (w := rows (window now_year (add_year_column df))).
  unfold screened_symbols in H. cbv zeta in H. fold w in H.
  destruct (groupby_filter (stock_meets_criteria current_df criteria) w)
    as [kept | ] eqn:Ek; cbn [mbind option_bind] in H; [ | discriminate].
  injection H as <-.
  intros s. split.
  - intros Hs. apply -> (in_unique String.eqb string_eqb_eq) in Hs.
    apply in_notna in Hs as (r & Hr & Er).
    destruct (groupby_filter_kept _ _ _ _ Ek Hr) as (s' & Es' & Hrw & Htrue).
    assert (s' = s) by congruence. subst s'. split; [ | assumption].
    intros E. assert (Hin : List.In r (group_of s w)) by now apply in_group_of.
    rewrite E in Hin. destruct Hin.
  - intros [Hne Htrue].
    destruct (group_of s w) as [ | r g] eqn:Eg; [congruence | ].
    assert (Hr : List.In r (group_of s w)) by (rewrite Eg; now left).
    apply in_group_of in Hr as [Hr Er].
    apply (in_unique String.eqb string_eqb_eq). apply in_notna. exists r.
    split; [ | assumption].
    apply (groupby_filter_complete _ _ _ _ s Ek Hr Er). now rewrite Eg.
Qed.
(** The qualifying set holds each symbol once, and holds exactly the
    symbols that have rows in the ten-year window and for whose rows
    [stock_meets_criteria] returns [True]. *)
Theorem screened_symbols_characterised now_year df current_df criteria syms :
  screened_symbols now_year df current_df criteria = Some syms ->
  let w := rows (window now_year (add_year_column df)) in
  List.NoDup syms
  /\ forall s, List.In s syms <->
               group_of s w <> []
               /\ stock_meets_criteria current_df criteria (group_of s w) = Some true.
Proof.
  intros H w. split.
  - unfold screened_symbols in H. cbv zeta in H.
    destruct (groupby_filter (stock_meets_criteria current_df criteria)
                (rows (window now_year (add_year_column df))))
      as [kept | ]; cbn [mbind option_bind] in H; [ | discriminate].
    injection H as <-. apply nodup_unique_from. apply String.eqb_eq.
  - exact (in_screened_symbols _ _ _ _ _ H).
Qed.

Lemma screened_symbols_characterised_witness :
  screened_symbols 2023 Scenario.history Scenario.snapshot Scenario.criteria
  = Some ["GOOD"; "HOLE"]
  /\ List.NoDup ["GOOD"; "HOLE"]
  /\ stock_meets_criteria Scenario.snapshot Scenario.criteria
       (group_of "GOOD" (rows (window 2023 (add_year_column Scenario.history))))
     = Some true.
Proof.
  assert (H : screened_symbols 2023 Scenario.history Scenario.snapshot
                Scenario.criteria = Some ["GOOD"; "HOLE"])
    by (vm_compute; reflexivity).
  destruct (screened_symbols_characterised _ _ _ _ _ H) as [Hnd Hiff].
  split; [exact H | ]. split; [exact Hnd | ].
  apply (Hiff "GOOD"). now left.
Defined.

Lemma filter_filter_ext {A} (f g : A -> bool) (l : list A) :
  (forall x, List.In x l -> f x = true -> g x = true) ->
  List.filter f (List.filter g l) = List.filter f l.
Proof.
  induction l as [ | a l IH]; simpl; intros H; [reflexivity | ].
  destruct (g a) eqn:Eg; simpl.
  - destruct (f a); rewrite IH; auto.
  - destruct (f a) eqn:Ef.
    + rewrite (H a) in Eg by auto. discriminate.
    + apply IH. auto.
Qed.

(** The two returned frames: the history frame holds, in the order of
    the window, the windowed rows of the qualifying symbols, each group
    as a whole, and carries the [year] column; the snapshot frame holds
    the snapshot rows of the qualifying symbols. *)
Theorem screen_stocks_returns_whole_groups now_year df current_df criteria :
  let w := window now_year (add_year_column df) in
  exists syms filtered_df filtered_current_df,
    screened_symbols now_year df current_df criteria = Some syms
    /\ snd (screen_stocks now_year df current_df criteria)
       = Some (filtered_df, filtered_current_df)
    /\ has_year filtered_df = true
    /\ dates_as filtered_df = Datetime64
    /\ (forall r, List.In r (rows filtered_df) <->
                  List.In r (rows w)
                  /\ exists s, symbol r = Some s /\ List.In s syms)
    /\ (forall s, List.In s syms ->
                  group_of s (rows filtered_df) = group_of s (rows w)
                  /\ group_of s (rows filtered_df) <> [])
    /\ (forall c, List.In c filtered_current_df <->
                  List.In c current_df /\ List.In (Current.symbol c) syms).
Proof.
  intros w.
  destruct (screened_symbols_total now_year df current_df criteria) as [syms Hsyms].
  exists syms, (select (symbol_isin syms) w),
    (List.filter (fun c => isin syms (Current.symbol c)) current_df).
  split; [assumption | ].
  split; [rewrite screen_stocks_screened, Hsyms; reflexivity | ].
  split; [reflexivity | ]. split; [reflexivity | ].
  assert (Hisin : forall s, isin syms s = true <-> List.In s syms).
  { intros s. apply (existsb_eqb String.eqb string_eqb_eq). }
  split.
  { intros r. cbn [rows select]. rewrite filter_In. unfold symbol_isin.
    destruct (symbol r) as [s | ].
    - rewrite Hisin. split.
      + intros [H1 H2]. eauto.
      + intros [H1 (s' & [= <-] & H2)]. auto.
    - split; [intros [_ H]; discriminate | intros [_ (s & H & _)]; discriminate]. }
  split.
  { intros s Hs.
    assert (E : group_of s (rows (select (symbol_isin syms) w)) = group_of s (rows w)).
    { cbn [rows select]. unfold group_of. apply filter_filter_ext.
      intros r _ Hr. unfold has_symbol in Hr. unfold symbol_isin.
      destruct (symbol r) as [s' | ]; [ | discriminate].
      apply String.eqb_eq in Hr. subst s'. now apply Hisin. }
    split; [exact E | ]. rewrite E.
    exact (proj1 (proj1 (in_screened_symbols _ _ _ _ _ Hsyms s) Hs)). }
  intros c. rewrite filter_In, Hisin. tauto.
Qed.

Lemma current_ratios_row_of_group current_df (s : string) (l : list Row) :
  group_of s l <> [] ->
  current_ratios_row current_df (group_of s l)
  = find (fun c => String.eqb (Current.symbol c) s) current_df.
Proof.
  destruct (group_of s l) as [ | r g] eqn:Eg; [congruence | ]. intros _.
  assert (Hr : List.In r (group_of s l)) by (rewrite Eg; now left).
  apply in_group_of in Hr as [_ Er]. simpl. now rewrite Er.
Qed.

(** Every symbol of the qualifying set has at least [years_pb_history]
    distinct years in the window and enough years with a positive P/E;
    if [only_positive_pb] is set, none of its windowed P/B values is
    [<= 0]; and if the snapshot has a row for it, the P/B of that row is
    neither [>=] the P/B ceiling nor [>] the safety threshold, and its
    P/E is not [>=] the P/E ceiling. *)
Theorem qualifying_symbol_passes_checks now_year df current_df criteria syms
    (s : string) :
  screened_symbols now_year df current_df criteria = Some syms ->
  List.In s syms ->
  let g := group_of s (rows (window now_year (add_year_column df))) in
  let avg_3 := fst (fst (fst (calculate_avg_pb_ratios g))) in
  let avg_max := snd (fst (fst (calculate_avg_pb_ratios g))) in
  years_pb_history criteria <= nunique_year g
  /\ too_few_positive_pe_years criteria
       (sort_values false (snd (calculate_avg_pb_ratios g))) = false
  /\ (only_positive_pb criteria = true ->
      forall r, List.In r g -> Float.leb (price_to_book_ratio r) Float.zero = false)
  /\ (forall c,
        find (fun c => String.eqb (Current.symbol c) s) current_df = Some c ->
        Float.geb (Current.pb_ratio c) (max_current_pb_ratio criteria) = false
        /\ Float.gtb (Current.pb_ratio c)
             (Float.mul (pb_margin_of_safety criteria)
                        (Float.py_min avg_3 avg_max)) = false
        /\ Float.geb (Current.pe_ratio c) (max_current_pe_ratio criteria) = false).
Proof.
  intros Hsyms Hs g avg_3 avg_max.
  pose proof (in_screened_symbols _ _ _ _ _ Hsyms) as Hiff.
  apply Hiff in Hs as [Hne Htrue]. fold g in Hne, Htrue.
  destruct (stock_meets_criteria_true_inv _ _ _ Htrue)
    as (pb & pe & Hpb & Hpe & H1 & H2 & H3 & H4 & H5 & H6).
  fold avg_3 avg_max in H4.
  split; [unfold too_few_pb_years in H1; apply Z.ltb_ge in H1; exact H1 | ].
  split; [exact H5 | ].
  split.
  { intros Hpos r Hr. rewrite Hpos in H2. simpl in H2.
    unfold some_pb_not_positive in H2.
    destruct (Float.leb (price_to_book_ratio r) Float.zero) eqn:E; [ | reflexivity].
    rewrite <- H2. symmetry. apply existsb_exists. eauto. }
  intros c Hc.
  unfold g in Hpb, Hpe. rewrite current_ratios_row_of_group in Hpb, Hpe by exact Hne.
  rewrite Hc in Hpb, Hpe. simpl in Hpb, Hpe.
  injection Hpb as <-. injection Hpe as <-. auto.
Qed.

Lemma qualifying_symbol_passes_checks_witness :
  List.In "GOOD" ["GOOD"; "HOLE"]
  /\ 7 <= nunique_year
            (group_of "GOOD" (rows (window 2023 (add_year_column Scenario.history)))).
Proof.
  assert (H : screened_symbols 2023 Scenario.history Scenario.snapshot
                Scenario.criteria = Some ["GOOD"; "HOLE"])
    by (vm_compute; reflexivity).
  assert (Hin : List.In "GOOD" ["GOOD"; "HOLE"]) by now left.
  split; [exact Hin | ].
  exact (proj1 (qualifying_symbol_passes_checks _ _ _ _ _ "GOOD" H Hin)).
Defined.

(** ** Rows of the current year *)

Lemma filter_map_swap {A B} (f : A -> B) (p : B -> bool) (l : list A) :
  List.filter p (map f l) = map f (List.filter (fun x => p (f x)) l).
Proof.
  induction l as [ | a l IH]; simpl; [reflexivity | ].
  destruct (p (f a)); simpl; now rewrite IH.
Qed.

(** The rows dated in the current year have no influence: two histories
    that hold the same rows outside of the current year, in the same
    order, give the same result. *)
Theorem current_year_rows_are_ignored now_year df1 df2 current_df criteria :
  let outside (r : Row) :=
    match date r with
    | Some d => negb (Calendar.year_of_days d =? now_year)
    | None => true
    end in
  List.filter outside (rows df1) = List.filter outside (rows df2) ->
  snd (screen_stocks now_year df1 current_df criteria)
  = snd (screen_stocks now_year df2 current_df criteria).
Proof.
  intros outside H.
  assert (E : window now_year (add_year_column df1)
              = window now_year (add_year_column df2)).
  { assert (X : forall df,
               List.filter (not_current_year now_year) (rows (add_year_column df))
               = map (fun r => set_year (option_map Calendar.year_of_days (date r)) r)
                     (List.filter outside (rows df))).
    { intros df. cbn [rows add_year_column]. rewrite filter_map_swap.
      f_equal. apply filter_ext. intros r. unfold not_current_year, outside. simpl.
      destruct (date r); reflexivity. }
    unfold window, select. cbn [dates_as has_year add_year_column].
    rewrite !X, H. reflexivity. }
  rewrite !screen_stocks_screened. unfold screened_symbols. cbv zeta.
  now rewrite E.
Qed.

Lemma current_year_rows_are_ignored_witness :
  snd (screen_stocks 2023
         (Scenario.loaded
            (Scenario.year_end "FEW" (Float.of_Z 9) (Float.of_Z 90) 2023
             :: rows Scenario.history))
         Scenario.snapshot Scenario.criteria)
  = snd (screen_stocks 2023 Scenario.history Scenario.snapshot Scenario.criteria).
Proof.
  apply current_year_rows_are_ignored. vm_compute. reflexivity.
Defined.

(** ** The two minimum numbers of years *)

(** Lowering [years_pb_history] or [years_positive_pe_history], the
    other criteria being the same, removes no symbol from the qualifying
    set. *)
Theorem lower_year_minimums_keep_symbols now_year df current_df c1 c2 syms1 syms2 :
  years_pb_history c2 <= years_pb_history c1 ->
  years_positive_pe_history c2 <= years_positive_pe_history c1 ->
  only_positive_pb c2 = only_positive_pb c1 ->
  max_current_pb_ratio c2 = max_current_pb_ratio c1 ->
  pb_margin_of_safety c2 = pb_margin_of_safety c1 ->
  max_current_pe_ratio c2 = max_current_pe_ratio c1 ->
  screened_symbols now_year df current_df c1 = Some syms1 ->
  screened_symbols now_year df current_df c2 = Some syms2 ->
  incl syms1 syms2.
Proof.
  intros Hy Hpe Hpos Hmax Hmargin Hmaxpe H1 H2 s Hs.
  pose proof (in_screened_symbols _ _ _ _ _ H1) as Hiff1.
  pose proof (in_screened_symbols _ _ _ _ _ H2) as Hiff2.
  apply Hiff2. apply Hiff1 in Hs as [Hne Htrue]. split; [exact Hne | ].
  destruct (stock_meets_criteria_true_inv _ _ _ Htrue)
    as (pb & pe & Hpb & Hpe' & T1 & T2 & T3 & T4 & T5 & T6).
  pose proof (stock_meets_criteria_eq current_df c2
                (group_of s (rows (window now_year (add_year_column df)))) pb pe)
    as E.
  unfold calculate_avg_pb_ratios in E, Hpe', T4, T5. cbv zeta in E.
  cbn [fst snd] in Hpe', T4, T5.
  rewrite (E Hpb Hpe'). f_equal.
  unfold too_few_pb_years, too_few_positive_pe_years, above_pb_ceiling,
    above_safety_threshold, above_pe_ceiling in *.
  rewrite Hpos, Hmax, Hmargin, Hmaxpe, T2, T3, T4, T6. cbn [negb].
  apply Z.ltb_ge in T1, T5.
  rewrite !andb_true_r. apply andb_true_iff. split; apply negb_true_iff, Z.ltb_ge; lia.
Qed.

Lemma lower_year_minimums_keep_symbols_witness :
  incl ["GOOD"; "HOLE"] ["GOOD"; "HOLE"; "FEW"].
Proof.
  apply (lower_year_minimums_keep_symbols 2023 Scenario.history Scenario.snapshot
           Scenario.criteria
           (mkCriteria 5 true (Float.of_Z 2) (Float.of_Z 1) 5 (Float.of_Z 30)));
    try reflexivity; try (simpl; lia); vm_compute; reflexivity.
Defined.

(** ** The order of the rows of a symbol *)

Lemma date_before_refl (ascending : bool) (a : Row) :
  date_before ascending a a = true.
Proof.
  unfold date_before. destruct (date a), ascending; try reflexivity; apply Z.leb_refl.
Qed.

Lemma date_before_trans (ascending : bool) (a b c : Row) :
  date_before ascending a b = true -> date_before ascending b c = true ->
  date_before ascending a c = true.
Proof.
  unfold date_before.
  destruct (date a), (date b), (date c), ascending;
    try discriminate; try reflexivity;
    rewrite !Z.leb_le; lia.
Qed.

Lemma date_before_antisym (ascending : bool) (a b : Row) :
  date_before ascending a b = true -> date_before ascending b a = true ->
  date a = date b.
Proof.
  unfold date_before.
  destruct (date a), (date b), ascending;
    try discriminate; try reflexivity;
    rewrite !Z.leb_le; intros; f_equal; lia.
Qed.

Lemma sort_values_strongly_sorted (ascending : bool) (l : list Row) :
  StronglySorted (dated_before ascending) (sort_values ascending l).
Proof.
  apply Sorted_StronglySorted; [ | apply sort_values_sorted].
  intros a b c. apply date_before_trans.
Qed.

(** Two sorted frames with the same rows, no two of them on the same
    date, are the same frame. *)
Lemma sorted_frames_equal (ascending : bool) (l1 l2 : list Row) :
  StronglySorted (dated_before ascending) l1 ->
  StronglySorted (dated_before ascending) l2 ->
  Permutation l1 l2 -> List.NoDup (map date l1) -> l1 = l2.
Proof.
  intros S1. revert l2. induction S1 as [ | a t1 S1 IH Ha]; intros l2 S2 HP Hnd.
  - now apply Permutation_nil in HP.
  - destruct S2 as [ | b t2 S2 Hb].
    + apply Permutation_sym, Permutation_nil in HP. discriminate.
    + assert (E : a = b).
      { assert (Hab : List.In a (b :: t2))
          by (apply (Permutation_in _ HP); now left).
        assert (Hba : List.In b (a :: t1))
          by (apply (Permutation_in _ (Permutation_sym HP)); now left).
        destruct Hab as [-> | Hab]; [reflexivity | ].
        destruct Hba as [-> | Hba]; [reflexivity | ].
        rewrite Forall_forall in Ha, Hb.
        pose proof (date_before_antisym _ _ _ (Ha b Hba) (Hb a Hab)) as Ed.
        simpl in Hnd. inversion Hnd as [ | ? ? Hnotin _]; subst.
        exfalso. apply Hnotin. rewrite Ed. now apply in_map. }
      subst b. f_equal. apply IH.
      * assumption.
      * now apply Permutation_cons_inv in HP.
      * simpl in Hnd. now inversion Hnd.
Qed.

(** The averages of a symbol do not depend on the order in which its
    rows are given, as long as no two rows bear the same date: the
    sorted argument and the three results are the same. *)
Theorem calculate_avg_pb_ratios_order_independent (l1 l2 : list Row) :
  Permutation l1 l2 -> List.NoDup (map date l1) ->
  calculate_avg_pb_ratios l1 = calculate_avg_pb_ratios l2.
Proof.
  intros HP Hnd.
  assert (E : sort_values true l1 = sort_values true l2).
  { apply (sorted_frames_equal true); try apply sort_values_strongly_sorted.
    - rewrite !sort_values_perm. exact HP.
    - apply (Permutation_NoDup (l := map date l1)); [ | assumption].
      apply Permutation_map, Permutation_sym, sort_values_perm. }
  unfold calculate_avg_pb_ratios. now rewrite E.
Qed.

Lemma calculate_avg_pb_ratios_order_independent_witness :
  calculate_avg_pb_ratios Scenario.unsorted
  = calculate_avg_pb_ratios (rev Scenario.unsorted).
Proof.
  apply calculate_avg_pb_ratios_order_independent.
  - apply Permutation_rev.
  - vm_compute. repeat constructor; simpl; intuition discriminate.
Defined.

(** ** The fallback to the latest historical row *)

Lemma iloc_last_strongly_sorted (ascending : bool) (l : list Row) (r : Row) :
  StronglySorted (dated_before ascending) l -> iloc_last l = Some r ->
  List.In r l /\ forall x, List.In x l -> date_before ascending x r = true.
Proof.
  unfold iloc_last. induction 1 as [ | a t S IH Ha]; [discriminate | ].
  destruct t as [ | b t].
  - simpl. intros [= <-]. split; [now left | ].
    intros x [<- | []]. apply date_before_refl.
  - intros H. change (last (map Some (b :: t)) None = Some r) in H.
    destruct (IH H) as [Hin Hall]. split; [now right | ].
    intros x [<- | Hx]; [ | auto].
    rewrite Forall_forall in Ha. now apply Ha.
Qed.

(** Without a snapshot row, the "current" value of a symbol whose rows
    are all dated is the cell of a row that bears the greatest date of
    the symbol. *)
Theorem fallback_is_most_recent_row (col_cur : Current.row -> float)
    (col_hist : Row -> float) (group : list Row) (v : float) :
  (forall r, List.In r group -> date r <> None) ->
  latest_ratio col_cur col_hist None group = Some v ->
  exists r, List.In r group /\ v = col_hist r
            /\ date r = col_max date group /\ date r <> None.
Proof.
  intros Hdated H. unfold latest_ratio in H.
  destruct (iloc_last (sort_values true group)) as [r | ] eqn:El; [ | discriminate].
  simpl in H. injection H as <-.
  destruct (iloc_last_strongly_sorted true _ _
              (sort_values_strongly_sorted true group) El) as [Hin Hall].
  assert (Hr : List.In r group)
    by (apply (Permutation_in _ (sort_values_perm true group)); exact Hin).
  exists r. split; [exact Hr | ]. split; [reflexivity | ].
  split; [ | now apply Hdated].
  destruct (date r) as [d | ] eqn:Ed; [ | now apply Hdated in Hr].
  destruct (col_max date group) as [m | ] eqn:Em.
  - destruct (col_max_spec _ _ _ Em) as [Hm Hmax]. f_equal.
    assert (d <= m) by (apply Hmax, in_notna; eauto).
    apply in_notna in Hm as (x & Hx & Ex).
    assert (Hxr : date_before true x r = true).
    { apply Hall. apply (Permutation_in _ (Permutation_sym (sort_values_perm true group))).
      exact Hx. }
    unfold date_before in Hxr. rewrite Ex, Ed in Hxr. apply Z.leb_le in Hxr. lia.
  - apply col_max_none in Em.
    assert (X : List.In d (notna date group)) by (apply in_notna; eauto).
    rewrite Em in X. destruct X.
Qed.

Lemma fallback_is_most_recent_row_witness :
  exists r, List.In r Scenario.unsorted
            /\ Float.of_Z 2 = price_to_book_ratio r
            /\ date r = col_max date Scenario.unsorted /\ date r <> None.
Proof.
  apply (fallback_is_most_recent_row Current.pb_ratio price_to_book_ratio).
  - intros r Hr. vm_compute in Hr.
    destruct Hr as [<- | [<- | []]]; discriminate.
  - vm_compute. reflexivity.
Defined.

(** ** The number of available years *)

Lemma fold_left_min_in (vs : list Z) (v : Z) :
  List.In (fold_left Z.min vs v) (v :: vs).
Proof.
  revert v. induction vs as [ | a vs IH]; intros v; simpl.
  - now left.
  - destruct (IH (Z.min v a)) as [E | H]; [ | auto].
    rewrite <- E. destruct (Z.min_spec v a) as [[_ ->] | [_ ->]]; auto.
Qed.

Lemma col_min_in {A} (col : A -> option Z) (l : list A) (m : Z) :
  col_min col l = Some m -> List.In m (notna col l).
Proof.
  unfold col_min. destruct (notna col l) as [ | v vs]; [discriminate | ].
  intros [= <-]. apply fold_left_min_in.
Qed.

(** The year of a windowed row is the year of its date and lies in the
    ten years that end with the greatest year left after the exclusion
    of the current year. *)
Lemma window_row_range (now_year : Z) (df : DataFrame) (r : Row) :
  List.In r (rows (window now_year (add_year_column df))) ->
  exists d Y,
    date r = Some d
    /\ col_max year
         (rows (select (not_current_year now_year) (add_year_column df))) = Some Y
    /\ Y - 10 < Calendar.year_of_days d.
Proof.
  intros Hr. apply in_window in Hr as (Hin & _ & Hten).
  unfold within_ten_years in Hten.
  rewrite (in_add_year_column df r Hin) in Hten.
  destruct (date r) as [d | ]; [ | discriminate]. simpl in Hten.
  destruct (col_max year _) as [Y | ]; [ | discriminate].
  exists d, Y. repeat split. now apply Z.ltb_lt in Hten.
Qed.

Lemma window_row_below_max (now_year : Z) (df : DataFrame) (r : Row) d Y :
  List.In r (rows (window now_year (add_year_column df))) ->
  date r = Some d ->
  col_max year
    (rows (select (not_current_year now_year) (add_year_column df))) = Some Y ->
  Calendar.year_of_days d <= Y.
Proof.
  intros Hr Ed EY. apply in_window in Hr as (Hin & Hne & _).
  apply col_max_spec in EY as [_ Hmax]. apply Hmax. apply in_notna.
  exists r. split.
  - cbn [rows select]. apply filter_In. auto.
  - rewrite (in_add_year_column df r Hin), Ed. reflexivity.
Qed.

(** For the rows of a symbol in the window, [available_years] (the "N"
    of the "N Year Average P/B") is at most 10. *)
Theorem available_years_at_most_ten now_year df (s : string) (n : Z) :
  snd (fst (calculate_avg_pb_ratios
              (group_of s (rows (window now_year (add_year_column df))))))
  = Some n ->
  n <= 10.
Proof.
  set (g := group_of s (rows (window now_year (add_year_column df)))).
  unfold calculate_avg_pb_ratios. cbn [fst snd].
  destruct (col_max date (sort_values true g)) as [hi | ] eqn:Ehi; [ | discriminate].
  destruct (col_min date (sort_values true g)) as [lo | ] eqn:Elo; [ | discriminate].
  intros [= <-].
  assert (Hrow : forall d, List.In d (notna date (sort_values true g)) ->
            exists r, List.In r (rows (window now_year (add_year_column df)))
                      /\ date r = Some d).
  { intros d Hd. apply in_notna in Hd as (r & Hr & Ed). exists r.
    split; [ | exact Ed].
    apply (Permutation_in _ (sort_values_perm true g)) in Hr.
    now apply in_group_of in Hr. }
  apply col_max_spec in Ehi as [Hhi _]. apply col_min_in in Elo.
  destruct (Hrow hi Hhi) as (r1 & Hr1 & E1).
  destruct (Hrow lo Elo) as (r2 & Hr2 & E2).
  destruct (window_row_range _ _ _ Hr2) as (d2 & Y & E2' & EY & Hlow).
  pose proof (window_row_below_max _ _ _ _ _ Hr1 E1 EY).
  assert (d2 = lo) by congruence. subst d2. lia.
Qed.

Lemma available_years_at_most_ten_witness :
  snd (fst (calculate_avg_pb_ratios
              (group_of "GOOD" (rows (window 2023 (add_year_column Scenario.history))))))
  = Some 8
  /\ 8 <= 10.
Proof.
  assert (H : snd (fst (calculate_avg_pb_ratios
                (group_of "GOOD"
                   (rows (window 2023 (add_year_column Scenario.history))))))
              = Some 8) by (vm_compute; reflexivity).
  split; [exact H | ].
  exact (available_years_at_most_ten 2023 Scenario.history "GOOD" 8 H).
Defined.

(** ** [load_data] *)

Lemma inf_to_nan_finite (x : float) : is_infinite (inf_to_nan x) = false.
Proof. unfold inf_to_nan. destruct x; reflexivity. Qed.

Lemma inf_nan_to_zero_number (x : float) :
  is_infinite (inf_nan_to_zero x) = false /\ Float.is_nan (inf_nan_to_zero x) = false.
Proof. unfold inf_nan_to_zero. destruct x; split; reflexivity. Qed.

Lemma load_data_snapshot_numbers (ratio_history_df : DataFrame)
    (current_ratio_df : list Current.row) :
  Forall (fun c => is_infinite (Current.pb_ratio c) = false
                   /\ Float.is_nan (Current.pb_ratio c) = false
                   /\ is_infinite (Current.pe_ratio c) = false
                   /\ Float.is_nan (Current.pe_ratio c) = false)
         (snd (load_data ratio_history_df current_ratio_df)).
Proof.
  unfold load_data. cbn [snd].
  apply Forall_forall. intros c Hc. apply in_map_iff in Hc as (c0 & <- & _).
  cbn. repeat split; apply inf_nan_to_zero_number.
Qed.

(** After [load_data]: no numeric cell of the history is infinite (an
    infinite cell has become NaN), no ratio of the snapshot is infinite
    or NaN (such a cell has become 0), every other cell is as it was
    loaded, and the rows, their symbols and their dates are untouched.
    Cleaning cleaned frames changes nothing. *)
Theorem load_data_cleans (ratio_history_df : DataFrame)
    (current_ratio_df : list Current.row) :
  let history := fst (load_data ratio_history_df current_ratio_df) in
  let snapshot := snd (load_data ratio_history_df current_ratio_df) in
  Forall (fun r => is_infinite (stock_price r) = false
                   /\ is_infinite (book_value_per_share r) = false
                   /\ is_infinite (price_to_book_ratio r) = false
                   /\ is_infinite (ttm_net_eps r) = false
                   /\ is_infinite (pe_ratio r) = false) (rows history)
  /\ Forall (fun c => is_infinite (Current.pb_ratio c) = false
                      /\ Float.is_nan (Current.pb_ratio c) = false
                      /\ is_infinite (Current.pe_ratio c) = false
                      /\ Float.is_nan (Current.pe_ratio c) = false) snapshot
  /\ map symbol (rows history) = map symbol (rows ratio_history_df)
  /\ map date (rows history) = map date (rows ratio_history_df)
  /\ map Current.symbol snapshot = map Current.symbol current_ratio_df
  /\ Forall2 (fun r r' => is_infinite (price_to_book_ratio r) = false ->
                          price_to_book_ratio r' = price_to_book_ratio r)
             (rows ratio_history_df) (rows history)
  /\ load_data history snapshot = (history, snapshot).
Proof.
  intros history snapshot.
  pose proof (load_data_snapshot_numbers ratio_history_df current_ratio_df) as Hsnap.
  fold snapshot in Hsnap. revert Hsnap.
  unfold history, snapshot, load_data. cbn [fst snd rows]. intros Hsnap.
  split.
  { apply Forall_forall. intros r Hr. apply in_map_iff in Hr as (r0 & <- & _).
    cbn. repeat split; apply inf_to_nan_finite. }
  split; [exact Hsnap | ].
  split; [rewrite map_map; reflexivity | ].
  split; [rewrite map_map; reflexivity | ].
  split; [rewrite map_map; reflexivity | ].
  split.
  { induction (rows ratio_history_df) as [ | r l IH]; simpl; constructor; [ | exact IH].
    unfold inf_to_nan. now intros ->. }
  cbn [dates_as has_year]. f_equal.
  - f_equal. rewrite map_map. apply map_ext. intros r. cbn.
    assert (E : forall x, inf_to_nan (inf_to_nan x) = inf_to_nan x)
      by (intros x; destruct x; reflexivity).
    now rewrite !E.
  - rewrite map_map. apply map_ext. intros c. cbn.
    assert (E : forall x, inf_nan_to_zero (inf_nan_to_zero x) = inf_nan_to_zero x)
      by (intros x; destruct x; reflexivity).
    now rewrite !E.
Qed.

(** On the frames that [load_data] returns, the negated comparisons of
    the two ceiling checks are strict comparisons for a symbol of the
    snapshot: when the two ceilings are numbers, a qualifying symbol with
    a snapshot row has its current P/B strictly below
    [max_current_pb_ratio] and its current P/E strictly below
    [max_current_pe_ratio]. *)
Theorem loaded_snapshot_strictly_below_ceilings now_year ratio_history_df
    current_ratio_df criteria syms (s : string) (c : Current.row) :
  let history := fst (load_data ratio_history_df current_ratio_df) in
  let snapshot := snd (load_data ratio_history_df current_ratio_df) in
  Float.is_nan (max_current_pb_ratio criteria) = false ->
  Float.is_nan (max_current_pe_ratio criteria) = false ->
  screened_symbols now_year history snapshot criteria = Some syms ->
  List.In s syms ->
  find (fun c => String.eqb (Current.symbol c) s) snapshot = Some c ->
  Float.ltb (Current.pb_ratio c) (max_current_pb_ratio criteria) = true
  /\ Float.ltb (Current.pe_ratio c) (max_current_pe_ratio criteria) = true.
Proof.
  intros history snapshot Hpb Hpe Hsyms Hs Hc.
  apply (in_screened_symbols _ _ _ _ _ Hsyms) in Hs as [Hne Htrue].
  destruct (stock_meets_criteria_true_inv _ _ _ Htrue)
    as (pb & pe & Epb & Epe & _ & _ & H1 & _ & _ & H3).
  rewrite current_ratios_row_of_group in Epb, Epe by exact Hne.
  rewrite Hc in Epb, Epe. simpl in Epb, Epe.
  injection Epb as <-. injection Epe as <-.
  unfold above_pb_ceiling in H1. unfold above_pe_ceiling in H3.
  assert (Hin : List.In c snapshot) by (apply find_some in Hc; tauto).
  pose proof (load_data_snapshot_numbers ratio_history_df current_ratio_df) as Hsnap.
  rewrite Forall_forall in Hsnap.
  destruct (Hsnap c Hin) as (_ & N1 & _ & N2).
  rewrite (geb_ltb _ _ N1 Hpb) in H1. rewrite (geb_ltb _ _ N2 Hpe) in H3.
  apply negb_false_iff in H1, H3. auto.
Qed.

Lemma loaded_snapshot_strictly_below_ceilings_witness :
  Float.ltb (Float.of_ratio 14 10) (max_current_pb_ratio Scenario.criteria) = true
  /\ Float.ltb (Float.of_Z 12) (max_current_pe_ratio Scenario.criteria) = true.
Proof.
  apply (loaded_snapshot_strictly_below_ceilings 2023 Scenario.history
           Scenario.snapshot Scenario.criteria ["GOOD"; "HOLE"] "GOOD"
           (Current.mk "GOOD" 0 (Float.of_ratio 14 10) (Float.of_Z 12)));
    try reflexivity; try (now left); vm_compute; reflexivity.
Defined.

(** ** The two tables *)

Lemma execute_all_insert_report (data : list Row) (t t' : Db.Tables) :
  Db.execute_all Db.insert_report data t = Some t' ->
  Db.current_ratios t' = Db.current_ratios t
  /\ forall k,
       Db.macrotrends_pe_pb_hist t' !! k
       = match Db.macrotrends_pe_pb_hist t !! k with
         | Some old => Some old
         | None => find (fun r => bool_decide ((symbol r, date r) = k)) data
         end.
Proof.
  revert t. induction data as [ | x rest IH]; intros t; cbn [Db.execute_all find].
  - intros [= <-]. split; [reflexivity | ]. intros k.
    now destruct (Db.macrotrends_pe_pb_hist t !! k).
  - destruct (Db.insert_report t x) as [t1 | ] eqn:E1;
      cbn [mbind option_bind]; [ | discriminate].
    intros H. destruct (IH _ H) as [Hc Hh].
    unfold Db.insert_report in E1.
    destruct (Db.fits 10 (symbol x) && Db.fits 100 (name x)); [ | discriminate].
    destruct (Db.macrotrends_pe_pb_hist t !! (symbol x, date x)) as [old | ] eqn:Ex;
      injection E1 as <-; split; try exact Hc; intros k;
      rewrite Hh; cbn [Db.macrotrends_pe_pb_hist]; case_bool_decide as Ek.
    + subst k. now rewrite Ex.
    + reflexivity.
    + subst k. now rewrite lookup_insert_eq, Ex.
    + now rewrite lookup_insert_ne.
Qed.

Lemma find_app_last {A} (p : A -> bool) (l : list A) (x : A) :
  find p (l ++ [x])
  = match find p l with
    | Some r => Some r
    | None => if p x then Some x else None
    end.
Proof.
  induction l as [ | a l IH]; simpl; [reflexivity | ].
  now destruct (p a).
Qed.

Lemma execute_all_upsert_current_ratio (data : list Current.row) (t t' : Db.Tables) :
  Db.execute_all Db.upsert_current_ratio data t = Some t' ->
  Db.macrotrends_pe_pb_hist t' = Db.macrotrends_pe_pb_hist t
  /\ forall s,
       Db.current_ratios t' !! s
       = match find (fun r => String.eqb (Current.symbol r) s) (rev data) with
         | Some r => Some r
         | None => Db.current_ratios t !! s
         end.
Proof.
  revert t. induction data as [ | x rest IH]; intros t; cbn [Db.execute_all rev].
  - intros [= <-]. split; reflexivity.
  - destruct (Db.upsert_current_ratio t x) as [t1 | ] eqn:E1;
      cbn [mbind option_bind]; [ | discriminate].
    intros H. destruct (IH _ H) as [Hh Hc].
    unfold Db.upsert_current_ratio in E1.
    destruct (Db.fits 10 (Some (Current.symbol x))); [ | discriminate].
    injection E1 as <-. split; [exact Hh | ].
    intros s. rewrite Hc, find_app_last. cbn [Db.current_ratios].
    destruct (find _ (rev rest)); [reflexivity | ].
    destruct (String.eqb (Current.symbol x) s) eqn:E.
    + apply String.eqb_eq in E. subst s. apply lookup_insert_eq.
    + apply String.eqb_neq in E. now rewrite lookup_insert_ne.
Qed.



(** A write of snapshot frames that returns leaves, for every symbol of
    the written data, the last written row of that symbol, leaves the
    other symbols as they were, and does not touch the history table. *)
Theorem store_current_ratio_dataframes_last_row_wins
    (ratios : list (list Current.row)) (c c' : Db.Connection) u :
  Db.store_current_ratio_dataframes ratios c = (Ok u, c') ->
  Db.macrotrends_pe_pb_hist (Db.committed c')
  = Db.macrotrends_pe_pb_hist (Db.working c)
  /\ forall s,
       Db.current_ratios (Db.committed c') !! s
       = match find (fun r => String.eqb (Current.symbol r) s)
                    (rev (concat ratios)) with
         | Some r => Some r
         | None => Db.current_ratios (Db.working c) !! s
         end.
Proof.
  intros H. unfold Db.store_current_ratio_dataframes in H. cbv zeta in H.
  pose proof (transaction_executemany_spec Db.upsert_current_ratio
                (concat ratios) c) as S.
  rewrite H in S. destruct S as (t & Ht & ->). cbn [Db.committed].
  now apply execute_all_upsert_current_ratio.
Qed.

Lemma store_current_ratio_dataframes_last_row_wins_witness :
  let old := Current.mk "GOOD" 1 (Float.of_Z 1) (Float.of_Z 10) in
  let new := Current.mk "GOOD" 2 (Float.of_Z 2) (Float.of_Z 20) in
  let c := Db.connect Scenario.empty_tables in
  let c' := snd (Db.store_current_ratio_dataframes [[old; new]] c) in
  Db.store_current_ratio_dataframes [[old; new]] c = (Ok tt, c')
  /\ Db.current_ratios (Db.committed c') !! "GOOD" = Some new.
Proof.
  intros old new c c'.
  assert (H : Db.store_current_ratio_dataframes [[old; new]] c = (Ok tt, c'))
    by (vm_compute; reflexivity).
  split; [exact H | ].
  rewrite (proj2 (store_current_ratio_dataframes_last_row_wins _ _ _ _ H)).
  reflexivity.
Defined.






(** ** The polling loop, ticker by ticker *)

Section Polling.

Variable to_datetime : string -> option Z.
Variable to_float : string -> option float.
Variable web : string -> option Api.Page.
Variable now : Z.

Let poll_ticker := Poller.poll_ticker to_datetime to_float web now.
Let poll_loop := Poller.poll_loop to_datetime to_float web now.
Let pb_ok := pb_fetch_returns to_datetime to_float web.
Let pe_ok := pe_fetch_returns to_datetime to_float web.

Lemma store_history_locals st :
  Poller.locals (Poller.store_history st) = Poller.locals st.
Proof.
  unfold Poller.store_history. destruct (Poller.concat_df (Poller.locals st));
    [ | reflexivity].
  destruct (Db.store_report_dataframes _ _) as [[u | e] c]; reflexivity.
Qed.

Lemma store_current_locals rows st :
  Poller.locals (Poller.store_current rows st) = Poller.locals st.
Proof.
  unfold Poller.store_current.
  destruct (Db.store_current_ratio_dataframes _ _) as [[u | e] c]; reflexivity.
Qed.

Lemma count_sleeps_app t1 t2 :
  count_sleeps (t1 ++ t2) = (count_sleeps t1 + count_sleeps t2)%nat.
Proof. unfold count_sleeps. now rewrite filter_app, length_app. Qed.

Lemma count_requests_app t1 t2 :
  count_requests (t1 ++ t2) = (count_requests t1 + count_requests t2)%nat.
Proof. unfold count_requests. now rewrite filter_app, length_app. Qed.

Lemma store_history_counts st :
  count_sleeps (Poller.trace (Poller.store_history st)) = count_sleeps (Poller.trace st)
  /\ count_requests (Poller.trace (Poller.store_history st))
     = count_requests (Poller.trace st).
Proof.
  unfold Poller.store_history. destruct (Poller.concat_df (Poller.locals st)).
  - destruct (Db.store_report_dataframes _ _) as [[u | e] c];
      cbn [Poller.trace Poller.emit Poller.with_database];
      rewrite ?count_sleeps_app, ?count_requests_app; cbn; lia.
  - cbn [Poller.trace Poller.emit].
    rewrite count_sleeps_app, count_requests_app. cbn. lia.
Qed.

Lemma store_current_counts rows st :
  count_sleeps (Poller.trace (Poller.store_current rows st))
  = count_sleeps (Poller.trace st)
  /\ count_requests (Poller.trace (Poller.store_current rows st))
     = count_requests (Poller.trace st).
Proof.
  unfold Poller.store_current.
  destruct (Db.store_current_ratio_dataframes _ _) as [[u | e] c];
    cbn [Poller.trace Poller.emit Poller.with_database];
    rewrite ?count_sleeps_app, ?count_requests_app; cbn; lia.
Qed.

(** One iteration, case by case: what it returns, which of the two
    current values are bound afterwards, and how many calls of
    [do_sleep] and requests it adds. *)
Lemma poll_ticker_cases (r : Ticker.row) (st : Poller.State) :
  let res := fst (poll_ticker r st) in
  let st' := snd (poll_ticker r st) in
  if pb_ok r then
    count_sleeps (Poller.trace st') = (count_sleeps (Poller.trace st) + 2)%nat
    /\ count_requests (Poller.trace st') = (count_requests (Poller.trace st) + 2)%nat
    /\ (if pe_ok r
        then res = Ok tt /\ Poller.current_pe (Poller.locals st') <> None
        else Poller.current_pe (Poller.locals st')
             = Poller.current_pe (Poller.locals st)
             /\ (Poller.current_pe (Poller.locals st) = None ->
                 exists e, res = Raise e)
             /\ (Poller.current_pe (Poller.locals st) <> None -> res = Ok tt))
  else
    res = Ok tt
    /\ Poller.locals st' = Poller.locals st
    /\ Poller.database st' = Poller.database st
    /\ count_sleeps (Poller.trace st') = count_sleeps (Poller.trace st)
    /\ count_requests (Poller.trace st') = (count_requests (Poller.trace st) + 1)%nat.
Proof.
  unfold poll_ticker, pb_ok, pe_ok, pb_fetch_returns, pe_fetch_returns.
  unfold Poller.poll_ticker. cbv zeta.
  destruct (Api.get_pb_ratio_history _ _ _ _ _) as [[pb cpb] | e].
  2:{ cbn -[count_sleeps count_requests].
      rewrite !count_sleeps_app, !count_requests_app. cbn. repeat split; lia. }
  destruct (Api.get_pe_ratio_history _ _ _ _ _) as [[pe cpe] | e].
  - cbn [Poller.locals Poller.with_locals Poller.emit Poller.pb_history_df
         Poller.pe_history_df Poller.current_pb Poller.current_pe
         Poller.concat_df Poller.database Poller.trace].
    destruct (Poller.concat_on_date pb pe) as [df | e];
      cbn [fst snd Poller.locals Poller.with_locals Poller.emit Poller.current_pb
           Poller.current_pe Poller.trace];
      rewrite store_current_locals, store_history_locals;
      rewrite (proj1 (store_current_counts _ _)), (proj2 (store_current_counts _ _));
      rewrite (proj1 (store_history_counts _)), (proj2 (store_history_counts _));
      cbn [Poller.locals Poller.with_locals Poller.emit Poller.current_pe Poller.trace];
      rewrite !count_sleeps_app, !count_requests_app; cbn;
      repeat split; try lia; discriminate.
  - cbn [Poller.locals Poller.with_locals Poller.emit Poller.pb_history_df
         Poller.pe_history_df Poller.current_pb Poller.current_pe
         Poller.concat_df Poller.database Poller.trace].
    destruct (Poller.pe_history_df (Poller.locals st)) as [pe | ];
      [destruct (Poller.concat_on_date pb pe) as [df | e'] | ];
      cbn [Poller.locals Poller.with_locals Poller.emit Poller.current_pb
           Poller.current_pe Poller.trace];
      (destruct (Poller.current_pe (Poller.locals st)) as [cpe | ];
       cbn [fst snd];
       [ rewrite store_current_locals, store_history_locals;
         rewrite (proj1 (store_current_counts _ _)), (proj2 (store_current_counts _ _));
         rewrite (proj1 (store_history_counts _)), (proj2 (store_history_counts _))
       | ];
       cbn [Poller.locals Poller.with_locals Poller.emit Poller.current_pe Poller.trace];
       rewrite !count_sleeps_app, !count_requests_app; cbn;
       repeat split; try lia; try congruence; eauto).
Qed.

End Polling.

Section Batches.

Variable to_datetime : string -> option Z.
Variable to_float : string -> option float.
Variable web : string -> option Api.Page.
Variable now : Z.

Let poll_ticker := Poller.poll_ticker to_datetime to_float web now.
Let poll_loop := Poller.poll_loop to_datetime to_float web now.
Let poll_tickers := Poller.poll_tickers to_datetime to_float web now.
Let pb_ok := pb_fetch_returns to_datetime to_float web.
Let pe_ok := pe_fetch_returns to_datetime to_float web.

Lemma poll_loop_step (r : Ticker.row) (rest : list Ticker.row) (st : Poller.State) :
  poll_loop (r :: rest) st
  = match fst (poll_ticker r st) with
    | Ok _ => poll_loop rest (snd (poll_ticker r st))
    | Raise e => (Raise e, snd (poll_ticker r st))
    end.
Proof.
  unfold poll_loop, poll_ticker. cbn [Poller.poll_loop].
  destruct (Poller.poll_ticker _ _ _ _ r st) as [[u | e] st']; reflexivity.
Qed.




Lemma poll_loop_counts (tickers : list Ticker.row) (st : Poller.State) :
  let st' := snd (poll_loop tickers st) in
  (count_sleeps (Poller.trace st')
   <= count_sleeps (Poller.trace st) + 2 * length (List.filter pb_ok tickers))%nat
  /\ (count_requests (Poller.trace st')
      <= count_requests (Poller.trace st) + length tickers
         + length (List.filter pb_ok tickers))%nat
  /\ (fst (poll_loop tickers st) = Ok tt ->
      count_sleeps (Poller.trace st')
      = (count_sleeps (Poller.trace st) + 2 * length (List.filter pb_ok tickers))%nat
      /\ count_requests (Poller.trace st')
         = (count_requests (Poller.trace st) + length tickers
            + length (List.filter pb_ok tickers))%nat).
Proof.
  revert st. induction tickers as [ | r rest IH]; intros st; cbv zeta.
  - simpl. repeat split; lia.
  - rewrite poll_loop_step. cbn [List.filter length].
    pose proof (poll_ticker_cases to_datetime to_float web now r st) as H.
    cbv zeta in H. fold poll_ticker pb_ok pe_ok in H.
    specialize (IH (snd (poll_ticker r st))). cbv zeta in IH.
    destruct IH as (I1 & I2 & I3).
    destruct (pb_ok r).
    + destruct H as (S1 & S2 & _). cbn [length].
      destruct (fst (poll_ticker r st)) as [u | e]; cbn [fst snd].
      * split; [lia | ]. split; [lia | ]. intros Hok.
        destruct (I3 Hok). lia.
      * split; [lia | ]. split; [lia | ]. discriminate.
    + destruct H as (-> & _ & _ & S1 & S2).
      split; [lia | ]. split; [lia | ]. intros Hok. destruct (I3 Hok). lia.
Qed.

(** In one batch [do_sleep] is called at most twice per ticker, and
    exactly twice for each ticker whose P/B fetch returns when the batch
    returns; a ticker whose P/B fetch raises costs one request and no
    sleep. *)
Theorem poll_tickers_sleeps_twice_per_fetched_ticker (tickers : list Ticker.row)
    (tables : Db.Tables) :
  let trace := snd (poll_tickers (Some tickers) tables) in
  (count_sleeps trace <= 2 * length (List.filter pb_ok tickers))%nat
  /\ (count_sleeps trace <= 2 * length tickers)%nat
  /\ (count_requests trace <= 2 * length tickers)%nat
  /\ (fst (fst (poll_tickers (Some tickers) tables)) = Ok tt ->
      count_sleeps trace = (2 * length (List.filter pb_ok tickers))%nat
      /\ count_requests trace
         = (length tickers + length (List.filter pb_ok tickers))%nat).
Proof.
  pose proof (poll_loop_counts tickers
                (Poller.mkState Poller.unbound (Db.connect tables) [])) as H.
  cbv zeta in *. unfold poll_tickers, Poller.poll_tickers. fold poll_loop.
  destruct (poll_loop tickers _) as [res st]. cbn [fst snd Poller.trace] in *.
  change (count_sleeps []) with 0%nat in H.
  change (count_requests []) with 0%nat in H.
  destruct H as (H1 & H2 & H3).
  pose proof (filter_length_le pb_ok tickers).
  split; [lia | ]. split; [lia | ]. split; [lia | ].
  intros Hok. destruct (H3 Hok). lia.
Qed.

End Batches.

Lemma poll_tickers_sleeps_twice_per_fetched_ticker_witness :
  fst (fst (Scenario.poll [Scenario.gamma; Scenario.alpha])) = Ok tt
  /\ count_sleeps (snd (Scenario.poll [Scenario.gamma; Scenario.alpha])) = 2%nat
  /\ count_requests (snd (Scenario.poll [Scenario.gamma; Scenario.alpha])) = 3%nat.
Proof.
  assert (H : fst (fst (Scenario.poll [Scenario.gamma; Scenario.alpha])) = Ok tt)
    by (vm_compute; reflexivity).
  split; [exact H | ].
  destruct (poll_tickers_sleeps_twice_per_fetched_ticker
              Text.iso_date Text.decimal Scenario.web 0
              [Scenario.gamma; Scenario.alpha] Scenario.empty_tables)
    as (_ & _ & _ & Hexact).
  destruct (Hexact H) as [H1 H2]. split.
  - etransitivity; [exact H1 | vm_compute; reflexivity].
  - etransitivity; [exact H2 | vm_compute; reflexivity].
Defined.

(** ** What a batch leaves in the tables *)

Lemma store_report_dataframes_keeps m reports c :
  keeps_history m c ->
  keeps_history m (snd (Db.store_report_dataframes reports c)).
Proof.
  intros Hk. unfold Db.store_report_dataframes. cbv zeta.
  pose proof (transaction_executemany_spec Db.insert_report (concat reports) c) as S.
  destruct (Db.transaction _ c) as [[u | e] c']; cbn [snd].
  - destruct S as (t & Ht & ->).
    destruct (execute_all_insert_report _ _ _ Ht) as [_ Hh].
    intros k v Hm. destruct (Hk k v Hm) as [_ Hw]. cbn. rewrite Hh, Hw. auto.
  - destruct S as (_ & _ & ->). intros k v Hm. destruct (Hk k v Hm) as [Hc _].
    cbn. auto.
Qed.

Lemma store_current_ratio_dataframes_keeps m ratios c :
  keeps_history m c ->
  keeps_history m (snd (Db.store_current_ratio_dataframes ratios c)).
Proof.
  intros Hk. unfold Db.store_current_ratio_dataframes. cbv zeta.
  pose proof (transaction_executemany_spec Db.upsert_current_ratio
                (concat ratios) c) as S.
  destruct (Db.transaction _ c) as [[u | e] c']; cbn [snd].
  - destruct S as (t & Ht & ->).
    destruct (execute_all_upsert_current_ratio _ _ _ Ht) as [Hh _].
    intros k v Hm. destruct (Hk k v Hm) as [_ Hw]. cbn. rewrite Hh. auto.
  - destruct S as (_ & _ & ->). intros k v Hm. destruct (Hk k v Hm) as [Hc _].
    cbn. auto.
Qed.

Section Persistence.

Variable to_datetime : string -> option Z.
Variable to_float : string -> option float.
Variable web : string -> option Api.Page.
Variable now : Z.

Lemma store_history_keeps m st :
  keeps_history m (Poller.database st) ->
  keeps_history m (Poller.database (Poller.store_history st)).
Proof.
  intros Hk. unfold Poller.store_history.
  destruct (Poller.concat_df (Poller.locals st)) as [df | ]; [ | exact Hk].
  pose proof (store_report_dataframes_keeps m [df] _ Hk) as H.
  destruct (Db.store_report_dataframes [df] (Poller.database st)) as [[u | e] c];
    exact H.
Qed.

Lemma store_current_keeps m rows st :
  keeps_history m (Poller.database st) ->
  keeps_history m (Poller.database (Poller.store_current rows st)).
Proof.
  intros Hk. unfold Poller.store_current.
  pose proof (store_current_ratio_dataframes_keeps m [rows] _ Hk) as H.
  destruct (Db.store_current_ratio_dataframes [rows] (Poller.database st))
    as [[u | e] c]; exact H.
Qed.

Lemma poll_ticker_keeps m (r : Ticker.row) (st : Poller.State) :
  keeps_history m (Poller.database st) ->
  keeps_history m
    (Poller.database (snd (Poller.poll_ticker to_datetime to_float web now r st))).
Proof.
  intros Hk. unfold Poller.poll_ticker. cbv zeta.
  destruct (Api.get_pb_ratio_history _ _ _ _ _) as [[pb cpb] | e]; [ | exact Hk].
  match goal with
  | |- context [match Poller.current_pb (Poller.locals ?s) with _ => _ end] =>
      assert (Hs : keeps_history m (Poller.database s));
      [ | destruct (Poller.current_pb (Poller.locals s));
          [destruct (Poller.current_pe (Poller.locals s)) | ];
          cbn [snd]; try exact Hs;
          apply store_current_keeps, store_history_keeps; exact Hs ]
  end.
  destruct (Api.get_pe_ratio_history _ _ _ _ _) as [[pe cpe] | e];
    cbn [Poller.locals Poller.with_locals Poller.emit Poller.pb_history_df
         Poller.pe_history_df];
    repeat match goal with
           | |- context [match ?x with _ => _ end] => destruct x
           end; exact Hk.
Qed.

Lemma poll_loop_keeps m (tickers : list Ticker.row) (st : Poller.State) :
  keeps_history m (Poller.database st) ->
  keeps_history m
    (Poller.database (snd (Poller.poll_loop to_datetime to_float web now tickers st))).
Proof.
  revert st. induction tickers as [ | r rest IH]; intros st Hk; [exact Hk | ].
  cbn [Poller.poll_loop].
  pose proof (poll_ticker_keeps m r st Hk) as H.
  destruct (Poller.poll_ticker _ _ _ _ r st) as [[u | e] st']; cbn [snd] in *.
  - now apply IH.
  - exact H.
Qed.

(** A batch never changes and never removes a row of the history table:
    whatever the tickers, the pages and the way the batch ends, every
    row held before the batch is held, unchanged, after it. *)
Theorem poll_tickers_keeps_history (exchange_tickers : option (list Ticker.row))
    (tables : Db.Tables) k v :
  Db.macrotrends_pe_pb_hist tables !! k = Some v ->
  Db.macrotrends_pe_pb_hist
    (snd (fst (Poller.poll_tickers to_datetime to_float web now
                 exchange_tickers tables))) !! k = Some v.
Proof.
  intros Hm. unfold Poller.poll_tickers.
  destruct exchange_tickers as [tickers | ]; [ | exact Hm].
  pose proof (poll_loop_keeps (Db.macrotrends_pe_pb_hist tables) tickers
                (Poller.mkState Poller.unbound (Db.connect tables) [])) as H.
  destruct (Poller.poll_loop _ _ _ _ tickers _) as [res st]. cbn [fst snd] in *.
  apply H; [ | exact Hm]. intros k' v' Hk'. cbn. auto.
Qed.

End Persistence.

Lemma poll_tickers_keeps_history_witness :
  let tables := snd (fst (Scenario.poll [Scenario.alpha])) in
  let day := Some (Calendar.days_from_civil 2022 12 31) in
  let stored := mkRow (Some "A") (Some "Alpha") day (Float.of_Z 10) (Float.of_Z 5)
                      (Float.of_Z 2) (Float.of_Z 1) (Float.of_Z 10) None in
  Db.macrotrends_pe_pb_hist tables !! (Some "A", day) = Some stored
  /\ Db.macrotrends_pe_pb_hist
       (snd (fst (Poller.poll_tickers Text.iso_date Text.decimal Scenario.web 1
                    (Some [Scenario.beta; Scenario.alpha]) tables)))
     !! (Some "A", day) = Some stored.
Proof.
  intros tables day stored.
  assert (H : Db.macrotrends_pe_pb_hist tables !! (Some "A", day) = Some stored)
    by (vm_compute; reflexivity).
  split; [exact H | ].
  now apply poll_tickers_keeps_history.
Defined.

Lemma store_current_stores (row : Current.row) (st : Poller.State) :
  (String.length (Current.symbol row) <= 10)%nat ->
  Db.current_ratios (Db.committed (Poller.database (Poller.store_current [row] st)))
  !! Current.symbol row = Some row.
Proof.
  intros Hfit. unfold Poller.store_current, Db.store_current_ratio_dataframes.
  cbv zeta. cbn [concat app Db.executemany Db.transaction].
  unfold Db.upsert_current_ratio, Db.fits.
  apply Nat.leb_le in Hfit. rewrite Hfit. cbn.
  apply lookup_insert_eq.
Qed.

(** The snapshot of a ticker is stored whether or not its history could
    be stored: when both fetches of a ticker return and its symbol has
    at most 10 characters, the iteration returns and the snapshot table
    holds, for that symbol, the two current values just fetched, even
    when the two frames could not be merged or the history write was
    rejected. *)
Theorem snapshot_is_stored_whatever_the_history to_datetime to_float web now
    (r : Ticker.row) (st : Poller.State) pb cpb pe cpe :
  Api.get_pb_ratio_history to_datetime to_float
    (Ticker.symbol r) (Ticker.full_name r) (web (Poller.pb_url r)) = Ok (pb, cpb) ->
  Api.get_pe_ratio_history to_datetime to_float
    (Ticker.symbol r) (Ticker.full_name r) (web (Poller.pe_url r)) = Ok (pe, cpe) ->
  (String.length (Ticker.symbol r) <= 10)%nat ->
  fst (Poller.poll_ticker to_datetime to_float web now r st) = Ok tt
  /\ Db.current_ratios
       (Db.committed
          (Poller.database (snd (Poller.poll_ticker to_datetime to_float web now r st))))
     !! Ticker.symbol r
     = Some (Current.mk (Ticker.symbol r) now cpb cpe).
Proof.
  intros Hpb Hpe Hfit. unfold Poller.poll_ticker. cbv zeta. rewrite Hpb, Hpe.
  cbn [Poller.locals Poller.with_locals Poller.emit Poller.pb_history_df
       Poller.pe_history_df Poller.current_pb Poller.current_pe].
  destruct (Poller.concat_on_date pb pe) as [df | e];
    cbn [Poller.locals Poller.with_locals Poller.emit Poller.current_pb
         Poller.current_pe fst snd];
    (split; [reflexivity | ]);
    apply (store_current_stores (Current.mk (Ticker.symbol r) now cpb cpe));
    exact Hfit.
Qed.

Lemma snapshot_is_stored_whatever_the_history_witness :
  let long_name := Ticker.mk "A"
    "A company whose registered name is much longer than the one hundred characters that the Name column of the table admits"
    "A/alpha" in
  let st := Poller.mkState Poller.unbound (Db.connect Scenario.empty_tables) [] in
  let st' := snd (Poller.poll_ticker Text.iso_date Text.decimal Scenario.web 0
                    long_name st) in
  Db.macrotrends_pe_pb_hist (Db.committed (Poller.database st')) = ∅
  /\ Db.current_ratios (Db.committed (Poller.database st')) !! "A"
     = Some (Current.mk "A" 0 (Float.of_ratio 3 2) (Float.of_Z 12)).
Proof.
  intros long_name st st'. split; [vm_compute; reflexivity | ].
  refine (proj2 (snapshot_is_stored_whatever_the_history Text.iso_date Text.decimal
                   Scenario.web 0 long_name st _ _ _ _ _ _ _)).
  - vm_compute. reflexivity.
  - vm_compute. reflexivity.
  - simpl. lia.
Defined.

(** ** The merge of the two histories *)




(** ** What the two fetchers return *)

Section Fetchers.

Variable to_datetime : string -> option Z.
Variable to_float : string -> option float.

Lemma result_mapM_forall2 {A B} (f : A -> result B) (l : list A) (k : list B) :
  result_mapM f l = Ok k -> Forall2 (fun x y => f x = Ok y) l k.
Proof.
  revert k. induction l as [ | a l IH]; simpl; intros k.
  - intros [= <-]. constructor.
  - destruct (f a) as [y | e] eqn:Ea; simpl; [ | discriminate].
    destruct (result_mapM f l) as [ys | e]; simpl; [ | discriminate].
    intros [= <-]. constructor; auto.
Qed.

Lemma pb_frame_labels symbol company_name (l : list Api.TableRow) out :
  Api.pb_frame to_datetime to_float symbol company_name l = Ok out ->
  Forall (fun r => Api.pb_symbol r = symbol /\ Api.pb_name r = company_name) out.
Proof.
  unfold Api.pb_frame. intros H. apply result_mapM_forall2 in H.
  induction H as [ | [d r] y l' k Hy _ IH]; constructor; [ | exact IH].
  destruct (Api.money to_float (Api.stock_price_cell r)); simpl in Hy; [ | discriminate].
  destruct (Api.money to_float (Api.per_share_cell r)); simpl in Hy; [ | discriminate].
  injection Hy as <-. split; reflexivity.
Qed.

(** When [get_pb_ratio_history] returns: the page was received, the text
    under the selector is a numeral and the current value is its
    conversion, the page holds a table, every returned row bears the
    symbol and the name given, and the dates returned are the dates of
    the table that parse, in the order of the table (the other rows are
    left out). *)
Theorem get_pb_ratio_history_returns symbol company_name response df current :
  Api.get_pb_ratio_history to_datetime to_float symbol company_name response
  = Ok (df, current) ->
  exists page text table,
    response = Some page
    /\ Api.strong_text page = Some text /\ to_float text = Some current
    /\ Api.table page = Some table
    /\ map Api.pb_date df
       = notna (fun r => Api.to_datetime_coerce to_datetime (Api.date_cell r)) table
    /\ (length df <= length table)%nat
    /\ Forall (fun r => Api.pb_symbol r = symbol /\ Api.pb_name r = company_name) df.
Proof.
  unfold Api.get_pb_ratio_history. destruct response as [page | ]; [ | discriminate].
  unfold Api.current_value, Api.read_html.
  destruct (Api.strong_text page) as [text | ] eqn:Etext; [ | discriminate].
  destruct (to_float text) as [x | ] eqn:Ex; [ | discriminate].
  destruct (Api.table page) as [table | ] eqn:Etable; [ | discriminate].
  cbn [mbind result_bind].
  destruct (Api.pb_frame to_datetime to_float symbol company_name table)
    as [out | e] eqn:Ef; [ | discriminate].
  cbn [mbind result_bind]. intros [= <- <-].
  exists page, text, table. repeat split; try assumption; try reflexivity.
  - now apply pb_frame_dates in Ef.
  - apply pb_frame_dates in Ef. apply (f_equal (@length _)) in Ef.
    rewrite length_map in Ef. rewrite Ef.
    clear. induction table as [ | r l IH]; simpl; [lia | ].
    destruct (Api.to_datetime_coerce to_datetime (Api.date_cell r)); simpl; lia.
  - now apply pb_frame_labels in Ef.
Qed.

Lemma pe_frame_rows (l : list Api.TableRow) out :
  Api.pe_frame to_datetime to_float l = Ok out ->
  Forall2 (fun r o =>
             Api.to_datetime_raise to_datetime (Api.date_cell r) = Ok (Api.pe_date o)
             /\ Api.money to_float (Api.per_share_cell r) = Ok (Api.pe_ttm_net_eps o)
             /\ Api.pe_pe_ratio o = Api.ratio_cell r) l out.
Proof.
  unfold Api.pe_frame.
  destruct (result_mapM _ l) as [dated | e] eqn:Ed; [ | discriminate].
  cbn [mbind result_bind]. intros H.
  apply result_mapM_forall2 in Ed, H.
  revert out H. induction Ed as [ | r [d r'] l dated Hr _ IH]; intros out H.
  - inversion H. constructor.
  - inversion H as [ | ? o ? out' Ho Hrest]; subst. constructor; [ | now apply IH].
    destruct (Api.to_datetime_raise to_datetime (Api.date_cell r)) as [d0 | e]
      eqn:Ed0; simpl in Hr; [ | discriminate].
    injection Hr as <- <-.
    destruct (Api.money to_float (Api.per_share_cell r)) as [eps | e] eqn:Em;
      simpl in Ho; [ | discriminate].
    injection Ho as <-. repeat split; assumption.
Qed.

(** When [get_pe_ratio_history] returns: the current value is the
    conversion of the text under the selector, and the returned frame
    has one row for every row of the table, in the same order; no row
    is left out, a blank date is kept as NaT, every other date has
    parsed, and the ratio is the cell of the table. *)
Theorem get_pe_ratio_history_returns symbol company_name response df current :
  Api.get_pe_ratio_history to_datetime to_float symbol company_name response
  = Ok (df, current) ->
  exists page text table,
    response = Some page
    /\ Api.strong_text page = Some text /\ to_float text = Some current
    /\ Api.table page = Some table
    /\ length df = length table
    /\ map Api.pe_date df
       = map (fun r => Api.to_datetime_coerce to_datetime (Api.date_cell r)) table
    /\ map Api.pe_pe_ratio df = map Api.ratio_cell table
    /\ Forall (fun r => forall s, Api.date_cell r = Some s -> to_datetime s <> None)
              table.
Proof.
  unfold Api.get_pe_ratio_history. destruct response as [page | ]; [ | discriminate].
  unfold Api.current_value, Api.read_html.
  destruct (Api.strong_text page) as [text | ] eqn:Etext; [ | discriminate].
  destruct (to_float text) as [x | ] eqn:Ex; [ | discriminate].
  destruct (Api.table page) as [table | ] eqn:Etable; [ | discriminate].
  cbn [mbind result_bind].
  destruct (Api.pe_frame to_datetime to_float table) as [out | e] eqn:Ef;
    [ | discriminate].
  cbn [mbind result_bind]. intros [= <- <-].
  exists page, text, table. apply pe_frame_rows in Ef.
  split; [reflexivity | ]. split; [assumption | ]. split; [assumption | ].
  split; [assumption | ]. clear Etable.
  induction Ef as [ | r o l k (Hd & _ & Hr) _ IH]; simpl.
  - repeat split; constructor.
  - destruct IH as (I1 & I2 & I3 & I4).
    assert (Hdate : Api.pe_date o
                    = Api.to_datetime_coerce to_datetime (Api.date_cell r)
                    /\ forall s, Api.date_cell r = Some s -> to_datetime s <> None).
    { unfold Api.to_datetime_raise, Api.to_datetime_coerce in *.
      destruct (Api.date_cell r) as [s | ].
      - destruct (to_datetime s) as [d | ] eqn:Ed; [ | discriminate].
        injection Hd as <-. split; [reflexivity | ].
        intros s' [= <-]. congruence.
      - injection Hd as <-. split; [reflexivity | ]. intros s' H. discriminate. }
    destruct Hdate as [Hd1 Hd2].
    split; [now rewrite I1 | ].
    split; [now rewrite Hd1, I2 | ].
    split; [now rewrite Hr, I3 | ].
    constructor; assumption.
Qed.

End Fetchers.

Lemma get_pb_ratio_history_returns_witness :
  exists df,
    Api.get_pb_ratio_history Text.iso_date Text.decimal "A" "Alpha"
      (Some Scenario.dirty) = Ok (df, Float.of_ratio 3 2)
    /\ (length df <= 3)%nat
    /\ Forall (fun r => Api.pb_symbol r = "A" /\ Api.pb_name r = "Alpha") df.
Proof.
  eexists. split; [vm_compute; reflexivity | ].
  match goal with
  | |- (length ?df <= _)%nat /\ _ =>
      destruct (get_pb_ratio_history_returns Text.iso_date Text.decimal
                  "A" "Alpha" (Some Scenario.dirty) df (Float.of_ratio 3 2))
        as (page & text & table & _ & _ & _ & _ & _ & _ & Hl)
  end.
  - vm_compute. reflexivity.
  - split; [simpl; lia | exact Hl].
Defined.

Lemma get_pe_ratio_history_returns_witness :
  exists df,
    Api.get_pe_ratio_history Text.iso_date Text.decimal "A" "Alpha"
      (Some Scenario.alpha_pe) = Ok (df, Float.of_Z 12)
    /\ length df = 1%nat.
Proof.
  eexists. split; [vm_compute; reflexivity | ].
  match goal with
  | |- length ?df = _ =>
      destruct (get_pe_ratio_history_returns Text.iso_date Text.decimal
                  "A" "Alpha" (Some Scenario.alpha_pe) df (Float.of_Z 12))
        as (page & text & table & Hp & _ & _ & Ht & Hl & _)
  end.
  - vm_compute. reflexivity.
  - rewrite Hl. injection Hp as <-. vm_compute in Ht. injection Ht as <-. reflexivity.
Defined.

(** ** Ticker discovery *)

Section Discovery.

Variable tickers_nasdaq : result (list string).
Variable nyse_symbols : result (list string).
Variable all_macrotrends_tickers : result (list Directory.row).
Variable sample : list Directory.row -> list Directory.row.
Hypothesis sample_permutes : forall l, Permutation (sample l) l.

Let gather := Directory.gather tickers_nasdaq nyse_symbols.
Let get_exchange_tickers :=
  Directory.get_exchange_tickers tickers_nasdaq nyse_symbols
    all_macrotrends_tickers sample.

(** The symbols that an exchange name brings. *)
Let listed (exchange : string) (s : string) : Prop :=
  (Directory.lower exchange = "nasdaq"
   /\ exists l, tickers_nasdaq = Ok l /\ List.In s l)
  \/ (Directory.lower exchange = "nyse"
      /\ exists l, nyse_symbols = Ok l /\ List.In s l).

Lemma gather_spec (exchanges : list string) (acc tickers : gset string) :
  gather exchanges acc = Ok tickers ->
  (forall e, List.In e exchanges ->
             Directory.lower e = "nasdaq" \/ Directory.lower e = "nyse")
  /\ forall s, s ∈ tickers <->
               s ∈ acc \/ exists e, List.In e exchanges /\ listed e s.
Proof.
  unfold gather. revert acc.
  induction exchanges as [ | e rest IH]; intros acc; cbn [Directory.gather].
  - intros [= <-]. split; [intros e [] | ].
    intros s. split; [auto | intros [H | (e & [] & _)]; exact H].
  - destruct (String.eqb (Directory.lower e) "nasdaq") eqn:E1.
    + apply String.eqb_eq in E1.
      destruct tickers_nasdaq as [l | msg] eqn:El; cbn [mbind result_bind];
        [ | discriminate].
      intros H. destruct (IH _ H) as [Hsup Hmem]. split.
      * intros e' [<- | He']; auto.
      * intros s. rewrite Hmem, elem_of_union, elem_of_list_to_set, list_elem_of_In.
        split.
        -- intros [[Hs | Hs] | (e' & He' & Hl)];
             [auto | | right; exists e'; split; [now right | assumption]].
           right. exists e. split; [now left | ]. left. split; [exact E1 | ].
           exists l. split; [first [exact El | reflexivity] | assumption].
        -- intros [Hs | (e' & [<- | He'] & Hl)]; [auto | | right; eauto].
           destruct Hl as [(_ & l' & El' & Hs) | (E2 & _)].
           ++ assert (l' = l) by congruence. subst l'. auto.
           ++ rewrite E1 in E2. discriminate.
    + destruct (String.eqb (Directory.lower e) "nyse") eqn:E2; [ | discriminate].
      apply String.eqb_eq in E2. apply String.eqb_neq in E1.
      destruct nyse_symbols as [l | msg] eqn:El; cbn [mbind result_bind];
        [ | discriminate].
      intros H. destruct (IH _ H) as [Hsup Hmem]. split.
      * intros e' [<- | He']; auto.
      * intros s. rewrite Hmem, elem_of_union, elem_of_list_to_set, list_elem_of_In.
        split.
        -- intros [[Hs | Hs] | (e' & He' & Hl)];
             [auto | | right; exists e'; split; [now right | assumption]].
           right. exists e. split; [now left | ]. right. split; [exact E2 | ].
           exists l. split; [first [exact El | reflexivity] | assumption].
        -- intros [Hs | (e' & [<- | He'] & Hl)]; [auto | | right; eauto].
           destruct Hl as [(E3 & _) | (_ & l' & El' & Hs)].
           ++ contradiction.
           ++ assert (l' = l) by congruence. subst l'. auto.
Qed.

(** When [get_exchange_tickers] returns: every exchange name is "nasdaq"
    or "nyse" up to the case of its letters; the returned rows are the
    rows of the provider's directory whose symbol is listed on one of
    the exchanges asked for and is not excluded as a warrant, right or
    preferred share (more than 4 characters and a last character among
    W, R, P, Q); they come in the order of the directory unless
    [randomized] is set, in which case they come in the drawn order. *)
Theorem get_exchange_tickers_returns (exchanges : list string) (randomized : bool)
    (out : list Directory.row) :
  get_exchange_tickers exchanges randomized = Ok out ->
  exists df,
    all_macrotrends_tickers = Ok df
    /\ (forall e, List.In e exchanges ->
                  Directory.lower e = "nasdaq" \/ Directory.lower e = "nyse")
    /\ (forall r, List.In r out <->
                  List.In r df
                  /\ Directory.is_valid (Directory.symbol r) = true
                  /\ exists e, List.In e exchanges /\ listed e (Directory.symbol r))
    /\ (exists kept, Permutation out kept
                     /\ (randomized = false -> out = kept)
                     /\ exists keep, kept = List.filter keep df).
Proof.
  unfold get_exchange_tickers, Directory.get_exchange_tickers.
  destruct (Directory.gather tickers_nasdaq nyse_symbols exchanges ∅)
    as [tickers | msg] eqn:Eg; cbn [mbind result_bind]; [ | discriminate].
  destruct all_macrotrends_tickers as [df | msg]; cbn [mbind result_bind];
    [ | discriminate].
  intros [= <-]. exists df. split; [reflexivity | ].
  destruct (gather_spec _ _ _ Eg) as [Hsup Hmem]. split; [exact Hsup | ].
  set (keep := fun r : Directory.row =>
                 bool_decide (Directory.symbol r ∈
                   base.filter (fun symbol => Directory.is_valid symbol = true) tickers)).
  assert (Hkeep : forall r, List.In r (List.filter keep df) <->
            List.In r df /\ Directory.is_valid (Directory.symbol r) = true
            /\ exists e, List.In e exchanges /\ listed e (Directory.symbol r)).
  { intros r. rewrite filter_In. unfold keep.
    rewrite bool_decide_eq_true, elem_of_filter, Hmem.
    split.
    - intros (H1 & H2 & [H3 | H3]); [ | auto]. now apply not_elem_of_empty in H3.
    - intros (H1 & H2 & H3). auto. }
  split.
  - intros r. rewrite <- Hkeep. destruct randomized; [ | reflexivity].
    split; apply Permutation_in;
      [apply sample_permutes | apply Permutation_sym, sample_permutes].
  - exists (List.filter keep df). split; [ | split; [ | eauto]].
    + destruct randomized; [apply sample_permutes | reflexivity].
    + now intros ->.
Qed.

(** One unsupported exchange name makes the whole call fail, whatever
    the other names and whatever the exchanges return. *)
Theorem get_exchange_tickers_unsupported (exchanges : list string)
    (randomized : bool) (e : string) :
  List.In e exchanges ->
  Directory.lower e <> "nasdaq" -> Directory.lower e <> "nyse" ->
  exists msg, get_exchange_tickers exchanges randomized = Raise msg.
Proof.
  intros He H1 H2.
  unfold get_exchange_tickers, Directory.get_exchange_tickers.
  destruct (Directory.gather tickers_nasdaq nyse_symbols exchanges ∅)
    as [tickers | msg] eqn:Eg; cbn [mbind result_bind].
  - destruct (gather_spec _ _ _ Eg) as [Hsup _].
    destruct (Hsup e He); contradiction.
  - eauto.
Qed.

(** The exchanges are gathered in a set: naming an exchange twice, or
    naming the exchanges in another order or in another case, gives the
    same rows. *)
Theorem get_exchange_tickers_set_of_exchanges (l1 l2 : list string)
    (randomized : bool) (out1 out2 : list Directory.row) :
  (forall name, List.In name (map Directory.lower l1)
                <-> List.In name (map Directory.lower l2)) ->
  get_exchange_tickers l1 randomized = Ok out1 ->
  get_exchange_tickers l2 randomized = Ok out2 ->
  out1 = out2.
Proof.
  intros Hsame. unfold get_exchange_tickers, Directory.get_exchange_tickers.
  destruct (Directory.gather tickers_nasdaq nyse_symbols l1 ∅)
    as [t1 | msg] eqn:E1; cbn [mbind result_bind]; [ | discriminate].
  destruct (Directory.gather tickers_nasdaq nyse_symbols l2 ∅)
    as [t2 | msg] eqn:E2; cbn [mbind result_bind]; [ | discriminate].
  destruct all_macrotrends_tickers as [df | msg]; cbn [mbind result_bind];
    [ | discriminate].
  intros [= <-] [= <-].
  assert (E : t1 = t2).
  { destruct (gather_spec _ _ _ E1) as [_ H1].
    destruct (gather_spec _ _ _ E2) as [_ H2].
    apply set_eq. intros s. rewrite H1, H2.
    assert (X : forall la lb,
              (forall name, List.In name (map Directory.lower la)
                            -> List.In name (map Directory.lower lb)) ->
              (exists e, List.In e la /\ listed e s) ->
              exists e, List.In e lb /\ listed e s).
    { intros la lb Hsub (e & He & Hl).
      assert (Hn : List.In (Directory.lower e) (map Directory.lower lb))
        by (apply Hsub; now apply in_map).
      apply in_map_iff in Hn as (e' & Ee' & He'). exists e'. split; [exact He' | ].
      unfold listed in *. now rewrite Ee'. }
    split; (intros [H | H]; [now left | right]).
    - apply (X l1 l2); [intros n; apply Hsame | exact H].
    - apply (X l2 l1); [intros n; apply Hsame | exact H]. }
  now rewrite E.
Qed.

End Discovery.

Lemma get_exchange_tickers_returns_witness :
  let aapl := Directory.mk "AAPL" "apple" "Apple Inc." "AAPL/apple" in
  let warrant := Directory.mk "ABCDW" "abcd" "ABCD Warrants" "ABCDW/abcd" in
  let ibm := Directory.mk "IBM" "ibm" "IBM" "IBM/ibm" in
  let other := Directory.mk "ZZZ" "zzz" "Unlisted" "ZZZ/zzz" in
  Directory.get_exchange_tickers (Ok ["AAPL"; "ABCDW"]) (Ok ["IBM"])
    (Ok [aapl; warrant; ibm; other]) (fun l => l) ["NASDAQ"; "nyse"] false
  = Ok [aapl; ibm]
  /\ Directory.is_valid (Directory.symbol aapl) = true.
Proof.
  intros aapl warrant ibm other.
  assert (H : Directory.get_exchange_tickers (Ok ["AAPL"; "ABCDW"]) (Ok ["IBM"])
                (Ok [aapl; warrant; ibm; other]) (fun l => l) ["NASDAQ"; "nyse"] false
              = Ok [aapl; ibm]) by (vm_compute; reflexivity).
  split; [exact H | ].
  destruct (get_exchange_tickers_returns _ _ _ (fun l => l)
              (fun l => Permutation_refl l) _ _ _ H) as (df & _ & _ & Hrows & _).
  apply (Hrows aapl). now left.
Defined.

Lemma get_exchange_tickers_unsupported_witness :
  exists msg,
    Directory.get_exchange_tickers (Ok ["AAPL"]) (Ok ["IBM"]) (Ok []) (fun l => l)
      ["nasdaq"; "lse"] true = Raise msg.
Proof.
  apply (get_exchange_tickers_unsupported (Ok ["AAPL"]) (Ok ["IBM"]) (Ok [])
           (fun l => l) ["nasdaq"; "lse"] true "lse").
  - right. now left.
  - discriminate.
  - discriminate.
Defined.

Lemma get_exchange_tickers_set_of_exchanges_witness :
  let aapl := Directory.mk "AAPL" "apple" "Apple Inc." "AAPL/apple" in
  let ibm := Directory.mk "IBM" "ibm" "IBM" "IBM/ibm" in
  let get :=
    Directory.get_exchange_tickers (Ok ["AAPL"]) (Ok ["IBM"]) (Ok [aapl; ibm])
      (fun l => l) in
  exists out1 out2,
    get ["nyse"; "Nasdaq"; "NYSE"] false = Ok out1
    /\ get ["nasdaq"; "nyse"] false = Ok out2
    /\ out1 = out2.
Proof.
  intros aapl ibm get. eexists. eexists.
  split; [vm_compute; reflexivity | ].
  split; [vm_compute; reflexivity | ].
  apply (get_exchange_tickers_set_of_exchanges (Ok ["AAPL"]) (Ok ["IBM"])
           (Ok [aapl; ibm]) (fun l => l)
           ["nyse"; "Nasdaq"; "NYSE"] ["nasdaq"; "nyse"] false).
  - intros name. vm_compute. tauto.
  - vm_compute. reflexivity.
  - vm_compute. reflexivity.
Defined.

(** ** The price and time checker *)

(** The four lists of [classify_by_holding_period] never share a row. *)
Theorem holding_periods_are_disjoint (today : Z) (df : list Checker.row)
    (r : Checker.row) :
  let '(one_year, two_years_hd, two_years_ld, three_years) :=
    Checker.classify_by_holding_period today df in
  ~ (List.In r one_year /\ List.In r two_years_hd)
  /\ ~ (List.In r one_year /\ List.In r two_years_ld)
  /\ ~ (List.In r one_year /\ List.In r three_years)
  /\ ~ (List.In r two_years_hd /\ List.In r two_years_ld)
  /\ ~ (List.In r two_years_hd /\ List.In r three_years)
  /\ ~ (List.In r two_years_ld /\ List.In r three_years).
Proof.
  unfold Checker.classify_by_holding_period. cbv zeta.
  rewrite !filter_In. unfold Checker.on_or_before, Checker.after, Checker.has_level,
    Checker.timedelta_days.
  destruct (Checker.purchase_date r) as [d | ].
  2:{ repeat split; intros [[_ H] _]; discriminate. }
  destruct (Checker.debt_level r) as [level | ].
  2:{ repeat split; intros [[_ H1] [_ H2]];
        rewrite ?andb_false_r in *; discriminate. }
  repeat split; intros [[_ H1] [_ H2]];
    repeat match goal with
           | H : _ && _ = true |- _ => apply andb_true_iff in H as [? ?]
           end;
    repeat match goal with
           | H : (_ <=? _) = true |- _ => apply Z.leb_le in H
           | H : (_ <? _) = true |- _ => apply Z.ltb_lt in H
           | H : String.eqb _ _ = true |- _ => apply String.eqb_eq in H
           end;
    try lia; congruence.
Qed.

(** Which rows are listed at all: a row is in one of the four lists
    exactly when it was bought three years ago or earlier, or between
    two and three years ago with the debt level "HD" or "LD", or between
    one and two years ago with the debt level "HD".  So a row bought
    less than a year ago, a row without purchase date, and a "LD" row
    bought between one and two years ago are in no list. *)
Theorem holding_periods_listed (today : Z) (df : list Checker.row)
    (r : Checker.row) :
  let '(one_year, two_years_hd, two_years_ld, three_years) :=
    Checker.classify_by_holding_period today df in
  let year := Checker.timedelta_days 365 in
  (List.In r one_year \/ List.In r two_years_hd
   \/ List.In r two_years_ld \/ List.In r three_years)
  <-> List.In r df
      /\ exists d,
           Checker.purchase_date r = Some d
           /\ (d <= today - 3 * year
               \/ (d <= today - 2 * year
                   /\ (Checker.debt_level r = Some "HD"
                       \/ Checker.debt_level r = Some "LD"))
               \/ (d <= today - year /\ today - 2 * year < d
                   /\ Checker.debt_level r = Some "HD")).
Proof.
  unfold Checker.classify_by_holding_period. cbv zeta.
  rewrite !filter_In. unfold Checker.on_or_before, Checker.after, Checker.has_level,
    Checker.timedelta_days.
  destruct (Checker.purchase_date r) as [d | ].
  2:{ split.
      - intros [[_ H] | [[_ H] | [[_ H] | [_ H]]]]; discriminate.
      - intros (_ & d & H & _). discriminate. }
  assert (Hlevel : forall level,
            match Checker.debt_level r with
            | Some s => String.eqb s level
            | None => false
            end = true <-> Checker.debt_level r = Some level).
  { intros level. destruct (Checker.debt_level r) as [s | ].
    - rewrite String.eqb_eq. split; [now intros -> | now intros [= ->]].
    - split; discriminate. }
  rewrite !andb_true_iff, !Z.leb_le, !Z.ltb_lt, !Hlevel. split.
  - intros H. assert (Hin : List.In r df) by tauto. split; [exact Hin | ].
    exists d. split; [reflexivity | ].
    destruct H as [(_ & (A & B) & L) | [(_ & (A & B) & L)
                   | [(_ & (A & B) & L) | (_ & A)]]].
    + right. right. repeat split; [lia | lia | exact L].
    + right. left. split; [lia | left; exact L].
    + right. left. split; [lia | right; exact L].
    + left. lia.
  - intros (Hin & d' & [= <-] & H).
    destruct (Z_le_gt_dec d (today - 1095 * 86400 * 1000000)) as [Hold | Hnew].
    { right. right. right. split; [exact Hin | exact Hold]. }
    destruct H as [H | [[H1 [H2 | H2]] | (H1 & H2 & H3)]].
    + lia.
    + right. left. repeat split; [exact Hin | lia | lia | exact H2].
    + right. right. left. repeat split; [exact Hin | lia | lia | exact H2].
    + left. repeat split; [exact Hin | lia | lia | exact H3].
Qed.

Section TargetPrices.

Variable get_live_price : string -> result float.

Lemma length_zero_empty (s : string) : (String.length s =? 0)%nat = true <-> s = "".
Proof.
  destruct s; simpl; split; try reflexivity; try discriminate.
Qed.

Lemma update_prices_spec (tickers : list string) (cache : gmap string float)
    (calls : list string) res cache' calls' :
  Checker.update_prices get_live_price tickers cache calls = (res, cache', calls') ->
  (forall k v, cache !! k = Some v -> cache' !! k = Some v)
  /\ (exists new,
        calls' = calls ++ new
        /\ List.NoDup new
        /\ forall t, List.In t new ->
                     cache !! t = None /\ t <> "" /\ List.In t tickers)
  /\ (res = Ok tt ->
      forall t, List.In t tickers -> t <> "" -> is_Some (cache' !! t)).
Proof.
  revert cache calls. induction tickers as [ | t rest IH]; intros cache calls;
    cbn [Checker.update_prices].
  - intros [= <- <- <-]. split; [auto | ]. split.
    + exists []. rewrite app_nil_r. split; [reflexivity | ].
      split; [apply List.NoDup_nil | intros t []].
    + intros _ t [].
  - destruct (String.length t =? 0)%nat eqn:Elen.
    { apply length_zero_empty in Elen. intros H.
      destruct (IH _ _ H) as (H1 & (new & H2 & H3 & H4) & H5).
      split; [exact H1 | ]. split.
      - exists new. split; [exact H2 | ]. split; [exact H3 | ].
        intros t' Ht'. destruct (H4 t' Ht') as (A & B & C).
        split; [exact A | ]. split; [exact B | now right].
      - intros Hok t' [<- | Ht'] Hne; [contradiction | now apply H5]. }
    destruct (cache !! t) as [p | ] eqn:Ec.
    { intros H. destruct (IH _ _ H) as (H1 & (new & H2 & H3 & H4) & H5).
      split; [exact H1 | ]. split.
      - exists new. split; [exact H2 | ]. split; [exact H3 | ].
        intros t' Ht'. destruct (H4 t' Ht') as (A & B & C).
        split; [exact A | ]. split; [exact B | now right].
      - intros Hok t' [<- | Ht'] Hne; [ | now apply H5].
        exists p. now apply H1. }
    assert (Hne : t <> "").
    { intros ->. discriminate Elen. }
    destruct (get_live_price t) as [p | e].
    + intros H. destruct (IH _ _ H) as (H1 & (new & H2 & H3 & H4) & H5).
      assert (Hfresh : forall t', List.In t' new -> t' <> t /\ cache !! t' = None).
      { intros t' Ht'. destruct (H4 t' Ht') as (Hn & _ & _).
        destruct (decide (t' = t)) as [-> | Hd].
        - rewrite lookup_insert_eq in Hn. discriminate.
        - rewrite lookup_insert_ne in Hn by congruence. auto. }
      split.
      { intros k v Hk. apply H1. rewrite lookup_insert_ne; [exact Hk | ].
        intros <-. congruence. }
      split.
      * exists (t :: new). split; [now rewrite H2, <- app_assoc | ]. split.
        -- apply List.NoDup_cons; [ | exact H3].
           intros Hin. now destruct (Hfresh t Hin).
        -- intros t' [<- | Ht'].
           ++ split; [exact Ec | ]. split; [exact Hne | now left].
           ++ destruct (Hfresh t' Ht') as [_ Hn].
              destruct (H4 t' Ht') as (_ & Hn' & Hin).
              split; [exact Hn | ]. split; [exact Hn' | now right].
      * intros Hok t' [<- | Ht'] Hne'; [ | now apply H5].
        exists p. apply H1. apply lookup_insert_eq.
    + intros [= <- <- <-]. split; [auto | ]. split.
      * exists [t]. split; [reflexivity | ]. split.
        -- apply List.NoDup_cons; [intros [] | apply List.NoDup_nil].
        -- intros t' [<- | []]. split; [exact Ec | ]. split; [exact Hne | now left].
      * discriminate.
Qed.


(** The returned frame: when [check_target_prices] returns, the frame of
    the caller has got the two columns, the returned rows are exactly
    its rows whose price is [>=] the target price, and the price of a
    row with a non-empty ticker is the cached price of that ticker: the
    default 0 is never used for it. *)
Theorem check_target_prices_returns_reached (df : list Checker.row)
    (price_cache : gmap string float) (out : list Checker.row) :
  let '(res, df', current_prices, calls) :=
    Checker.check_target_prices get_live_price df price_cache in
  res = Ok out ->
  df' = map (Checker.with_prices current_prices) df
  /\ (forall r, List.In r out <->
                exists r0, List.In r0 df
                           /\ r = Checker.with_prices current_prices r0
                           /\ Float.geb (Checker.price_of current_prices (Checker.ticker r0))
                                        (Checker.target_price r0) = true)
  /\ (forall r0, List.In r0 df -> Checker.ticker r0 <> "" ->
                 exists price,
                   current_prices !! Checker.ticker r0 = Some price
                   /\ Checker.current_price (Checker.with_prices current_prices r0)
                      = Some price).
Proof.
  unfold Checker.check_target_prices.
  destruct (Checker.update_prices get_live_price (map Checker.ticker df) price_cache [])
    as [[res cache'] calls] eqn:E.
  destruct (update_prices_spec _ _ _ _ _ _ E) as (_ & _ & H5).
  destruct res as [[] | e]; [ | discriminate].
  intros [= <-]. split; [reflexivity | ]. split.
  - intros r. rewrite filter_In, in_map_iff. split.
    + intros [(r0 & <- & Hr0) Hb]. exists r0. repeat split; auto.
    + intros (r0 & Hr0 & -> & Hb). split; [eauto | exact Hb].
  - intros r0 Hr0 Hne.
    destruct (H5 eq_refl (Checker.ticker r0) (in_map _ _ _ Hr0) Hne) as [price Hp].
    exists price. split; [exact Hp | ].
    cbn [Checker.with_prices Checker.current_price]. unfold Checker.price_of.
    now rewrite Hp.
Qed.

End TargetPrices.


Lemma check_target_prices_returns_reached_witness :
  let get_live_price := fun t : string =>
    (if String.eqb t "AAPL" then Ok (Float.of_Z 210)
     else Ok (Float.of_Z 100)) : result float in
  let aapl := Checker.mk "AAPL" None (Float.of_Z 200) (Some "HD") None None in
  let mhk := Checker.mk "MHK" None (Float.of_Z 135) (Some "LD") None None in
  let '(res, df', current_prices, calls) :=
    Checker.check_target_prices get_live_price [aapl; mhk] ∅ in
  exists out,
    res = Ok out
    /\ df' = map (Checker.with_prices current_prices) [aapl; mhk]
    /\ (forall r, List.In r out <->
          exists r0, List.In r0 [aapl; mhk]
                     /\ r = Checker.with_prices current_prices r0
                     /\ Float.geb (Checker.price_of current_prices (Checker.ticker r0))
                                  (Checker.target_price r0) = true)
    /\ (forall r0, List.In r0 [aapl; mhk] -> Checker.ticker r0 <> "" ->
          exists price,
            current_prices !! Checker.ticker r0 = Some price
            /\ Checker.current_price (Checker.with_prices current_prices r0)
               = Some price).
Proof.
  intros get_live_price aapl mhk.
  generalize (fun out => check_target_prices_returns_reached get_live_price
                           [aapl; mhk] ∅ out).
  destruct (Checker.check_target_prices get_live_price [aapl; mhk] ∅)
    as [[[res df'] current_prices] calls] eqn:E.
  intros H.
  assert (Hres : exists out, res = Ok out).
  { apply (f_equal (fun x => fst (fst (fst x)))) in E. cbn [fst] in E.
    rewrite <- E. vm_compute. eexists. reflexivity. }
  destruct Hres as [out Hout]. exists out. split; [exact Hout | ].
  exact (H out Hout).
Defined.
